(** * Financial-NewsFeed: ingestion-to-digest pipeline

    A shallow embedding of the Python backend (rate limiter, deduplicator,
    normalizer, LLM provider base class, pipeline orchestrator) together
    with the properties stated about it.

    Conventions.
    - A Python [str] is a list of Unicode code points ([pystr]); [len] is
      [length] and the slice [s[:n]] is [firstn n s].
    - Exceptions are values of [exn]; a call that may raise returns an
      [outcome].
    - Wall-clock quantities (seconds) are exact rationals. *)

From Stdlib Require Import List String Ascii Bool Arith ZArith NArith QArith Qminmax Lia.
From Stdlib Require Import DecimalString PrimFloat Lqa.
Import ListNotations.

Close Scope Q_scope.
Set Implicit Arguments.

(* ================================================================== *)
(** * Python strings *)
(* ================================================================== *)

Definition codepoint := N.
Definition pystr := list codepoint.

(** [py "text"] is the Python literal ["text"] (ASCII literals only). *)
Definition py (s : string) : pystr :=
  List.map N_of_ascii (list_ascii_of_string s).

Fixpoint str_eqb (a b : pystr) : bool :=
  match a, b with
  | [], [] => true
  | x :: a', y :: b' => N.eqb x y && str_eqb a' b'
  | _, _ => false
  end.

(** [str(n)] for an [int]. *)
Definition str_of_Z (z : Z) : pystr := py (NilZero.string_of_int (Z.to_int z)).

(** [x in xs] for a list (or the key set of a dict) of strings. *)
Definition str_in (x : pystr) (xs : list pystr) : bool :=
  existsb (str_eqb x) xs.

(** Truth value of a string: non-empty. *)
Definition str_truthy (s : pystr) : bool :=
  match s with [] => false | _ => true end.

(** [Subseq l1 l2]: [l1] is [l2] with some elements left out (same
    elements, same relative order). *)
Inductive Subseq (A : Type) : list A -> list A -> Prop :=
| Subseq_nil : Subseq [] []
| Subseq_skip : forall (x : A) (l1 l2 : list A),
    Subseq l1 l2 -> Subseq l1 (x :: l2)
| Subseq_take : forall (x : A) (l1 l2 : list A),
    Subseq l1 l2 -> Subseq (x :: l1) (x :: l2).

(** Insertion-ordered dictionaries with string keys. *)
Section Dict.
Variable V : Type.

Definition dict := list (pystr * V).

Fixpoint dict_get (k : pystr) (d : dict) : option V :=
  match d with
  | [] => None
  | (k', v) :: d' => if str_eqb k k' then Some v else dict_get k d'
  end.

Definition dict_mem (k : pystr) (d : dict) : bool :=
  match dict_get k d with Some _ => true | None => false end.

(** [d[k] = v]: replaces in place, or appends a new key at the end. *)
Fixpoint dict_set (k : pystr) (v : V) (d : dict) : dict :=
  match d with
  | [] => [(k, v)]
  | (k', v') :: d' =>
      if str_eqb k k' then (k', v) :: d' else (k', v') :: dict_set k v d'
  end.

Definition dict_keys (d : dict) : list pystr := List.map fst d.
Definition dict_values (d : dict) : list V := List.map snd d.

End Dict.

(* ================================================================== *)
(** * Exceptions and outcomes *)
(* ================================================================== *)

(** [ValidationError] carries its line errors as (field, error type)
    pairs; the other exceptions carry their message. *)
Inductive exn : Type :=
| ValueError (msg : pystr)
| TypeError (msg : pystr)
| KeyError (msg : pystr)
| RuntimeError (msg : pystr)
| UnboundLocalError (name : pystr)
| AttributeError (msg : pystr)
| ValidationError (errors : list (pystr * pystr))
| AIAnalysisError (msg : pystr)
| RateLimitError (msg : pystr) (retry_after : option Q)
| HTTPStatusError (status_code : Z) (retry_after_header : option pystr)
| ConnectError (msg : pystr)
| TimeoutException (msg : pystr)
| OtherException (msg : pystr)
| CancelledError.

(** [except Exception] catches everything but [BaseException]-only
    classes (task cancellation). *)
Definition is_Exception (e : exn) : bool :=
  match e with CancelledError => false | _ => true end.

Definition is_ValidationError (e : exn) : bool :=
  match e with ValidationError _ => true | _ => false end.

Inductive outcome (A : Type) : Type :=
| Return (a : A)
| Raise (e : exn).
Arguments Return {A} a.
Arguments Raise {A} e.

(* ================================================================== *)
(** * utils/rate_limiter.py *)
(* ================================================================== *)

Module RateLimiter.

(** [_calculate_backoff(attempt, retry_after)], with the draw of
    [random.uniform(0.75, 1.25)] made explicit. *)
Definition _calculate_backoff
    (attempt : nat) (jitter : Q) (retry_after : option Q) : Q :=
  let base_wait := inject_Z (2 ^ Z.of_nat attempt) in
  let wait_time := (base_wait * jitter)%Q in
  let wait_time :=
    match retry_after with
    | Some ra => if Qeq_bool ra 0 then wait_time else Qmax wait_time ra
    | None => wait_time
    end in
  Qmin wait_time 60.

Section Execute.
(** Result type of the wrapped operation. *)
Variable T : Type.
(** [float(s)]: [None] when it raises [ValueError]. *)
Variable float_of_str : pystr -> option Q.
(** Names with a registered limiter ([self._limiters]). *)
Variable _limiters : list pystr.
(** Outcome of the [attempt]-th invocation of the wrapped operation. *)
Variable func : nat -> outcome T.
(** Jitter drawn in the [attempt]-th iteration. *)
Variable jitter : nat -> Q.

Definition _parse_retry_after (header : option pystr) : option Q :=
  match header with
  | Some retry_after =>
      if str_truthy retry_after then float_of_str retry_after else None
  | None => None
  end.

(** [acquire]: the token bucket only delays; an unknown API raises. *)
Definition acquire (api_name : pystr) : outcome unit :=
  if str_in api_name _limiters then Return tt
  else Raise (ValueError (py "Unknown API: " ++ api_name)).

Definition retryable_status (code : Z) : bool :=
  existsb (Z.eqb code) [500; 502; 503; 504]%Z.

Definition rate_limit_message (api_name : pystr) (max_retries : Z) : pystr :=
  py "Rate limit exceeded for " ++ api_name ++ py " after "
    ++ str_of_Z max_retries ++ py " retries".

(** One pass of the [for attempt in range(max_retries + 1)] loop over
    the remaining [todo] iterations.  The state is [last_error] and
    the list of performed sleeps (most recent last). *)
Fixpoint execute_loop (api_name : pystr) (max_retries : Z)
    (todo attempt : nat) (last_error : option exn) (sleeps : list Q)
    : outcome T * list Q :=
  match todo with
  | O =>
      match last_error with
      | Some e => (Raise e, sleeps)
      | None =>
          (Raise (RuntimeError (py "Unexpected state in rate limiter")),
           sleeps)
      end
  | S todo' =>
      match acquire api_name with
      | Raise e => (Raise e, sleeps)
      | Return _ =>
          match func attempt with
          | Return result => (Return result, sleeps)
          | Raise (HTTPStatusError code header as e) =>
              if (code =? 429)%Z then
                let retry_after := _parse_retry_after header in
                if (Z.of_nat attempt <? max_retries)%Z then
                  let wait_time :=
                    _calculate_backoff attempt (jitter attempt) retry_after in
                  execute_loop api_name max_retries todo' (S attempt)
                    (Some e) (sleeps ++ [wait_time])
                else
                  (Raise (RateLimitError
                            (rate_limit_message api_name max_retries)
                            retry_after), sleeps)
              else if retryable_status code then
                if (Z.of_nat attempt <? max_retries)%Z then
                  let wait_time :=
                    _calculate_backoff attempt (jitter attempt) None in
                  execute_loop api_name max_retries todo' (S attempt)
                    (Some e) (sleeps ++ [wait_time])
                else (Raise e, sleeps)
              else (Raise e, sleeps)
          | Raise (ConnectError _ as e) | Raise (TimeoutException _ as e) =>
              if (Z.of_nat attempt <? max_retries)%Z then
                let wait_time :=
                  _calculate_backoff attempt (jitter attempt) None in
                execute_loop api_name max_retries todo' (S attempt)
                  (Some e) (sleeps ++ [wait_time])
              else (Raise e, sleeps)
          | Raise e => (Raise e, sleeps)
          end
      end
  end.

Definition execute (api_name : pystr) (max_retries : Z)
    : outcome T * list Q :=
  execute_loop api_name max_retries
    (Z.to_nat (max_retries + 1)) 0 None [].

(** The Retry-After value handed to [_calculate_backoff] after the
    failure [r]: only a 429 response is read for one. *)
Definition backoff_hint (r : outcome T) : option Q :=
  match r with
  | Raise (HTTPStatusError code header) =>
      if (code =? 429)%Z then _parse_retry_after header else None
  | _ => None
  end.

(** The failures the middleware retries. *)
Definition retryable (r : outcome T) : bool :=
  match r with
  | Raise (HTTPStatusError code _) => (code =? 429)%Z || retryable_status code
  | Raise (ConnectError _) | Raise (TimeoutException _) => true
  | _ => false
  end.

(** What [execute] raises when the last permitted attempt fails with
    the retryable failure [r]. *)
Definition exhausted_error (api_name : pystr) (max_retries : Z)
    (r : outcome T) : outcome T :=
  match r with
  | Raise (HTTPStatusError code header) =>
      if (code =? 429)%Z then
        Raise (RateLimitError (rate_limit_message api_name max_retries)
                 (_parse_retry_after header))
      else r
  | _ => r
  end.
End Execute.

End RateLimiter.

(* ================================================================== *)
(** * Character classes and string operations *)
(* ================================================================== *)

Open Scope N_scope.

Definition is_ascii (c : codepoint) : bool := c <? 128.
Definition ascii_isupper (c : codepoint) : bool := (65 <=? c) && (c <=? 90).
Definition ascii_islower (c : codepoint) : bool := (97 <=? c) && (c <=? 122).
Definition ascii_isdigit (c : codepoint) : bool := (48 <=? c) && (c <=? 57).
Definition ascii_isalnum (c : codepoint) : bool :=
  ascii_isupper c || ascii_islower c || ascii_isdigit c.
(** [Py_UNICODE_ISSPACE] on ASCII: TAB..CR, FS..US and the space. *)
Definition ascii_isspace (c : codepoint) : bool :=
  ((9 <=? c) && (c <=? 13)) || ((28 <=? c) && (c <=? 32)).
Definition ascii_lower (c : codepoint) : codepoint :=
  if ascii_isupper c then c + 32 else c.

Definition str_isascii (s : pystr) : bool := forallb is_ascii s.

(** A surrogate code point.  A [str] may hold one (decoded from a JSON
    escape, for instance), and cannot then be encoded as UTF-8. *)
Definition is_surrogate (c : codepoint) : bool :=
  (55296 <=? c) && (c <=? 57343).

Definition encodable (s : pystr) : bool :=
  forallb (fun c => negb (is_surrogate c)) s.

(** The Unicode character database beyond ASCII.  On ASCII input the
    operations below are given concretely; these fields are consulted
    only for strings (code points) that are not ASCII.  The last field
    is the parser of the [ipaddress] module, which [urlsplit] consults
    for a host in brackets: [ipaddress.ip_address(s)] is an IPv4 address
    ([Some 4]), an IPv6 address ([Some 6]) or raises [ValueError]
    ([None]). *)
Record UnicodeData : Type := {
  uni_normalize_nfkc : pystr -> pystr;
  uni_lower : pystr -> pystr;
  uni_isalnum : codepoint -> bool;
  uni_isspace : codepoint -> bool;
  ip_address : pystr -> option N
}.

(** The database in which no code point beyond ASCII is a letter, a digit
    or white space, and none is changed by NFKC or lower-casing (the
    ASCII letters of a mixed string are lower-cased); no text is read as
    an address. *)
Definition ascii_only : UnicodeData := {|
  uni_normalize_nfkc := fun s => s;
  uni_lower := List.map ascii_lower;
  uni_isalnum := fun _ => false;
  uni_isspace := fun _ => false;
  ip_address := fun _ => None
|}.

Section Unicode.
Variable U : UnicodeData.

(** [unicodedata.normalize('NFKC', s)]: ASCII text is already normal. *)
Definition normalize_nfkc (s : pystr) : pystr :=
  if str_isascii s then s else uni_normalize_nfkc U s.

(** [s.lower()] *)
Definition lower (s : pystr) : pystr :=
  if str_isascii s then List.map ascii_lower s else uni_lower U s.

(** [c.isspace()], also the class [\s] of [re] and the separator of
    [str.split()] and [str.strip()]. *)
Definition isspace (c : codepoint) : bool :=
  if is_ascii c then ascii_isspace c else uni_isspace U c.

(** The class [\w] of [re] on [str] patterns: alphanumeric or [_]. *)
Definition is_word (c : codepoint) : bool :=
  if is_ascii c then ascii_isalnum c || (c =? 95) else uni_isalnum U c.

(** [s.split()]: the maximal runs of non-space characters.  [cur] is
    the run being read. *)
Fixpoint split_ws_from (cur s : pystr) : list pystr :=
  match s with
  | [] => match cur with [] => [] | _ => [cur] end
  | c :: s' =>
      if isspace c then
        match cur with
        | [] => split_ws_from [] s'
        | _ => cur :: split_ws_from [] s'
        end
      else split_ws_from (cur ++ [c]) s'
  end.

Definition split_ws (s : pystr) : list pystr := split_ws_from [] s.

Fixpoint lstrip_ws (s : pystr) : pystr :=
  match s with
  | c :: s' => if isspace c then lstrip_ws s' else s
  | [] => []
  end.

(** [s.strip()] *)
Definition strip (s : pystr) : pystr :=
  lstrip_ws (rev (lstrip_ws (rev s))).
End Unicode.



(** [sep.join(pieces)] *)
Fixpoint join (sep : pystr) (pieces : list pystr) : pystr :=
  match pieces with
  | [] => []
  | [p] => p
  | p :: ps => p ++ sep ++ join sep ps
  end.




(** [c in s] for a character. *)
Definition has_char (c : codepoint) (s : pystr) : bool := existsb (N.eqb c) s.

(** Split at the first occurrence of [c]: [s.split(c, 1)] when [c in s]. *)
Fixpoint cut (c : codepoint) (s : pystr) : option (pystr * pystr) :=
  match s with
  | [] => None
  | x :: s' =>
      if x =? c then Some ([], s')
      else match cut c s' with
           | Some (a, b) => Some (x :: a, b)
           | None => None
           end
  end.

(** [s.split(c)]: all the pieces between occurrences of [c]. *)
Fixpoint split_on (c : codepoint) (s : pystr) : list pystr :=
  match s with
  | [] => [[]]
  | x :: s' =>
      if x =? c then [] :: split_on c s'
      else match split_on c s' with
           | p :: ps => (x :: p) :: ps
           | [] => [[x]]
           end
  end.

(** The longest prefix without a character satisfying [stop], and the rest. *)
Fixpoint break_at (stop : codepoint -> bool) (s : pystr) : pystr * pystr :=
  match s with
  | [] => ([], [])
  | x :: s' =>
      if stop x then ([], s)
      else let '(a, b) := break_at stop s' in (x :: a, b)
  end.

Fixpoint lstrip_if (p : codepoint -> bool) (s : pystr) : pystr :=
  match s with
  | c :: s' => if p c then lstrip_if p s' else s
  | [] => []
  end.

(** [s.rstrip(c)] for a single character. *)
Definition rstrip_char (c : codepoint) (s : pystr) : pystr :=
  rev (lstrip_if (N.eqb c) (rev s)).

(** [s.replace(c, "")] *)
Definition remove_char (c : codepoint) (s : pystr) : pystr :=
  filter (fun x => negb (x =? c)) s.

(** [s.replace(c, d)] for single characters. *)
Definition replace_char (c d : codepoint) (s : pystr) : pystr :=
  List.map (fun x => if x =? c then d else x) s.

Fixpoint startswith (prefix s : pystr) : bool :=
  match prefix, s with
  | [], _ => true
  | p :: prefix', x :: s' => (p =? x) && startswith prefix' s'
  | _ :: _, [] => false
  end.

(** Split before the last occurrence of [c]: [(s[:i], s[i:])] with
    [i = s.rfind(c)]. *)
Definition rcut (c : codepoint) (s : pystr) : option (pystr * pystr) :=
  match cut c (rev s) with
  | Some (after_rev, before_rev) => Some (rev before_rev, c :: rev after_rev)
  | None => None
  end.

Close Scope N_scope.

(* ================================================================== *)
(** * urllib.parse (the functions canonicalize_url calls) *)
(* ================================================================== *)

Module Urllib.
Open Scope N_scope.

Record ParseResult : Type := {
  scheme : pystr;
  netloc : pystr;
  path : pystr;
  params : pystr;
  query : pystr;
  fragment : pystr
}.

Definition uses_netloc : list pystr :=
  List.map py
    [""; "ftp"; "http"; "gopher"; "nntp"; "telnet"; "imap"; "wais"; "file";
     "mms"; "https"; "shttp"; "snews"; "prospero"; "rtsp"; "rtspu"; "rsync";
     "svn"; "svn+ssh"; "sftp"; "nfs"; "git"; "git+ssh"; "ws"; "wss"]%string.

Definition uses_params : list pystr :=
  List.map py
    [""; "ftp"; "hdl"; "prospero"; "http"; "imap"; "https"; "shttp"; "rtsp";
     "rtspu"; "sip"; "sips"; "mms"; "sftp"; "tel"]%string.

(** [scheme_chars]: letters, digits and [+-.] *)
Definition scheme_char (c : codepoint) : bool :=
  ascii_isalnum c || (c =? 43) || (c =? 45) || (c =? 46).

(** One of [/?#]. *)
Definition netloc_delim (c : codepoint) : bool :=
  (c =? 47) || (c =? 63) || (c =? 35).

(** [_splitnetloc(url, 2)] *)
Definition _splitnetloc (url : pystr) : pystr * pystr :=
  break_at netloc_delim (skipn 2 url).

Section WithUnicode.
Variable U : UnicodeData.

(** [_checknetloc]: a non-ASCII netloc must not normalise to text
    holding one of [/?#@:]. *)
Definition _checknetloc (netloc : pystr) : outcome unit :=
  if negb (str_truthy netloc) || str_isascii netloc then Return tt
  else
    let n := remove_char 63 (remove_char 35
               (remove_char 58 (remove_char 64 netloc))) in
    let netloc2 := normalize_nfkc U n in
    if str_eqb n netloc2 then Return tt
    else if existsb (fun c => has_char c netloc2) (py "/?#@:")
         then Raise (ValueError (py "netloc contains invalid characters under NFKC normalization"))
         else Return tt.

(** The regular expression [\Av[a-fA-F0-9]+\..+\Z] of
    [_check_bracketed_host]. *)
Definition is_hex (c : codepoint) : bool :=
  ascii_isdigit c || ((65 <=? c) && (c <=? 70)) || ((97 <=? c) && (c <=? 102)).

Definition ipvfuture (hostname : pystr) : bool :=
  match hostname with
  | 118 :: rest =>
      let '(digits, after) := break_at (fun c => negb (is_hex c)) rest in
      str_truthy digits
      && match after with
         | 46 :: more =>
             str_truthy more && forallb (fun c => negb (c =? 10)) more
         | _ => false
         end
  | _ => false
  end.

Definition _check_bracketed_host (hostname : pystr) : outcome unit :=
  if startswith (py "v") hostname then
    if ipvfuture hostname then Return tt
    else Raise (ValueError (py "IPvFuture address is invalid"))
  else
    match ip_address U hostname with
    | Some 4 =>
        Raise (ValueError (py "An IPv4 address cannot be in brackets"))
    | Some _ => Return tt
    | None =>
        Raise (ValueError
                 (py "'" ++ hostname
                  ++ py "' does not appear to be an IPv4 or IPv6 address"))
    end.

(** [_check_bracketed_netloc(netloc)] *)
Definition _check_bracketed_netloc (netloc : pystr) : outcome unit :=
  let hostname_and_port :=
    match rcut 64 netloc with
    | Some (_, at_and_after) => tl at_and_after
    | None => netloc
    end in
  match cut 91 hostname_and_port with
  | Some (before_bracket, bracketed) =>
      if str_truthy before_bracket
      then Raise (ValueError (py "Invalid IPv6 URL"))
      else
        let '(hostname, port) :=
          match cut 93 bracketed with
          | Some (h, p) => (h, p)
          | None => (bracketed, [])
          end in
        if str_truthy port && negb (startswith (py ":") port)
        then Raise (ValueError (py "Invalid IPv6 URL"))
        else _check_bracketed_host hostname
  | None =>
      _check_bracketed_host
        match cut 58 hostname_and_port with
        | Some (h, _) => h
        | None => hostname_and_port
        end
  end.

(** [url[0].isascii() and url[0].isalpha()] *)
Definition starts_with_letter (url : pystr) : bool :=
  match url with
  | c :: _ => ascii_isupper c || ascii_islower c
  | [] => false
  end.

(** [urlsplit(url)]: (scheme, netloc, url, query, fragment). *)
Definition urlsplit (url : pystr)
    : outcome (pystr * pystr * pystr * pystr * pystr) :=
  let url := lstrip_if (fun c => c <=? 32) url in
  let url := remove_char 10 (remove_char 13 (remove_char 9 url)) in
  let '(scheme, url) :=
    match cut 58 url with
    | Some (before, after) =>
        if str_truthy before && starts_with_letter url
           && forallb scheme_char before
        then (List.map ascii_lower before, after)
        else ([], url)
    | None => ([], url)
    end in
  let '(netloc, url) :=
    if startswith (py "//") url then _splitnetloc url else ([], url) in
  if (has_char 91 netloc && negb (has_char 93 netloc))
     || (has_char 93 netloc && negb (has_char 91 netloc))
  then Raise (ValueError (py "Invalid IPv6 URL"))
  else
    match (if has_char 91 netloc && has_char 93 netloc
           then _check_bracketed_netloc netloc else Return tt) with
    | Raise e => Raise e
    | Return _ =>
        let '(url, fragment) :=
          match cut 35 url with Some (a, b) => (a, b) | None => (url, []) end in
        let '(url, query) :=
          match cut 63 url with Some (a, b) => (a, b) | None => (url, []) end in
        match _checknetloc netloc with
        | Raise e => Raise e
        | Return _ => Return (scheme, netloc, url, query, fragment)
        end
    end.

(** [_splitparams(url)]: the parameters of the last path segment. *)
Definition _splitparams (url : pystr) : pystr * pystr :=
  match rcut 47 url with
  | Some (before, last_segment) =>
      match cut 59 last_segment with
      | Some (a, b) => (before ++ a, b)
      | None => (url, [])
      end
  | None =>
      match cut 59 url with
      | Some (a, b) => (a, b)
      | None => (removelast url, url)
      end
  end.

Definition urlparse (url : pystr) : outcome ParseResult :=
  match urlsplit url with
  | Raise e => Raise e
  | Return (scheme, netloc, url, query, fragment) =>
      let '(url, params) :=
        if str_in scheme uses_params && has_char 59 url
        then _splitparams url else (url, []) in
      Return {| scheme := scheme; netloc := netloc; path := url;
                params := params; query := query; fragment := fragment |}
  end.
End WithUnicode.

Definition urlunsplit (scheme netloc url query fragment : pystr) : pystr :=
  let url :=
    if str_truthy netloc
       || (str_truthy scheme && str_in scheme uses_netloc
           && negb (startswith (py "//") url))
    then
      let url := if str_truthy url && negb (startswith (py "/") url)
                 then py "/" ++ url else url in
      py "//" ++ netloc ++ url
    else url in
  let url := if str_truthy scheme then scheme ++ py ":" ++ url else url in
  let url := if str_truthy query then url ++ py "?" ++ query else url in
  let url := if str_truthy fragment then url ++ py "#" ++ fragment else url in
  url.

Definition urlunparse (c : ParseResult) : pystr :=
  let url := if str_truthy (params c) then path c ++ py ";" ++ params c
             else path c in
  urlunsplit (scheme c) (netloc c) url (query c) (fragment c).

(** ** Percent-encoding *)

Definition hex_val (c : codepoint) : option N :=
  if ascii_isdigit c then Some (c - 48)
  else if (65 <=? c) && (c <=? 70) then Some (c - 55)
  else if (97 <=? c) && (c <=? 102) then Some (c - 87)
  else None.

(** [unquote_to_bytes] on an ASCII run: [%XX] becomes the byte; a [%]
    not followed by two hex digits stays. *)
Fixpoint unquote_to_bytes (s : pystr) : list N :=
  match s with
  | [] => []
  | c :: rest =>
      if c =? 37 then
        match rest with
        | h1 :: h2 :: rest' =>
            match hex_val h1, hex_val h2 with
            | Some a, Some b => (16 * a + b) :: unquote_to_bytes rest'
            | _, _ => c :: unquote_to_bytes rest
            end
        | _ => c :: unquote_to_bytes rest
        end
      else c :: unquote_to_bytes rest
  end.

Definition is_cont (b : N) : bool := (128 <=? b) && (b <=? 191).
Definition replacement : codepoint := 65533.

(** [bytes.decode('utf-8', 'replace')]: each maximal ill-formed
    subsequence becomes U+FFFD. *)
Fixpoint utf8_decode_replace (bs : list N) : pystr :=
  match bs with
  | [] => []
  | b0 :: r0 =>
      if b0 <? 128 then b0 :: utf8_decode_replace r0
      else if (194 <=? b0) && (b0 <=? 223) then
        match r0 with
        | b1 :: r1 =>
            if is_cont b1
            then ((b0 - 192) * 64 + (b1 - 128)) :: utf8_decode_replace r1
            else replacement :: utf8_decode_replace r0
        | [] => [replacement]
        end
      else if (224 <=? b0) && (b0 <=? 239) then
        match r0 with
        | b1 :: r1 =>
            if is_cont b1
               && (if b0 =? 224 then 160 <=? b1 else true)
               && (if b0 =? 237 then b1 <=? 159 else true)
            then
              match r1 with
              | b2 :: r2 =>
                  if is_cont b2
                  then ((b0 - 224) * 4096 + (b1 - 128) * 64 + (b2 - 128))
                         :: utf8_decode_replace r2
                  else replacement :: utf8_decode_replace r1
              | [] => [replacement]
              end
            else replacement :: utf8_decode_replace r0
        | [] => [replacement]
        end
      else if (240 <=? b0) && (b0 <=? 244) then
        match r0 with
        | b1 :: r1 =>
            if is_cont b1
               && (if b0 =? 240 then 144 <=? b1 else true)
               && (if b0 =? 244 then b1 <=? 143 else true)
            then
              match r1 with
              | b2 :: r2 =>
                  if is_cont b2 then
                    match r2 with
                    | b3 :: r3 =>
                        if is_cont b3
                        then ((b0 - 240) * 262144 + (b1 - 128) * 4096
                              + (b2 - 128) * 64 + (b3 - 128))
                               :: utf8_decode_replace r3
                        else replacement :: utf8_decode_replace r2
                    | [] => [replacement]
                    end
                  else replacement :: utf8_decode_replace r1
              | [] => [replacement]
              end
            else replacement :: utf8_decode_replace r0
        | [] => [replacement]
        end
      else replacement :: utf8_decode_replace r0
  end.

(** [s.encode('utf-8')]; [None] is [UnicodeEncodeError] (surrogates). *)
Definition utf8_encode_char (c : codepoint) : option (list N) :=
  if c <? 128 then Some [c]
  else if c <? 2048 then Some [192 + c / 64; 128 + c mod 64]
  else if (55296 <=? c) && (c <=? 57343) then None
  else if c <? 65536 then
    Some [224 + c / 4096; 128 + (c / 64) mod 64; 128 + c mod 64]
  else if c <? 1114112 then
    Some [240 + c / 262144; 128 + (c / 4096) mod 64;
          128 + (c / 64) mod 64; 128 + c mod 64]
  else None.

Fixpoint utf8_encode (s : pystr) : option (list N) :=
  match s with
  | [] => Some []
  | c :: s' =>
      match utf8_encode_char c, utf8_encode s' with
      | Some bs, Some rest => Some (bs ++ rest)
      | _, _ => None
      end
  end.

(** [unquote(s, 'utf-8', 'replace')]: the maximal ASCII runs are
    percent-decoded and decoded as UTF-8, other text is kept.  [run] is
    the ASCII run being read. *)
Fixpoint unquote_from (run s : pystr) : pystr :=
  match s with
  | [] => utf8_decode_replace (unquote_to_bytes run)
  | c :: s' =>
      if is_ascii c then unquote_from (run ++ [c]) s'
      else utf8_decode_replace (unquote_to_bytes run) ++ c :: unquote_from [] s'
  end.

Definition unquote (s : pystr) : pystr :=
  if has_char 37 s then unquote_from [] s else s.

(** [parse_qsl(qs, keep_blank_values=False)] *)
Definition parse_qsl (qs : pystr) : list (pystr * pystr) :=
  flat_map
    (fun name_value =>
       match cut 61 name_value with
       | Some (name, value) =>
           if str_truthy value
           then [(unquote (replace_char 43 32 name),
                  unquote (replace_char 43 32 value))]
           else []
       | None => []
       end)
    (split_on 38 qs).

(** [parse_qs(qs, keep_blank_values=False)]: name to list of values. *)
Fixpoint parse_qs_from (acc : dict (list pystr)) (pairs : list (pystr * pystr))
    : dict (list pystr) :=
  match pairs with
  | [] => acc
  | (name, value) :: rest =>
      match dict_get name acc with
      | Some values => parse_qs_from (dict_set name (values ++ [value]) acc) rest
      | None => parse_qs_from (dict_set name [value] acc) rest
      end
  end.

Definition parse_qs (qs : pystr) : dict (list pystr) :=
  parse_qs_from [] (parse_qsl qs).

(** [_ALWAYS_SAFE]: letters, digits and [_.-~] *)
Definition always_safe (b : N) : bool :=
  ascii_isalnum b || (b =? 95) || (b =? 46) || (b =? 45) || (b =? 126).

Definition hex_digit (n : N) : codepoint :=
  if n <? 10 then 48 + n else 55 + n.

Definition quote_byte (b : N) : pystr :=
  if always_safe b then [b]
  else if b =? 32 then [43]
  else [37; hex_digit (b / 16); hex_digit (b mod 16)].

(** [quote_plus(s)] with the default [safe = ''] *)
Definition quote_plus (s : pystr) : option pystr :=
  match utf8_encode s with
  | Some bs => Some (flat_map quote_byte bs)
  | None => None
  end.

(** The [key=value] pieces [urlencode(query, doseq=True)] joins: one for
    each value of each key, the key already quoted. *)
Fixpoint urlencode_values (k : pystr) (vs : list pystr)
    : option (list pystr) :=
  match vs with
  | [] => Some []
  | elt :: vs' =>
      match quote_plus elt, urlencode_values k vs' with
      | Some elt', Some rest => Some ((k ++ py "=" ++ elt') :: rest)
      | _, _ => None
      end
  end.

Fixpoint urlencode_pieces (q : dict (list pystr)) : option (list pystr) :=
  match q with
  | [] => Some []
  | (k, v) :: q' =>
      match quote_plus k with
      | None => None
      | Some k' =>
          match urlencode_values k' v, urlencode_pieces q' with
          | Some here, Some rest => Some (here ++ rest)
          | _, _ => None
          end
      end
  end.

(** [urlencode(query, doseq=True)]; [None] is [UnicodeEncodeError]. *)
Definition urlencode (q : dict (list pystr)) : option pystr :=
  match urlencode_pieces q with
  | Some pieces => Some (join (py "&") pieces)
  | None => None
  end.

Close Scope N_scope.
End Urllib.




(* ================================================================== *)
(** * Decoded JSON documents *)
(* ================================================================== *)

(** What [json.loads] returns: [None], [bool], [int], [float], [str],
    [list] and [dict] values. *)
#[warnings="-register-all"]
Inductive json : Type :=
| JNone
| JBool (b : bool)
| JInt (z : Z)
| JFloat (f : float)
| JStr (s : pystr)
| JList (l : list json)
| JDict (d : list (pystr * json)).

(* ================================================================== *)
(** * collectors/base.py *)
(* ================================================================== *)

Record datetime : Type := {
  year : N; month : N; day : N;
  hour : N; minute : N; second : N; microsecond : N
}.

Definition str_of_N (n : N) : pystr := py (NilZero.string_of_uint (N.to_uint n)).

(** Decimal with at least [width] digits, zero-padded on the left. *)
Definition zero_pad (width : nat) (n : N) : pystr :=
  let digits := str_of_N n in
  repeat 48%N (width - List.length digits) ++ digits.

(** [d.strftime("%Y-%m-%d")]: the C library writes the year as it is,
    without padding, and the month and the day with two digits. *)
Definition strftime_Ymd (d : datetime) : pystr :=
  str_of_N (year d) ++ py "-" ++ zero_pad 2 (month d) ++ py "-"
    ++ zero_pad 2 (day d).

Record RawNewsData : Type := {
  source : pystr;
  source_type : pystr;
  external_id : option pystr;
  url : pystr;
  title : pystr;
  summary : option pystr;
  published_at : option datetime;
  tickers : list pystr;
  raw_payload : option json;
  author : option pystr;
  category : option pystr;
  image_url : option pystr
}.

(* ================================================================== *)
(** * utils/deduplicator.py *)
(* ================================================================== *)

Module Deduplicator.

Record DedupClusterInfo : Type := {
  representative_url : pystr;
  member_urls : list pystr;
  method : pystr;
  similarity_score : option Q
}.

Record DedupResult : Type := {
  kept_items : list RawNewsData;
  removed_count : Z;
  clusters : list DedupClusterInfo
}.

(** [c] is a similarity cluster whose URLs are those of distinct items
    of [pool], in the order of [pool]. *)
Definition cluster_from (c : DedupClusterInfo) (pool : list RawNewsData)
    : Prop :=
  method c = py "similarity"
  /\ exists members : list RawNewsData,
       Subseq members pool
       /\ representative_url c :: member_urls c = List.map url members.

Definition TRACKING_PARAMS : list pystr :=
  List.map py
    ["utm_source"; "utm_medium"; "utm_campaign"; "utm_term"; "utm_content";
     "ref"; "source"; "fbclid"; "gclid"; "msclkid"; "mc_cid"; "mc_eid";
     "affiliate"; "partner"; "tracking"; "_ga"; "ncid"; "sr_share"]%string.

(** 64-bit Hamming distance, [Simhash.distance]. *)
Fixpoint popcount_pos (p : positive) : nat :=
  match p with
  | xH => 1
  | xO p' => popcount_pos p'
  | xI p' => S (popcount_pos p')
  end.

Definition popcount (n : N) : nat :=
  match n with N0 => 0 | Npos p => popcount_pos p end.

Definition distance (a b : N) : nat :=
  popcount (N.land (N.lxor a b) (N.ones 64)).

Section WithLibraries.
Variable U : UnicodeData.
(** [hashlib.sha256(s.encode('utf-8')).hexdigest()] *)
Variable sha256_hexdigest : pystr -> pystr.
(** [Simhash(text).value], a 64-bit fingerprint. *)
Variable Simhash : pystr -> N.
Variable SIMHASH_AVAILABLE : bool.
Variable similarity_threshold : Q.

(** [re.sub(r'[^\w\s]', ' ', title)] *)
Definition sub_punctuation (title : pystr) : pystr :=
  List.map (fun c => if is_word U c || isspace U c then c else 32%N) title.

Definition normalize_title (title : pystr) : pystr :=
  if negb (str_truthy title) then []
  else
    let title := normalize_nfkc U title in
    let title := lower U title in
    let title := sub_punctuation title in
    join (py " ") (split_ws U title).

Definition canonicalize_url (url : pystr) : pystr :=
  if negb (str_truthy url) then []
  else
    match Urllib.urlparse U url with
    | Raise _ => url
    | Return parsed =>
        let new_query :=
          if str_truthy (Urllib.query parsed) then
            let params := Urllib.parse_qs (Urllib.query parsed) in
            let filtered_params :=
              filter (fun kv => negb (str_in (lower U (fst kv)) TRACKING_PARAMS))
                     params in
            Urllib.urlencode filtered_params
          else Some [] in
        match new_query with
        | None => url
        | Some new_query =>
            Urllib.urlunparse
              {| Urllib.scheme := lower U (Urllib.scheme parsed);
                 Urllib.netloc := lower U (Urllib.netloc parsed);
                 Urllib.path := rstrip_char 47%N (Urllib.path parsed);
                 Urllib.params := Urllib.params parsed;
                 Urllib.query := new_query;
                 Urllib.fragment := [] |}
        end
    end.


Definition compute_content_hash (item : RawNewsData) : pystr :=
  let title_norm := normalize_title (title item) in
  let date_str :=
    match published_at item with
    | Some d => strftime_Ymd d
    | None => []
    end in
  let content := title_norm ++ py "|" ++ date_str ++ py "|" ++ source item in
  sha256_hexdigest content.

(** The loop shared by [_url_dedup] and [_hash_dedup]: [seen] maps a
    key to its first item, [duplicates] a key to the URLs merged
    under it (the first item's URL first). *)
Fixpoint first_seen_loop (key : RawNewsData -> pystr)
    (items : list RawNewsData)
    (seen : dict RawNewsData) (duplicates : dict (list pystr))
    : dict RawNewsData * dict (list pystr) :=
  match items with
  | [] => (seen, duplicates)
  | item :: rest =>
      let k := key item in
      match dict_get k seen with
      | Some first =>
          let urls :=
            match dict_get k duplicates with
            | Some urls => urls
            | None => [url first]
            end in
          first_seen_loop key rest seen
            (dict_set k (urls ++ [url item]) duplicates)
      | None =>
          first_seen_loop key rest (dict_set k item seen) duplicates
      end
  end.

Definition cluster_of_urls (meth : pystr) (urls : list pystr)
    : DedupClusterInfo :=
  {| representative_url := hd [] urls;
     member_urls := tl urls;
     method := meth;
     similarity_score := None |}.

Definition first_seen_dedup (key : RawNewsData -> pystr) (meth : pystr)
    (items : list RawNewsData)
    : list RawNewsData * list DedupClusterInfo :=
  let '(seen, duplicates) := first_seen_loop key items [] [] in
  (dict_values seen,
   List.map (fun kv => cluster_of_urls meth (snd kv)) duplicates).

(** Stage 1 *)
Definition _url_dedup (items : list RawNewsData) :=
  first_seen_dedup (fun item => canonicalize_url (url item))
    (py "url_exact") items.

(** Stage 2 *)
Definition _hash_dedup (items : list RawNewsData) :=
  first_seen_dedup compute_content_hash (py "hash_match") items.

(** The two nested loops shared by [_simhash_dedup] and
    [_simple_similarity_dedup], over the enumerated entries
    [(index, (item, feature))]. *)
Section Greedy.
Variable F : Type.
Variable similar : F -> F -> bool.

Definition entry : Type := (nat * (RawNewsData * F))%type.

Definition entry_item (e : entry) : RawNewsData := fst (snd e).

(** The inner loop over [entries[i+1:]]. *)
Fixpoint scan_later (feature_i : F) (later : list entry)
    (similar_items : list pystr) (removed : list nat)
    : list pystr * list nat :=
  match later with
  | [] => (similar_items, removed)
  | (j, (item_j, feature_j)) :: later' =>
      if existsb (Nat.eqb j) removed then
        scan_later feature_i later' similar_items removed
      else if similar feature_i feature_j then
        scan_later feature_i later'
          (similar_items ++ [url item_j]) (j :: removed)
      else scan_later feature_i later' similar_items removed
  end.

(** The outer loop. *)
Fixpoint greedy_loop (entries : list entry)
    (kept : list RawNewsData) (clusters : list DedupClusterInfo)
    (removed : list nat)
    : list RawNewsData * list DedupClusterInfo :=
  match entries with
  | [] => (kept, clusters)
  | (i, (item_i, feature_i)) :: later =>
      if existsb (Nat.eqb i) removed then
        greedy_loop later kept clusters removed
      else
        let '(similar_items, removed') :=
          scan_later feature_i later [url item_i] removed in
        let clusters' :=
          if (1 <? List.length similar_items)%nat then
            clusters ++
              [{| representative_url := hd [] similar_items;
                  member_urls := tl similar_items;
                  method := py "similarity";
                  similarity_score := Some similarity_threshold |}]
          else clusters in
        greedy_loop later (kept ++ [item_i]) clusters' removed'
  end.

Definition enumerate (l : list (RawNewsData * F)) : list entry :=
  combine (seq 0 (List.length l)) l.

Definition greedy_dedup (l : list (RawNewsData * F)) :=
  greedy_loop (enumerate l) [] [] [].
End Greedy.

Definition simhash_similar (hash_i hash_j : N) : bool :=
  let similarity := (1 - (Z.of_nat (distance hash_i hash_j) # 64))%Q in
  Qle_bool similarity_threshold similarity.

Definition _simhash_dedup (items : list RawNewsData) :=
  let hashes :=
    flat_map
      (fun item =>
         let title_norm := normalize_title (title item) in
         if str_truthy title_norm then [(item, Simhash title_norm)] else [])
      items in
  greedy_dedup simhash_similar hashes.

(** [set(...)]: the distinct tokens. *)
Definition token_set (words : list pystr) : list pystr :=
  nodup (list_eq_dec N.eq_dec) words.

Definition jaccard_similar (tokens_i tokens_j : list pystr) : bool :=
  let similarity :=
    match tokens_i, tokens_j with
    | _ :: _, _ :: _ =>
        let intersection :=
          List.length (filter (fun t => str_in t tokens_j) tokens_i) in
        let union := List.length (token_set (tokens_i ++ tokens_j)) in
        if (0 <? union)%nat
        then (Z.of_nat intersection # Pos.of_nat union)%Q
        else 0%Q
    | _, _ => 0%Q
    end in
  Qle_bool similarity_threshold similarity.

Definition _simple_similarity_dedup (items : list RawNewsData) :=
  let tokenized :=
    List.map
      (fun item => (item, token_set (split_ws U (normalize_title (title item)))))
      items in
  greedy_dedup jaccard_similar tokenized.

(** Stage 3 *)
Definition _similarity_dedup (items : list RawNewsData) :=
  if (List.length items <=? 1)%nat then (items, [])
  else if SIMHASH_AVAILABLE then _simhash_dedup items
  else _simple_similarity_dedup items.

Definition deduplicate (items : list RawNewsData) : DedupResult :=
  match items with
  | [] => {| kept_items := []; removed_count := 0%Z; clusters := [] |}
  | _ =>
      let original_count := Z.of_nat (List.length items) in
      let '(items1, url_clusters) := _url_dedup items in
      let '(items2, hash_clusters) := _hash_dedup items1 in
      let '(items3, sim_clusters) := _similarity_dedup items2 in
      {| kept_items := items3;
         removed_count := (original_count - Z.of_nat (List.length items3))%Z;
         clusters := url_clusters ++ hash_clusters ++ sim_clusters |}
  end.
End WithLibraries.

End Deduplicator.

(* ================================================================== *)
(** * models/schemas.py *)
(* ================================================================== *)

Module RawItemCreate.
Record t : Type := {
  source : pystr;
  source_type : pystr;
  external_id : option pystr;
  url : pystr;
  raw_payload : option json
}.
End RawItemCreate.

Module NewsItemCreate.
Record t : Type := {
  canonical_url : pystr;
  title : pystr;
  summary : option pystr;
  published_at : datetime;
  source : pystr;
  source_type : pystr;
  credibility : pystr;
  tickers : option (list pystr);
  title_normalized : option pystr;
  content_hash : option pystr;
  raw_item_id : option pystr
}.
End NewsItemCreate.

Module AIAnalysisOutput.
Record t : Type := {
  event_type : pystr;
  impact_direction : pystr;
  impact_horizon : pystr;
  thesis_relation : pystr;
  confidence : pystr;
  confidence_reason : pystr;
  summary : pystr;
  key_facts : list pystr;
  watch_next : pystr
}.

(** The [Literal[...]] types of the enum fields. *)
Definition EVENT_TYPES : list pystr :=
  List.map py ["earnings"; "guidance"; "regulatory"; "contract"; "product";
               "accident"; "macro"; "rumor"; "other"]%string.
Definition IMPACT_DIRECTIONS : list pystr :=
  List.map py ["bullish"; "bearish"; "neutral"]%string.
Definition IMPACT_HORIZONS : list pystr :=
  List.map py ["short"; "medium"; "long"]%string.
Definition THESIS_RELATIONS : list pystr :=
  List.map py ["supports"; "weakens"; "unrelated"]%string.
Definition CONFIDENCES : list pystr :=
  List.map py ["high"; "medium"; "low"]%string.

(** Outcome of validating a document against the model: the instance,
    the collected line errors ([ValidationError]), or an exception that
    escaped a field validator. *)
Inductive validation : Type :=
| Valid (a : t)
| Invalid (errors : list (pystr * pystr))
| Crashed (e : exn).

(** [bool(v)] *)
Definition truthy (v : json) : bool :=
  match v with
  | JNone => false
  | JBool b => b
  | JInt z => negb (z =? 0)%Z
  | JFloat f => negb (PrimFloat.eqb f PrimFloat.zero)
  | JStr s => str_truthy s
  | JList l => match l with [] => false | _ => true end
  | JDict d => match d with [] => false | _ => true end
  end.

Section Validators.
(** [str(v)] for a value that is not a [str]. *)
Variable repr : json -> pystr.

Definition py_str (v : json) : pystr :=
  match v with JStr s => s | _ => repr v end.

(** The [mode='before'] field validators. *)
Definition validate_key_facts (v : json) : outcome json :=
  match v with
  | JNone => Return (JList [])
  | JList l =>
      Return (JList (List.map (fun f => JStr (firstn 200 (py_str f)))
                              (firstn 3 l)))
  | JStr s =>
      Return (JList (List.map (fun c => JStr (firstn 200 [c]))
                              (firstn 3 s)))
  | _ => Raise (TypeError (py "object is not subscriptable"))
  end.

Definition validate_summary (v : json) : json :=
  JStr (if truthy v then firstn 100 (py_str v) else []).

Definition validate_confidence_reason (v : json) : json :=
  JStr (if truthy v then firstn 100 (py_str v) else []).

Definition validate_watch_next (v : json) : json :=
  JStr (if truthy v then firstn 50 (py_str v) else []).

(** The field types: [Literal[...]], [str] with [max_length],
    [List[str]] with [max_length]. *)
Definition check_literal (name : pystr) (allowed : list pystr) (v : json)
    : list (pystr * pystr) + pystr :=
  match v with
  | JStr s => if negb (encodable s) then inl [(name, py "string_unicode")]
              else if str_in s allowed then inr s
              else inl [(name, py "literal_error")]
  | _ => inl [(name, py "literal_error")]
  end.

(** A [str] field with a length bound: the text is read as UTF-8 before
    it is measured, which a surrogate makes fail. *)
Definition check_str (name : pystr) (max_length : nat) (v : json)
    : list (pystr * pystr) + pystr :=
  match v with
  | JStr s => if negb (encodable s) then inl [(name, py "string_unicode")]
              else if (List.length s <=? max_length)%nat then inr s
              else inl [(name, py "string_too_long")]
  | _ => inl [(name, py "string_type")]
  end.

Fixpoint check_str_items (name : pystr) (l : list json)
    : list (pystr * pystr) + list pystr :=
  match l with
  | [] => inr []
  | JStr s :: l' =>
      match check_str_items name l' with
      | inr ss => inr (s :: ss)
      | inl errs => inl errs
      end
  | _ :: l' =>
      match check_str_items name l' with
      | inr _ => inl [(name, py "string_type")]
      | inl errs => inl ((name, py "string_type") :: errs)
      end
  end.

Definition check_str_list (name : pystr) (max_length : nat) (v : json)
    : list (pystr * pystr) + list pystr :=
  match v with
  | JList l => if (List.length l <=? max_length)%nat
               then check_str_items name l
               else inl [(name, py "too_long")]
  | _ => inl [(name, py "list_type")]
  end.

Definition required {A : Type} (name : pystr) (d : dict json)
    (check : json -> list (pystr * pystr) + A)
    : list (pystr * pystr) + A :=
  match dict_get name d with
  | Some v => check v
  | None => inl [(name, py "missing")]
  end.

Definition errors_of {A : Type} (r : list (pystr * pystr) + A)
    : list (pystr * pystr) :=
  match r with inl errs => errs | inr _ => [] end.

(** [AIAnalysisOutput.model_validate(data)]: the fields are validated
    in declaration order; line errors are collected, any other
    exception escapes at once. *)
Definition model_validate (data : json) : validation :=
  match data with
  | JDict d =>
      let r_event := required (py "event_type") d
                       (check_literal (py "event_type") EVENT_TYPES) in
      let r_dir := required (py "impact_direction") d
                     (check_literal (py "impact_direction") IMPACT_DIRECTIONS) in
      let r_hor := required (py "impact_horizon") d
                     (check_literal (py "impact_horizon") IMPACT_HORIZONS) in
      let r_rel := required (py "thesis_relation") d
                     (check_literal (py "thesis_relation") THESIS_RELATIONS) in
      let r_conf := required (py "confidence") d
                      (check_literal (py "confidence") CONFIDENCES) in
      let r_reason := required (py "confidence_reason") d
                        (fun v => check_str (py "confidence_reason") 100
                                    (validate_confidence_reason v)) in
      let r_summary := required (py "summary") d
                         (fun v => check_str (py "summary") 100
                                     (validate_summary v)) in
      let r_facts : outcome (list (pystr * pystr) + list pystr) :=
        match dict_get (py "key_facts") d with
        | Some v =>
            match validate_key_facts v with
            | Return v' => Return (check_str_list (py "key_facts") 3 v')
            | Raise e => Raise e
            end
        | None => Return (inr [])
        end in
      match r_facts with
      | Raise e => Crashed e
      | Return r_facts =>
          let r_watch :=
            match dict_get (py "watch_next") d with
            | Some v => check_str (py "watch_next") 50 (validate_watch_next v)
            | None => inr []
            end in
          match r_event, r_dir, r_hor, r_rel, r_conf,
                r_reason, r_summary, r_facts, r_watch with
          | inr e, inr di, inr h, inr r, inr c, inr cr, inr s, inr k, inr w =>
              Valid {| event_type := e; impact_direction := di;
                       impact_horizon := h; thesis_relation := r;
                       confidence := c; confidence_reason := cr;
                       summary := s; key_facts := k; watch_next := w |}
          | _, _, _, _, _, _, _, _, _ =>
              Invalid (errors_of r_event ++ errors_of r_dir
                       ++ errors_of r_hor ++ errors_of r_rel
                       ++ errors_of r_conf ++ errors_of r_reason
                       ++ errors_of r_summary ++ errors_of r_facts
                       ++ errors_of r_watch)
          end
      end
  | _ => Invalid [([], py "model_type")]
  end.
End Validators.








(** The constraints the field declarations put on an instance: the
    [Literal] values and the [max_length] bounds, with the 200
    characters to which [validate_key_facts] cuts each fact. *)
Definition well_formed (a : t) : bool :=
  str_in (event_type a) EVENT_TYPES
  && str_in (impact_direction a) IMPACT_DIRECTIONS
  && str_in (impact_horizon a) IMPACT_HORIZONS
  && str_in (thesis_relation a) THESIS_RELATIONS
  && str_in (confidence a) CONFIDENCES
  && (List.length (confidence_reason a) <=? 100)%nat
  && (List.length (summary a) <=? 100)%nat
  && (List.length (key_facts a) <=? 3)%nat
  && forallb (fun fact => (List.length fact <=? 200)%nat) (key_facts a)
  && (List.length (watch_next a) <=? 50)%nat.
End AIAnalysisOutput.

(* ================================================================== *)
(** * collectors/finnhub.py *)
(* ================================================================== *)

Module FinnhubNewsCollector.

(** The inner loop of [collect] over the items of one ticker: an item is
    appended unless its URL has been seen ([seen_urls] is a set). *)
Fixpoint add_unseen (result all_news : list RawNewsData)
    (seen_urls : list pystr) : list RawNewsData * list pystr :=
  match result with
  | [] => (all_news, seen_urls)
  | item :: rest =>
      if str_in (url item) seen_urls
      then add_unseen rest all_news seen_urls
      else add_unseen rest (all_news ++ [item]) (url item :: seen_urls)
  end.

(** The loop over [zip(tickers, results)].  With
    [return_exceptions=True] a result of [gather] is the list a task
    returned or the exception it raised; one that is no [Exception]
    reaches the inner [for]. *)
Fixpoint merge_results (results : list (outcome (list RawNewsData)))
    (all_news : list RawNewsData) (seen_urls : list pystr)
    : outcome (list RawNewsData) :=
  match results with
  | [] => Return all_news
  | Raise e :: rest =>
      if is_Exception e then merge_results rest all_news seen_urls
      else Raise (TypeError (py "'CancelledError' object is not iterable"))
  | Return result :: rest =>
      let '(all_news', seen_urls') := add_unseen result all_news seen_urls in
      merge_results rest all_news' seen_urls'
  end.

Section Collect.
(** [settings.finnhub_enabled] and [self.client.api_key] *)
Variable finnhub_enabled : bool.
Variable api_key : option pystr.
(** What the task [_collect_ticker(ticker, from_date, to_date)] ends
    with, for the dates of the call. *)
Variable _collect_ticker : pystr -> outcome (list RawNewsData).

Definition collect (tickers : list pystr) : outcome (list RawNewsData) :=
  if negb finnhub_enabled then Return []
  else if negb (match api_key with
                | Some key => str_truthy key
                | None => false
                end)
  then Return []
  else merge_results (List.map _collect_ticker tickers) [] [].
End Collect.

Section ParseNewsItem.
Variable U : UnicodeData.
(** [s.upper()] *)
Variable upper : pystr -> pystr.

(** The ticker list [_parse_news_item] builds from the [related] field
    of the payload and the ticker the request was made for.  [None] is
    the exception ([related] is no string) on which the function
    returns [None]. *)
Definition parse_tickers (raw : dict json) (primary_ticker : pystr)
    : option (list pystr) :=
  let related :=
    match dict_get (py "related") raw with
    | Some v => v
    | None => JStr []
    end in
  let tickers : option (list pystr) :=
    if AIAnalysisOutput.truthy related then
      match related with
      | JStr s =>
          Some (filter str_truthy (List.map (strip U) (split_on 44%N s)))
      | _ => None
      end
    else Some [upper primary_ticker] in
  match tickers with
  | Some tickers =>
      if str_in (upper primary_ticker) tickers then Some tickers
      else Some (upper primary_ticker :: tickers)
  | None => None
  end.
End ParseNewsItem.

End FinnhubNewsCollector.

(* ================================================================== *)
(** * core/normalizer.py *)
(* ================================================================== *)

Module Normalizer.

Definition CREDIBILITY_MAP : dict pystr :=
  [(py "sec", py "high");
   (py "finnhub", py "medium");
   (py "polygon", py "medium");
   (py "default", py "low")].

(** [d[k]] on a key the dictionary holds. *)
Definition dict_item (k : pystr) (d : dict pystr) : pystr :=
  match dict_get k d with Some v => v | None => [] end.

Definition _determine_credibility (source source_type : pystr) : pystr :=
  if str_eqb source_type (py "filing") then py "high"
  else
    match dict_get source CREDIBILITY_MAP with
    | Some credibility => credibility
    | None => dict_item (py "default") CREDIBILITY_MAP
    end.

Section WithLibraries.
Variable U : UnicodeData.
Variable sha256_hexdigest : pystr -> pystr.
Variable Simhash : pystr -> N.
Variable SIMHASH_AVAILABLE : bool.
Variable similarity_threshold : Q.

(** The two records [_normalize_item(raw)] builds; [utcnow] is the clock
    reading used when the item has no publication time.  Whether their
    constructors accept the values is [records_accepted]. *)
Definition _normalize_item (utcnow : datetime) (raw : RawNewsData)
    : RawItemCreate.t * NewsItemCreate.t :=
  let raw_create :=
    {| RawItemCreate.source := source raw;
       RawItemCreate.source_type := source_type raw;
       RawItemCreate.external_id := external_id raw;
       RawItemCreate.url := url raw;
       RawItemCreate.raw_payload := raw_payload raw |} in
  let canonical_url := Deduplicator.canonicalize_url U (url raw) in
  let title_normalized := Deduplicator.normalize_title U (title raw) in
  let content_hash :=
    Deduplicator.compute_content_hash U sha256_hexdigest raw in
  let credibility := _determine_credibility (source raw) (source_type raw) in
  let published_at :=
    match published_at raw with Some d => d | None => utcnow end in
  let news_create :=
    {| NewsItemCreate.canonical_url := canonical_url;
       NewsItemCreate.title := title raw;
       NewsItemCreate.title_normalized := Some title_normalized;
       NewsItemCreate.content_hash := Some content_hash;
       NewsItemCreate.summary := summary raw;
       NewsItemCreate.published_at := published_at;
       NewsItemCreate.source := source raw;
       NewsItemCreate.source_type := source_type raw;
       NewsItemCreate.credibility := credibility;
       NewsItemCreate.tickers := Some (tickers raw);
       NewsItemCreate.raw_item_id := None |} in
  (raw_create, news_create).

(** The constructor of [RawItemCreate] validates its arguments; of the
    values a [RawNewsData] holds it rejects a [raw_payload] that is
    neither [None] nor a [dict]. *)
Definition records_accepted (raw : RawNewsData) : bool :=
  match raw_payload raw with
  | None | Some (JDict _) => true
  | Some _ => false
  end.

(** [normalize(raw_items)]: an item whose records fail validation is
    logged and skipped. *)
Definition normalize (utcnow : datetime) (raw_items : list RawNewsData)
    : list (RawItemCreate.t * NewsItemCreate.t) :=
  List.map (_normalize_item utcnow) (filter records_accepted raw_items).

(** [DataProcessor.process] *)
Definition process (utcnow : datetime) (raw_items : list RawNewsData)
    : list (RawItemCreate.t * NewsItemCreate.t) * Z * Z :=
  match raw_items with
  | [] => ([], 0%Z, 0%Z)
  | _ =>
      let dedup_result :=
        Deduplicator.deduplicate U sha256_hexdigest Simhash
          SIMHASH_AVAILABLE similarity_threshold raw_items in
      let normalized :=
        normalize utcnow (Deduplicator.kept_items dedup_result) in
      (normalized, Z.of_nat (List.length raw_items),
       Deduplicator.removed_count dedup_result)
  end.
End WithLibraries.

End Normalizer.

(* ================================================================== *)
(** * providers/base.py *)
(* ================================================================== *)

Module BaseAIProvider.

(** Index of the first occurrence, [s.find(c)]. *)
Fixpoint find (c : codepoint) (s : pystr) : option nat :=
  match s with
  | [] => None
  | x :: s' =>
      if N.eqb x c then Some O
      else match find c s' with Some i => Some (S i) | None => None end
  end.

(** Index of the last occurrence, [s.rfind(c)]. *)
Definition rfind (c : codepoint) (s : pystr) : option nat :=
  match find c (rev s) with
  | Some i => Some (List.length s - 1 - i)
  | None => None
  end.

(** [sub in s] *)
Fixpoint contains (sub s : pystr) : bool :=
  startswith sub s ||
  match s with
  | [] => false
  | _ :: s' => contains sub s'
  end.

Definition _make_strict_prompt (original_prompt error_msg : pystr) : pystr :=
  original_prompt
  ++ [10; 10]%N
  ++ py "IMPORTANT: Your previous response had validation errors: "
  ++ error_msg ++ [10; 10]%N
  ++ py "Please ensure:" ++ [10]%N
  ++ py "1. Output is ONLY valid JSON, no markdown or extra text" ++ [10]%N
  ++ py "2. event_type must be exactly one of: earnings, guidance, regulatory, contract, product, accident, macro, rumor, other" ++ [10]%N
  ++ py "3. impact_direction must be exactly one of: bullish, bearish, neutral" ++ [10]%N
  ++ py "4. impact_horizon must be exactly one of: short, medium, long" ++ [10]%N
  ++ py "5. thesis_relation must be exactly one of: supports, weakens, unrelated" ++ [10]%N
  ++ py "6. confidence must be exactly one of: high, medium, low" ++ [10]%N
  ++ py "7. summary must be 100 characters or less" ++ [10]%N
  ++ py "8. key_facts must be an array with at most 3 items" ++ [10]%N
  ++ py "9. watch_next must be 50 characters or less".

Section WithLibraries.
Variable U : UnicodeData.
(** [json.loads]; [None] is [JSONDecodeError]. *)
Variable json_loads : pystr -> option json.
(** [str(v)] for decoded values that are not strings. *)
Variable repr : json -> pystr.
(** [str(e)] *)
Variable str_of_exn : exn -> pystr.

(** The Markdown-fence removal at the head of [_parse_and_validate]. *)
Definition strip_code_fence (cleaned : pystr) : pystr :=
  if startswith (py "```") cleaned then
    let lines := split_on 10%N cleaned in
    let lines :=
      match lines with
      | first :: rest => if startswith (py "```") first then rest else lines
      | [] => lines
      end in
    let lines :=
      match lines with
      | [] => lines
      | _ => if str_eqb (strip U (last lines [])) (py "```")
             then removelast lines else lines
      end in
    join [10%N] lines
  else cleaned.

(** The slice to the outer [{...}] window. *)
Definition json_window (cleaned : pystr) : pystr :=
  match find 123%N cleaned with
  | Some start =>
      let stop := match rfind 125%N cleaned with
                  | Some i => S i
                  | None => O
                  end in
      if (start <? stop)%nat
      then firstn (stop - start) (skipn start cleaned)
      else cleaned
  | None => cleaned
  end.

(** The test for a provider error document.  For one,
    [ValidationError.from_exception_data] is called with the error type
    ['api_error'], which is none of the library's: the call raises
    [KeyError]. *)
Definition check_error_response (data : json) : outcome unit :=
  match data with
  | JDict d =>
      match dict_get (py "error") d with
      | Some (JDict _) => Raise (KeyError (py "Invalid error type: 'api_error'"))
      | _ => Return tt
      end
  | JList l =>
      if existsb (fun v => match v with
                           | JStr s => str_eqb s (py "error")
                           | _ => false
                           end) l
      then Raise (AttributeError (py "'list' object has no attribute 'get'"))
      else Return tt
  | JStr s =>
      if contains (py "error") s
      then Raise (AttributeError (py "'str' object has no attribute 'get'"))
      else Return tt
  | _ => Raise (TypeError (py "argument is not iterable"))
  end.

(** [_parse_and_validate(raw_output)].  In the handler of
    [JSONDecodeError], [ValidationError.from_exception_data] is called
    with a ['json_invalid'] line error that lacks the context the library
    requires for this type: the call raises [TypeError]. *)
Definition _parse_and_validate (raw_output : pystr)
    : outcome AIAnalysisOutput.t :=
  let cleaned := strip U raw_output in
  let cleaned := strip_code_fence cleaned in
  let cleaned := json_window cleaned in
  match json_loads cleaned with
  | None => Raise (TypeError (py "JsonInvalid: 'error' required in context"))
  | Some data =>
      match check_error_response data with
      | Raise e => Raise e
      | Return _ =>
          match AIAnalysisOutput.model_validate repr data with
          | AIAnalysisOutput.Valid a => Return a
          | AIAnalysisOutput.Invalid errors => Raise (ValidationError errors)
          | AIAnalysisOutput.Crashed e => Raise e
          end
      end
  end.

(** The keyword arguments of the constructor call in
    [_fallback_result]. *)
Definition fallback_fields (news : NewsItemCreate.t) : dict json :=
  [(py "event_type", JStr (py "other"));
   (py "impact_direction", JStr (py "neutral"));
   (py "impact_horizon", JStr (py "short"));
   (py "thesis_relation", JStr (py "unrelated"));
   (py "confidence", JStr (py "low"));
   (py "confidence_reason", JStr (py "Analysis failed, using fallback"));
   (py "summary",
    JStr (if str_truthy (NewsItemCreate.title news)
          then firstn 100 (NewsItemCreate.title news)
          else py "No summary"));
   (py "key_facts", JList []);
   (py "watch_next", JStr [])].

(** [_fallback_result(news)]: the constructor of the model validates its
    arguments as [model_validate] does. *)
Definition _fallback_result (news : NewsItemCreate.t)
    : outcome AIAnalysisOutput.t :=
  match AIAnalysisOutput.model_validate repr (JDict (fallback_fields news)) with
  | AIAnalysisOutput.Valid a => Return a
  | AIAnalysisOutput.Invalid errors => Raise (ValidationError errors)
  | AIAnalysisOutput.Crashed e => Raise e
  end.

(** The provider: a state, the prompt rendering and the abstract
    [_call_api], which returns [(raw_output, tokens_used, cost_usd)]. *)
Variable Provider : Type.
Variable format_prompt : NewsItemCreate.t -> pystr -> outcome pystr.
Variable _call_api :
  Provider -> pystr -> outcome (pystr * Z * float) * Provider.

(** What the [except] clauses of [analyze] do with an exception that
    is not a [ValidationError]. *)
Definition analysis_failed (e : exn) : exn :=
  if is_Exception e
  then AIAnalysisError (py "Analysis failed: " ++ str_of_exn e)
  else e.

(** [analyze(news, thesis)] returning
    [(analysis_result, tokens_used, cost_usd)].  [first] holds
    [tokens] and [cost] once the first call has bound them.  In the
    [return] of the inner handler the fallback record is built before
    the sums are. *)
Definition analyze (p : Provider) (news : NewsItemCreate.t) (thesis : pystr)
    : outcome (AIAnalysisOutput.t * Z * float) * Provider :=
  match format_prompt news thesis with
  | Raise e => (Raise e, p)
  | Return prompt =>
      let '(r1, p1) := _call_api p prompt in
      let attempt1 : outcome (AIAnalysisOutput.t * Z * float)
                     * option (Z * float) :=
        match r1 with
        | Raise e => (Raise e, None)
        | Return (raw_output, tokens, cost) =>
            match _parse_and_validate raw_output with
            | Return result => (Return (result, tokens, cost),
                                Some (tokens, cost))
            | Raise e => (Raise e, Some (tokens, cost))
            end
        end in
      match attempt1 with
      | (Return r, _) => (Return r, p1)
      | (Raise e, first) =>
          if is_ValidationError e then
            let strict_prompt := _make_strict_prompt prompt (str_of_exn e) in
            let '(r2, p2) := _call_api p1 strict_prompt in
            match r2 with
            | Raise e2 =>
                if is_ValidationError e2 then
                  match _fallback_result news with
                  | Raise e' => (Raise e', p2)
                  | Return _ =>
                      match first with
                      | Some _ => (Raise (UnboundLocalError (py "tokens2")), p2)
                      | None => (Raise (UnboundLocalError (py "tokens")), p2)
                      end
                  end
                else (Raise e2, p2)
            | Return (raw_output2, tokens2, cost2) =>
                let total :=
                  match first with
                  | Some (tokens, cost) =>
                      Return ((tokens + tokens2)%Z, PrimFloat.add cost cost2)
                  | None => Raise (UnboundLocalError (py "tokens"))
                  end in
                match _parse_and_validate raw_output2 with
                | Return result =>
                    match total with
                    | Return (t, c) => (Return (result, t, c), p2)
                    | Raise e' => (Raise e', p2)
                    end
                | Raise e2 =>
                    if is_ValidationError e2 then
                      match _fallback_result news with
                      | Raise e' => (Raise e', p2)
                      | Return fallback =>
                          match total with
                          | Return (t, c) => (Return (fallback, t, c), p2)
                          | Raise e' => (Raise e', p2)
                          end
                      end
                    else (Raise e2, p2)
                end
            end
          else (Raise (analysis_failed e), p1)
      end
  end.

(** The thesis [batch_analyze] hands to [analyze]: that of the first
    ticker of the item with an entry in [thesis_map]. *)
Fixpoint first_thesis (tickers : list pystr) (thesis_map : dict pystr)
    : pystr :=
  match tickers with
  | [] => []
  | ticker :: rest =>
      match dict_get ticker thesis_map with
      | Some thesis => thesis
      | None => first_thesis rest thesis_map
      end
  end.

(** The loop of [batch_analyze]; an entry is
    [(news, analysis_or_none, tokens, cost)]. *)
Fixpoint batch_analyze_loop (p : Provider) (news_list : list NewsItemCreate.t)
    (thesis_map : dict pystr)
    (results : list (NewsItemCreate.t * option AIAnalysisOutput.t * Z * float))
    : outcome (list (NewsItemCreate.t * option AIAnalysisOutput.t * Z * float))
      * Provider :=
  match news_list with
  | [] => (Return results, p)
  | news :: rest =>
      let thesis :=
        match NewsItemCreate.tickers news with
        | Some tickers => first_thesis tickers thesis_map
        | None => []
        end in
      match analyze p news thesis with
      | (Return (analysis, tokens, cost), p') =>
          batch_analyze_loop p' rest thesis_map
            (results ++ [(news, Some analysis, tokens, cost)])
      | (Raise (AIAnalysisError _), p') =>
          batch_analyze_loop p' rest thesis_map
            (results ++ [(news, None, 0%Z, PrimFloat.zero)])
      | (Raise e, p') => (Raise e, p')
      end
  end.

Definition batch_analyze (p : Provider) (news_list : list NewsItemCreate.t)
    (thesis_map : dict pystr) :=
  batch_analyze_loop p news_list thesis_map [].
End WithLibraries.

End BaseAIProvider.

(* ================================================================== *)
(** * outputs/base.py *)
(* ================================================================== *)

Record DigestItem : Type := {
  news : NewsItemCreate.t;
  analysis : option AIAnalysisOutput.t
}.

(** The property [is_analyzed]. *)
Definition is_analyzed (item : DigestItem) : bool :=
  match analysis item with Some _ => true | None => false end.

Module TickerSummary.
(** The fields filled from the model's answer hold whatever value the
    decoded document has. *)
Record t : Type := {
  ticker : pystr;
  company_name : pystr;
  news_count : Z;
  overall_sentiment : json;
  summary : json;
  key_events : json;
  thesis_impact : json;
  action_suggestion : json;
  risk_alerts : json;
  bullish_count : Z;
  bearish_count : Z;
  neutral_count : Z
}.

(** The three sentiment counters are counts, and they add up to the
    number of news items. *)
Definition counts_consistent (summary : t) : Prop :=
  (0 <= bullish_count summary)%Z
  /\ (0 <= bearish_count summary)%Z
  /\ (0 <= neutral_count summary)%Z
  /\ (bullish_count summary + bearish_count summary + neutral_count summary
      = news_count summary)%Z.
End TickerSummary.

Record Digest : Type := {
  run_id : pystr;
  generated_at : datetime;
  window_start : datetime;
  window_end : datetime;
  items : list DigestItem;
  total_collected : Z;
  total_after_dedup : Z;
  total_analyzed : Z;
  total_failed : Z;
  ticker_summaries : dict TickerSummary.t
}.

(* ================================================================== *)
(** * core/pipeline.py *)
(* ================================================================== *)

Module Pipeline.

(** [self.stats] *)
Record Stats : Type := {
  raw_collected : Z;
  after_normalize : Z;
  after_dedup : Z;
  analyzed_success : Z;
  analyzed_failed : Z;
  delivered : Z
}.

Definition initial_stats : Stats :=
  {| raw_collected := 0; after_normalize := 0; after_dedup := 0;
     analyzed_success := 0; analyzed_failed := 0; delivered := 0 |}.

Module PipelineRunUpdate.
Record t : Type := {
  finished_at : option datetime;
  status : option pystr;
  raw_collected : option Z;
  after_normalize : option Z;
  after_dedup : option Z;
  analyzed_success : option Z;
  analyzed_failed : option Z;
  delivered : option Z;
  error_log : option pystr
}.
End PipelineRunUpdate.

Record WatchlistItem : Type := {
  wl_ticker : pystr;
  wl_company_name : option pystr;
  wl_thesis : option pystr
}.

(** The collaborators of one run: configuration, clock, collectors,
    provider, store and output channels, each answering a call with
    its outcome. *)
Record World : Type := {
  finnhub_enabled : bool;
  sec_enabled : bool;
  outputs : list pystr;
  utcnow : datetime;
  window_start_time : datetime;
  load_watchlist : outcome (list WatchlistItem);
  finnhub_collect : list pystr -> outcome (list RawNewsData);
  sec_collect : list pystr -> outcome (list RawNewsData);
  get_ai_provider : outcome unit;
  provider_analyze :
    NewsItemCreate.t -> pystr -> outcome (AIAnalysisOutput.t * Z * float);
  provider_generate_ticker_summary :
    pystr -> pystr -> list DigestItem -> pystr
    -> outcome (dict json * Z * float);
  get_news_item_by_url : pystr -> outcome bool;
  create_raw_item : RawItemCreate.t -> outcome pystr;
  create_news_item : NewsItemCreate.t -> outcome pystr;
  create_analysis_result : pystr -> AIAnalysisOutput.t -> outcome unit;
  commit : outcome unit;
  create_delivery_log : pystr -> outcome pystr;
  update_delivery_log : pystr -> pystr -> outcome unit;
  open_session : outcome unit;
  notion_deliver : Digest -> outcome pystr;
  markdown_deliver : Digest -> outcome pystr;
  (** [crud.update_pipeline_run]: whether the run record exists. *)
  update_pipeline_run : PipelineRunUpdate.t -> outcome bool
}.

(** ** Statements that read and update [self.stats] and may raise *)

Definition M (A : Type) : Type := Stats -> outcome A * Stats.

Definition ret {A : Type} (a : A) : M A := fun s => (Return a, s).

Definition bind {A B : Type} (m : M A) (k : A -> M B) : M B :=
  fun s =>
    match m s with
    | (Return a, s') => k a s'
    | (Raise e, s') => (Raise e, s')
    end.

Definition call {A : Type} (r : outcome A) : M A := fun s => (r, s).

Definition set_stats (f : Stats -> Stats) : M unit :=
  fun s => (Return tt, f s).

Definition get_stats : M Stats := fun s => (Return s, s).

(** [try: body except Exception as e: handler(e)] *)
Definition try_except {A : Type} (body : M A) (handler : exn -> M A) : M A :=
  fun s =>
    match body s with
    | (Return a, s') => (Return a, s')
    | (Raise e, s') =>
        if is_Exception e then handler e s' else (Raise e, s')
    end.

Notation "x <- m ;; k" := (bind m (fun x => k))
  (at level 61, m at next level, right associativity).
Notation "m ;;; k" := (bind m (fun _ => k))
  (at level 61, right associativity).

Definition with_raw_collected (v : Z) (s : Stats) : Stats :=
  {| raw_collected := v; after_normalize := after_normalize s;
     after_dedup := after_dedup s; analyzed_success := analyzed_success s;
     analyzed_failed := analyzed_failed s; delivered := delivered s |}.

Definition with_after_normalize (v : Z) (s : Stats) : Stats :=
  {| raw_collected := raw_collected s; after_normalize := v;
     after_dedup := after_dedup s; analyzed_success := analyzed_success s;
     analyzed_failed := analyzed_failed s; delivered := delivered s |}.

Definition with_after_dedup (v : Z) (s : Stats) : Stats :=
  {| raw_collected := raw_collected s; after_normalize := after_normalize s;
     after_dedup := v; analyzed_success := analyzed_success s;
     analyzed_failed := analyzed_failed s; delivered := delivered s |}.

Definition bump_analyzed_success (s : Stats) : Stats :=
  {| raw_collected := raw_collected s; after_normalize := after_normalize s;
     after_dedup := after_dedup s;
     analyzed_success := (analyzed_success s + 1)%Z;
     analyzed_failed := analyzed_failed s; delivered := delivered s |}.

Definition bump_analyzed_failed (s : Stats) : Stats :=
  {| raw_collected := raw_collected s; after_normalize := after_normalize s;
     after_dedup := after_dedup s; analyzed_success := analyzed_success s;
     analyzed_failed := (analyzed_failed s + 1)%Z; delivered := delivered s |}.

Definition bump_delivered (s : Stats) : Stats :=
  {| raw_collected := raw_collected s; after_normalize := after_normalize s;
     after_dedup := after_dedup s; analyzed_success := analyzed_success s;
     analyzed_failed := analyzed_failed s;
     delivered := (delivered s + 1)%Z |}.

Definition Zlen {A : Type} (l : list A) : Z := Z.of_nat (List.length l).

Definition item_tickers (n : NewsItemCreate.t) : list pystr :=
  match NewsItemCreate.tickers n with Some l => l | None => [] end.

Section Run.
Variable U : UnicodeData.
Variable sha256_hexdigest : pystr -> pystr.
Variable Simhash : pystr -> N.
Variable SIMHASH_AVAILABLE : bool.
Variable str_of_exn : exn -> pystr.
Variable w : World.
(** The constructor arguments of [Pipeline]. *)
Variable specified_tickers : option (list pystr).
Variable limit_per_ticker : option Z.

Definition normalized_item : Type :=
  (RawItemCreate.t * NewsItemCreate.t)%type.

(** One collector of [_collect_news]: its failure is logged. *)
Definition collect_from (enabled : bool)
    (collect : list pystr -> outcome (list RawNewsData))
    (tickers : list pystr) (all_items : list RawNewsData)
    : M (list RawNewsData) :=
  if enabled then
    try_except
      (items <- call (collect tickers) ;; ret (all_items ++ items))
      (fun _ => ret all_items)
  else ret all_items.

Definition _collect_news (tickers : list pystr) : M (list RawNewsData) :=
  all_items <- collect_from (finnhub_enabled w) (finnhub_collect w) tickers [] ;;
  collect_from (sec_enabled w) (sec_collect w) tickers all_items.

(** Step 4.5: the per-ticker cap. *)
Definition count_of (ticker : pystr) (ticker_counts : dict Z) : Z :=
  match dict_get ticker ticker_counts with Some c => c | None => 0%Z end.

Fixpoint limit_loop (limit : Z) (normalized_items : list normalized_item)
    (limited_items : list normalized_item) (ticker_counts : dict Z)
    : list normalized_item :=
  match normalized_items with
  | [] => limited_items
  | item :: rest =>
      let tks := item_tickers (snd item) in
      let should_include :=
        match tks with
        | [] => true
        | _ => existsb (fun t => (count_of t ticker_counts <? limit)%Z) tks
        end in
      if should_include then
        limit_loop limit rest (limited_items ++ [item])
          (fold_left
             (fun counts t => dict_set t (count_of t counts + 1)%Z counts)
             tks ticker_counts)
      else limit_loop limit rest limited_items ticker_counts
  end.

Definition apply_limit (normalized_items : list normalized_item)
    : list normalized_item :=
  match limit_per_ticker with
  | Some limit =>
      if (limit =? 0)%Z then normalized_items
      else limit_loop limit normalized_items [] []
  | None => normalized_items
  end.

(** How many times the items of [l] list [ticker]. *)
Definition mentions (ticker : pystr) (l : list normalized_item) : Z :=
  Zlen (filter (str_eqb ticker)
               (flat_map (fun item => item_tickers (snd item)) l)).

Definition with_raw_item_id (id : pystr) (n : NewsItemCreate.t)
    : NewsItemCreate.t :=
  {| NewsItemCreate.canonical_url := NewsItemCreate.canonical_url n;
     NewsItemCreate.title := NewsItemCreate.title n;
     NewsItemCreate.summary := NewsItemCreate.summary n;
     NewsItemCreate.published_at := NewsItemCreate.published_at n;
     NewsItemCreate.source := NewsItemCreate.source n;
     NewsItemCreate.source_type := NewsItemCreate.source_type n;
     NewsItemCreate.credibility := NewsItemCreate.credibility n;
     NewsItemCreate.tickers := NewsItemCreate.tickers n;
     NewsItemCreate.title_normalized := NewsItemCreate.title_normalized n;
     NewsItemCreate.content_hash := NewsItemCreate.content_hash n;
     NewsItemCreate.raw_item_id := Some id |}.

(** The first ticker of the item with an entry in [thesis_map]. *)
Fixpoint select_thesis (tks : list pystr) (thesis_map : dict pystr) : pystr :=
  match tks with
  | [] => []
  | t :: rest =>
      match dict_get t thesis_map with
      | Some thesis => thesis
      | None => select_thesis rest thesis_map
      end
  end.

(** The loop of [_analyze_and_save] when no provider is available. *)
Fixpoint save_loop (normalized_items : list normalized_item)
    (digest_items : list DigestItem) : M (list DigestItem) :=
  match normalized_items with
  | [] => ret digest_items
  | (raw_create, news_create) :: rest =>
      raw_item_id <- call (create_raw_item w raw_create) ;;
      let news_create := with_raw_item_id raw_item_id news_create in
      call (create_news_item w news_create) ;;;
      save_loop rest
        (digest_items ++ [{| news := news_create; analysis := None |}])
  end.

(** The loop of [_analyze_and_save] with a provider. *)
Fixpoint analyze_loop (thesis_map : dict pystr)
    (normalized_items : list normalized_item)
    (digest_items : list DigestItem) : M (list DigestItem) :=
  match normalized_items with
  | [] => ret digest_items
  | (raw_create, news_create) :: rest =>
      existing <- call (get_news_item_by_url w
                          (NewsItemCreate.canonical_url news_create)) ;;
      if (existing : bool) then analyze_loop thesis_map rest digest_items
      else
        raw_item_id <- call (create_raw_item w raw_create) ;;
        let news_create := with_raw_item_id raw_item_id news_create in
        news_item_id <- call (create_news_item w news_create) ;;
        analysis <-
          try_except
            (let thesis :=
               select_thesis (item_tickers news_create) thesis_map in
             r <- call (provider_analyze w news_create thesis) ;;
             let '(analysis_output, tokens, cost) := r in
             call (create_analysis_result w news_item_id analysis_output) ;;;
             set_stats bump_analyzed_success ;;;
             ret (Some analysis_output))
            (fun _ => set_stats bump_analyzed_failed ;;; ret None) ;;
        analyze_loop thesis_map rest
          (digest_items ++ [{| news := news_create; analysis := analysis |}])
  end.

Definition _analyze_and_save (normalized_items : list normalized_item)
    (thesis_map : dict pystr) : M (list DigestItem) :=
  fun s =>
    match get_ai_provider w with
    | Raise e =>
        if is_Exception e then
          (digest_items <- save_loop normalized_items [] ;;
           call (commit w) ;;;
           ret digest_items) s
        else (Raise e, s)
    | Return _ =>
        (digest_items <- analyze_loop thesis_map normalized_items [] ;;
         call (commit w) ;;;
         ret digest_items) s
    end.

(** ** [_generate_ticker_summaries] *)

Fixpoint group_tickers (tks : list pystr) (item : DigestItem)
    (by_ticker : dict (list DigestItem)) : dict (list DigestItem) :=
  match tks with
  | [] => by_ticker
  | t :: rest =>
      let here := match dict_get t by_ticker with
                  | Some l => l
                  | None => []
                  end in
      group_tickers rest item (dict_set t (here ++ [item]) by_ticker)
  end.

Definition group_by_ticker (digest_items : list DigestItem)
    : dict (list DigestItem) :=
  fold_left
    (fun by_ticker item => group_tickers (item_tickers (news item)) item by_ticker)
    digest_items [].

(** The entries a digest item contributes to the group of [ticker]: one
    for each time it lists the ticker. *)
Definition entries_for (ticker : pystr) (item : DigestItem)
    : list DigestItem :=
  List.map (fun _ => item)
           (filter (str_eqb ticker) (item_tickers (news item))).

Definition count_direction (direction : pystr) (items : list DigestItem) : Z :=
  Zlen (filter
          (fun i => match analysis i with
                    | Some a => str_eqb (AIAnalysisOutput.impact_direction a)
                                  direction
                    | None => false
                    end) items).

(** The counting summary used without a provider and when a
    ticker's summary fails. *)
Definition counting_summary (thesis_impact : pystr)
    (company_names : dict pystr) (ticker : pystr) (items : list DigestItem)
    : TickerSummary.t :=
  let bullish := count_direction (py "bullish") items in
  let bearish := count_direction (py "bearish") items in
  {| TickerSummary.ticker := ticker;
     TickerSummary.company_name :=
       match dict_get ticker company_names with
       | Some c => c
       | None => ticker
       end;
     TickerSummary.news_count := Zlen items;
     TickerSummary.overall_sentiment :=
       JStr (if (bearish <? bullish)%Z then py "bullish"
             else if (bullish <? bearish)%Z then py "bearish"
             else py "neutral");
     TickerSummary.summary :=
       JStr (py "Today: " ++ str_of_Z (Zlen items) ++ py " news items ("
             ++ str_of_Z bullish ++ py " bullish, "
             ++ str_of_Z bearish ++ py " bearish)");
     TickerSummary.key_events :=
       JList (List.map
                (fun i => JStr (firstn 60 (NewsItemCreate.title (news i))))
                (firstn 3 items));
     TickerSummary.thesis_impact := JStr thesis_impact;
     TickerSummary.action_suggestion := JStr (py "Continue monitoring");
     TickerSummary.risk_alerts := JList [];
     TickerSummary.bullish_count := bullish;
     TickerSummary.bearish_count := bearish;
     TickerSummary.neutral_count := (Zlen items - bullish - bearish)%Z |}.

Definition get_or (k : pystr) (default : json) (d : dict json) : json :=
  match dict_get k d with Some v => v | None => default end.

(** [v[:3]] *)
Definition slice3 (v : json) : outcome json :=
  match v with
  | JList l => Return (JList (firstn 3 l))
  | JStr s => Return (JStr (firstn 3 s))
  | _ => Raise (TypeError (py "object is not subscriptable"))
  end.

Definition ai_summary (company_names : dict pystr) (thesis_map : dict pystr)
    (ticker : pystr) (items : list DigestItem) : M TickerSummary.t :=
  let company_name := match dict_get ticker company_names with
                      | Some c => c
                      | None => ticker
                      end in
  let thesis := match dict_get ticker thesis_map with
                | Some t => t
                | None => []
                end in
  r <- call (provider_generate_ticker_summary w ticker company_name
               items thesis) ;;
  let '(summary_data, tokens, cost) := r in
  let bullish := count_direction (py "bullish") items in
  let bearish := count_direction (py "bearish") items in
  key_events <- call (slice3 (get_or (py "key_events") (JList []) summary_data)) ;;
  ret {| TickerSummary.ticker := ticker;
         TickerSummary.company_name := company_name;
         TickerSummary.news_count := Zlen items;
         TickerSummary.overall_sentiment :=
           get_or (py "overall_sentiment") (JStr (py "neutral")) summary_data;
         TickerSummary.summary := get_or (py "summary") (JStr []) summary_data;
         TickerSummary.key_events := key_events;
         TickerSummary.thesis_impact :=
           get_or (py "thesis_impact") (JStr []) summary_data;
         TickerSummary.action_suggestion :=
           get_or (py "action_suggestion")
             (JStr [32487; 32493; 35266; 23519]%N) summary_data;
         TickerSummary.risk_alerts :=
           get_or (py "risk_alerts") (JList []) summary_data;
         TickerSummary.bullish_count := bullish;
         TickerSummary.bearish_count := bearish;
         TickerSummary.neutral_count := (Zlen items - bullish - bearish)%Z |}.

Fixpoint summaries_loop (company_names thesis_map : dict pystr)
    (groups : dict (list DigestItem)) (summaries : dict TickerSummary.t)
    : M (dict TickerSummary.t) :=
  match groups with
  | [] => ret summaries
  | (ticker, items) :: rest =>
      summary <-
        try_except (ai_summary company_names thesis_map ticker items)
          (fun _ => ret (counting_summary (py "Summary generation failed")
                           company_names ticker items)) ;;
      summaries_loop company_names thesis_map rest
        (dict_set ticker summary summaries)
  end.

Definition _generate_ticker_summaries (digest_items : list DigestItem)
    (watchlist : list WatchlistItem) (thesis_map : dict pystr)
    : M (dict TickerSummary.t) :=
  let by_ticker := group_by_ticker digest_items in
  match by_ticker with
  | [] => ret []
  | _ =>
      let company_names :=
        fold_left
          (fun d item =>
             dict_set (wl_ticker item)
               (match wl_company_name item with
                | Some c => c
                | None => wl_ticker item
                end) d)
          watchlist [] in
      fun s =>
        match get_ai_provider w with
        | Raise e =>
            if is_Exception e then
              (Return
                 (fold_left
                    (fun summaries g =>
                       dict_set (fst g)
                         (counting_summary (py "Requires manual assessment")
                            company_names (fst g) (snd g)) summaries)
                    by_ticker []), s)
            else (Raise e, s)
        | Return _ =>
            summaries_loop company_names thesis_map by_ticker [] s
        end
  end.

(** ** Delivery *)

(** The handler of [_deliver_to_notion]: a new session is opened, the
    attempt to mark the log failed is itself guarded by a bare
    [except]. *)
Definition _deliver_to_notion (digest : Digest) : M unit :=
  try_except
    (call (open_session w) ;;;
     log_id <- call (create_delivery_log w (py "notion")) ;;
     call (commit w) ;;;
     page_id <- call (notion_deliver w digest) ;;
     call (update_delivery_log w log_id (py "success")) ;;;
     call (commit w) ;;;
     set_stats bump_delivered)
    (fun _ => call (open_session w) ;;; ret tt).

Definition _deliver_to_markdown (digest : Digest) : M unit :=
  try_except
    (filepath <- call (markdown_deliver w digest) ;;
     set_stats bump_delivered)
    (fun _ => ret tt).

(** ** [_update_pipeline_run]: the update written to the store, if
    any; its own failures are logged. *)
Definition run_update (status : pystr) (error_log : option pystr)
    (s : Stats) : PipelineRunUpdate.t :=
  {| PipelineRunUpdate.finished_at := Some (utcnow w);
     PipelineRunUpdate.status := Some status;
     PipelineRunUpdate.raw_collected := Some (raw_collected s);
     PipelineRunUpdate.after_normalize := Some (after_normalize s);
     PipelineRunUpdate.after_dedup := Some (after_dedup s);
     PipelineRunUpdate.analyzed_success := Some (analyzed_success s);
     PipelineRunUpdate.analyzed_failed := Some (analyzed_failed s);
     PipelineRunUpdate.delivered := Some (delivered s);
     PipelineRunUpdate.error_log := error_log |}.

Definition _update_pipeline_run (status : pystr) (error_log : option pystr)
    (s : Stats) : outcome (option PipelineRunUpdate.t) :=
  let update := run_update status error_log s in
  let attempt :=
    match open_session w with
    | Raise e => Raise e
    | Return _ =>
        match update_pipeline_run w update with
        | Raise e => Raise e
        | Return found =>
            match commit w with
            | Raise e => Raise e
            | Return _ => Return (if found : bool then Some update else None)
            end
        end
    end in
  match attempt with
  | Return r => Return r
  | Raise e => if is_Exception e then Return None else Raise e
  end.

(** ** [run] *)

Definition thesis_map_of (watchlist : list WatchlistItem) : dict pystr :=
  fold_left
    (fun d item =>
       dict_set (wl_ticker item)
         (match wl_thesis item with Some t => t | None => [] end) d)
    watchlist [].

(** The body of the [try] block up to the delivery of the digest. *)
Definition run_steps (run_id : pystr) : M Digest :=
  watchlist <- call (load_watchlist w) ;;
  let tickers :=
    match specified_tickers with
    | Some (t :: ts) => t :: ts
    | _ => List.map wl_ticker watchlist
    end in
  let thesis_map := thesis_map_of watchlist in
  raw_items <- _collect_news tickers ;;
  set_stats (with_raw_collected (Zlen raw_items)) ;;;
  let '(normalized_items, total_before, removed) :=
    Normalizer.process U sha256_hexdigest Simhash SIMHASH_AVAILABLE
      (85 # 100)%Q (utcnow w) raw_items in
  set_stats (with_after_normalize (Zlen normalized_items)) ;;;
  set_stats (with_after_dedup (Zlen normalized_items)) ;;;
  let normalized_items := apply_limit normalized_items in
  digest_items <- _analyze_and_save normalized_items thesis_map ;;
  ticker_summaries <-
    _generate_ticker_summaries digest_items watchlist thesis_map ;;
  stats <- get_stats ;;
  let digest :=
    {| run_id := run_id;
       generated_at := utcnow w;
       window_start := window_start_time w;
       window_end := utcnow w;
       items := digest_items;
       total_collected := raw_collected stats;
       total_after_dedup := after_dedup stats;
       total_analyzed := analyzed_success stats;
       total_failed := analyzed_failed stats;
       ticker_summaries := ticker_summaries |} in
  (if str_in (py "notion") (outputs w)
   then _deliver_to_notion digest else ret tt) ;;;
  (if str_in (py "markdown") (outputs w)
   then _deliver_to_markdown digest else ret tt) ;;;
  ret digest.

(** What one call of [run] leaves behind. *)
Record RunResult : Type := {
  returned : outcome Digest;
  final_stats : Stats;
  (** the update applied to the stored [PipelineRun], if one was *)
  recorded : option PipelineRunUpdate.t
}.

Definition run (run_id : pystr) : RunResult :=
  match run_steps run_id initial_stats with
  | (Return digest, s) =>
      match _update_pipeline_run (py "success") None s with
      | Return r =>
          {| returned := Return digest; final_stats := s; recorded := r |}
      | Raise e' =>
          {| returned := Raise e'; final_stats := s; recorded := None |}
      end
  | (Raise e, s) =>
      if is_Exception e then
        match _update_pipeline_run (py "failed") (Some (str_of_exn e)) s with
        | Return r =>
            {| returned := Raise e; final_stats := s; recorded := r |}
        | Raise e' =>
            {| returned := Raise e'; final_stats := s; recorded := None |}
        end
      else {| returned := Raise e; final_stats := s; recorded := None |}
  end.
End Run.

End Pipeline.

(** The property [by_ticker] of [Digest] (outputs/base.py): the loop is
    the grouping loop of [_generate_ticker_summaries]. *)
Definition by_ticker (digest : Digest) : dict (list DigestItem) :=
  Pipeline.group_by_ticker (items digest).

(* ================================================================== *)
(** * Sample data *)
(* ================================================================== *)

Definition sample_filing : RawNewsData :=
  {| source := py "finnhub"; source_type := py "filing";
     external_id := None; url := py "https://example.com/8k";
     title := py "Form 8-K"; summary := None; published_at := None;
     tickers := [py "NVDA"]; raw_payload := None; author := None;
     category := None; image_url := None |}.

Definition sample_time : datetime :=
  {| year := 2024; month := 1; day := 15; hour := 10; minute := 0;
     second := 0; microsecond := 0 |}.

(** A document with valid enum fields and nothing else. *)
Definition sample_enums_only : dict json :=
  [(py "event_type", JStr (py "other"));
   (py "impact_direction", JStr (py "neutral"));
   (py "impact_horizon", JStr (py "short"));
   (py "thesis_relation", JStr (py "unrelated"));
   (py "confidence", JStr (py "low"))].

(** A complete document whose summary has 120 characters and which lists
    four key facts. *)
Definition sample_overlong : dict json :=
  sample_enums_only ++
  [(py "confidence_reason", JStr (py "single source"));
   (py "summary", JStr (repeat 120%N 120));
   (py "key_facts", JList [JStr (py "a"); JStr (py "b"); JStr (py "c");
                            JStr (py "d")])].

(** [str] where no value other than a string is rendered. *)
Definition repr_unused : json -> pystr := fun _ => [].

(** [json.loads] on replies that hold no JSON document. *)
Definition json_loads_nothing : pystr -> option json := fun _ => None.

(** A provider that answers from a script of replies. *)
Definition scripted_call_api (script : list (pystr * Z * float))
    (prompt : pystr) : outcome (pystr * Z * float) * list (pystr * Z * float) :=
  match script with
  | reply :: rest => (Return reply, rest)
  | [] => (Raise (OtherException (py "no reply")), [])
  end.

Definition sample_news (title : pystr) : NewsItemCreate.t :=
  {| NewsItemCreate.canonical_url := py "https://example.com/news/1";
     NewsItemCreate.title := title;
     NewsItemCreate.summary := None;
     NewsItemCreate.published_at := sample_time;
     NewsItemCreate.source := py "finnhub";
     NewsItemCreate.source_type := py "news";
     NewsItemCreate.credibility := py "medium";
     NewsItemCreate.tickers := Some [py "NVDA"];
     NewsItemCreate.title_normalized := None;
     NewsItemCreate.content_hash := None;
     NewsItemCreate.raw_item_id := None |}.

Definition sample_format_prompt (news : NewsItemCreate.t) (thesis : pystr)
    : outcome pystr :=
  Return (py "Title: " ++ NewsItemCreate.title news).

Definition sample_str_of_exn (e : exn) : pystr := py "validation error".

(** Two replies that are not JSON. *)
Definition sample_script : list (pystr * Z * float) :=
  [(py "I cannot answer", 10%Z, 0.25%float);
   (py "Sorry", 20%Z, 0.5%float)].

(** [json.loads] on the replies of the scripts below: [{}] is the empty
    object, the other texts are not JSON. *)
Definition sample_json_loads (text : pystr) : option json :=
  if str_eqb text (py "{}") then Some (JDict []) else None.

(** Two replies that are JSON and lack every field of the schema. *)
Definition sample_empty_objects : list (pystr * Z * float) :=
  [(py "{}", 10%Z, 0.25%float);
   (py "{}", 20%Z, 0.5%float)].

(** One such reply; the provider fails when asked again. *)
Definition sample_one_empty_object : list (pystr * Z * float) :=
  [(py "{}", 10%Z, 0.25%float)].

(** What validation reports for the empty object: the seven required
    fields are missing. *)
Definition sample_empty_object_errors : list (pystr * pystr) :=
  [(py "event_type", py "missing");
   (py "impact_direction", py "missing");
   (py "impact_horizon", py "missing");
   (py "thesis_relation", py "missing");
   (py "confidence", py "missing");
   (py "confidence_reason", py "missing");
   (py "summary", py "missing")].

Definition sample_raw_news : RawNewsData :=
  {| source := py "finnhub"; source_type := py "news";
     external_id := None; url := py "https://example.com/news/1";
     title := py "NVIDIA Reports Record Q4 Revenue"; summary := None;
     published_at := Some sample_time; tickers := [py "NVDA"];
     raw_payload := None; author := None; category := None;
     image_url := None |}.

(** A run over one collected item: every collaborator succeeds except
    the provider, whose [analyze] raises for the item. *)
Definition sample_world : Pipeline.World :=
  {| Pipeline.finnhub_enabled := true;
     Pipeline.sec_enabled := false;
     Pipeline.outputs := [py "markdown"];
     Pipeline.utcnow := sample_time;
     Pipeline.window_start_time := sample_time;
     Pipeline.load_watchlist :=
       Return [{| Pipeline.wl_ticker := py "NVDA";
                  Pipeline.wl_company_name := Some (py "NVIDIA");
                  Pipeline.wl_thesis := Some (py "AI demand") |}];
     Pipeline.finnhub_collect := fun _ => Return [sample_raw_news];
     Pipeline.sec_collect := fun _ => Return [];
     Pipeline.get_ai_provider := Return tt;
     Pipeline.provider_analyze :=
       fun _ _ => Raise (AIAnalysisError (py "Analysis failed: timeout"));
     Pipeline.provider_generate_ticker_summary :=
       fun _ _ _ _ => Return ([], 0%Z, 0%float);
     Pipeline.get_news_item_by_url := fun _ => Return false;
     Pipeline.create_raw_item := fun _ => Return (py "raw-1");
     Pipeline.create_news_item := fun _ => Return (py "news-1");
     Pipeline.create_analysis_result := fun _ _ => Return tt;
     Pipeline.commit := Return tt;
     Pipeline.create_delivery_log := fun _ => Return (py "log-1");
     Pipeline.update_delivery_log := fun _ _ => Return tt;
     Pipeline.open_session := Return tt;
     Pipeline.notion_deliver := fun _ => Return (py "page-1");
     Pipeline.markdown_deliver := fun _ => Return (py "digest.md");
     Pipeline.update_pipeline_run := fun _ => Return true |}.

Definition sample_title : pystr := py "NVIDIA Reports Record Q4 Revenue!!!".

Definition sample_item (src link headline : pystr) : RawNewsData :=
  {| source := src; source_type := py "news"; external_id := None;
     url := link; title := headline; summary := None;
     published_at := Some sample_time; tickers := [py "NVDA"];
     raw_payload := None; author := None; category := None;
     image_url := None |}.

(** An item whose title normalises to the empty string, and an ordinary
    one. *)
Definition sample_untitled : RawNewsData :=
  sample_item (py "finnhub") (py "https://example.com/a") (py "!!!").

Definition sample_titled : RawNewsData :=
  sample_item (py "finnhub") (py "https://example.com/b")
    (py "AMD Announces New GPU Architecture").

(** The same headline from two sources under two URLs. *)
Definition sample_wire_a : RawNewsData :=
  sample_item (py "finnhub") (py "https://example.com/nvda")
    (py "Nvidia beats estimates").

Definition sample_wire_b : RawNewsData :=
  sample_item (py "polygon") (py "https://other.com/nvda-q4")
    (py "Nvidia Beats Estimates!").

(** A stand-in for a collision-free digest. *)
Definition sample_digest : pystr -> pystr := fun content => content.

Definition sample_simhash : pystr -> N := fun _ => 0%N.

(** URLs for the canonicaliser: the one of the repository's test, one
    that [urlparse] rejects (an unmatched bracket in the host), one with
    an empty path parameter before a final slash, and one with a
    [utm_] parameter that is not in [TRACKING_PARAMS]. *)
Definition sample_url : pystr :=
  py "https://Example.com/News/Article?utm_source=twitter&ref=123&page=1".

Definition sample_rejected_url : pystr :=
  py "HTTP://[Example.com/?utm_source=twitter#frag".

Definition sample_params_url : pystr := py "http://a.com/x;/".

Definition sample_utm_id_url : pystr := py "http://a.com/?utm_id=1".

(** A normalised item that lists one ticker. *)
Definition sample_normalized : Pipeline.normalized_item :=
  Normalizer._normalize_item ascii_only sample_digest sample_time
    sample_raw_news.

(** A collected item whose payload is a list, not a [dict]. *)
Definition sample_list_payload : RawNewsData :=
  {| source := py "finnhub"; source_type := py "news";
     external_id := None; url := py "https://example.com/news/2";
     title := py "Payload is a list"; summary := None;
     published_at := Some sample_time; tickers := [py "NVDA"];
     raw_payload := Some (JList []); author := None; category := None;
     image_url := None |}.

(*SAMPLES*)
(* ================================================================== *)
(* ================================================================== *)
(** * Properties *)
(* ================================================================== *)
(* ================================================================== *)

(** ** Strings and dictionaries *)

Lemma str_eqb_spec (a b : pystr) : reflect (a = b) (str_eqb a b).
Proof.
  revert b; induction a as [|x a IH]; intros [|y b]; simpl;
    try (constructor; congruence).
  destruct (N.eqb_spec x y) as [->|Hxy]; simpl.
  - destruct (IH b) as [->|Hab]; constructor; congruence.
  - constructor; congruence.
Qed.

Lemma str_eqb_eq (a b : pystr) : str_eqb a b = true <-> a = b.
Proof. destruct (str_eqb_spec a b); split; congruence. Qed.

Lemma str_eqb_refl (a : pystr) : str_eqb a a = true.
Proof. apply str_eqb_eq; reflexivity. Qed.

Lemma str_eqb_neq (a b : pystr) : str_eqb a b = false <-> a <> b.
Proof. destruct (str_eqb_spec a b); split; congruence. Qed.

Lemma str_in_In (x : pystr) (xs : list pystr) : str_in x xs = true <-> In x xs.
Proof.
  unfold str_in. rewrite existsb_exists. split.
  - intros [y [Hy He]]. apply str_eqb_eq in He. subst; assumption.
  - intros H. exists x. split; [assumption | apply str_eqb_refl].
Qed.

Lemma dict_get_None_keys (V : Type) k (d : dict V) : dict_get k d = None <-> ~ In k (dict_keys d).
Proof.
  induction d as [|[k' v] d IH]; simpl.
  - tauto.
  - destruct (str_eqb_spec k k') as [->|Hne].
    + split; [discriminate | intros H; exfalso; apply H; left; reflexivity].
    + rewrite IH. split.
      * intros H [He|Hi]; [congruence | tauto].
      * intros H Hi. apply H. right; assumption.
Qed.

Lemma dict_set_new (V : Type) k (v : V) d :
  dict_get k d = None -> dict_set k v d = d ++ [(k, v)].
Proof.
  induction d as [|[k' v'] d IH]; simpl; intros H.
  - reflexivity.
  - destruct (str_eqb k k'); [discriminate|]. rewrite IH; auto.
Qed.

Lemma dict_set_keys_old (V : Type) k (v : V) d :
  dict_get k d <> None -> dict_keys (dict_set k v d) = dict_keys d.
Proof.
  induction d as [|[k' v'] d IH]; simpl; intros H.
  - congruence.
  - destruct (str_eqb k k'); simpl; [reflexivity|]. rewrite IH; auto.
Qed.

(** ** Rate limiter: the backoff formula *)

(** Case analysis on every [Qmin] and [Qmax] of the goal. *)
Ltac q_minmax :=
  repeat match goal with
  | |- context [Qmin ?a ?b] =>
      let m := fresh "m" in
      let H := fresh "Hmin" in
      pose proof (Q.min_spec a b) as H;
      set (m := Qmin a b) in *; clearbody m
  | |- context [Qmax ?a ?b] =>
      let m := fresh "m" in
      let H := fresh "Hmax" in
      pose proof (Q.max_spec a b) as H;
      set (m := Qmax a b) in *; clearbody m
  | H : context [Qmin ?a ?b] |- _ =>
      let m := fresh "m" in
      let H' := fresh "Hmin" in
      pose proof (Q.min_spec a b) as H';
      set (m := Qmin a b) in *; clearbody m
  | H : context [Qmax ?a ?b] |- _ =>
      let m := fresh "m" in
      let H' := fresh "Hmax" in
      pose proof (Q.max_spec a b) as H';
      set (m := Qmax a b) in *; clearbody m
  end.

Lemma base_wait_pos (attempt : nat) : (0 < inject_Z (2 ^ Z.of_nat attempt))%Q.
Proof.
  change 0%Q with (inject_Z 0). rewrite <- Zlt_Qlt.
  apply Z.pow_pos_nonneg; lia.
Qed.

Lemma backoff_without_retry_after (attempt : nat) (jitter : Q) :
  (RateLimiter._calculate_backoff attempt jitter None
   == Qmin 60 (inject_Z (2 ^ Z.of_nat attempt) * jitter))%Q.
Proof. unfold RateLimiter._calculate_backoff. apply Q.min_comm. Qed.

Lemma backoff_with_retry_after (attempt : nat) (jitter retry_after : Q) :
  (0 <= jitter)%Q ->
  (RateLimiter._calculate_backoff attempt jitter (Some retry_after)
   == Qmin 60 (Qmax (inject_Z (2 ^ Z.of_nat attempt) * jitter) retry_after))%Q.
Proof.
  intros Hj. unfold RateLimiter._calculate_backoff.
  pose proof (base_wait_pos attempt) as Hb.
  set (b := inject_Z (2 ^ Z.of_nat attempt)) in *. clearbody b.
  assert (Hw : (0 <= b * jitter)%Q) by (apply Qmult_le_0_compat; lra).
  set (wt := (b * jitter)%Q) in *. clearbody wt.
  destruct (Qeq_bool retry_after 0) eqn:E.
  - apply Qeq_bool_iff in E. q_minmax. intuition lra.
  - q_minmax. intuition lra.
Qed.

(** C4 (as amended). The wait is [min(60, 2^a * j)] without a
    Retry-After value and [min(60, max(2^a * j, retry_after))] with one:
    the 60 second cap is applied last.  The sleep is therefore at least
    [min(retry_after, 60)], and the wait equals
    [max(min(60, 2^a * j), retry_after)] whenever [retry_after <= 60]. *)
Theorem calculate_backoff_formula :
  forall (attempt : nat) (jitter retry_after : Q),
    (75 # 100 <= jitter)%Q -> (jitter <= 125 # 100)%Q ->
    let base_wait := inject_Z (2 ^ Z.of_nat attempt) in
    (RateLimiter._calculate_backoff attempt jitter None
     == Qmin 60 (base_wait * jitter))%Q
    /\ (RateLimiter._calculate_backoff attempt jitter (Some retry_after)
        == Qmin 60 (Qmax (base_wait * jitter) retry_after))%Q
    /\ (Qmin retry_after 60
        <= RateLimiter._calculate_backoff attempt jitter (Some retry_after))%Q
    /\ ((retry_after <= 60)%Q ->
        (RateLimiter._calculate_backoff attempt jitter (Some retry_after)
         == Qmax (Qmin 60 (base_wait * jitter)) retry_after)%Q).
Proof.
  intros attempt jitter retry_after Hlo Hhi base_wait.
  assert (Hj : (0 <= jitter)%Q) by lra.
  pose proof (backoff_with_retry_after attempt retry_after Hj) as Hra.
  fold base_wait in Hra.
  split; [apply backoff_without_retry_after|].
  split; [exact Hra|].
  set (r := RateLimiter._calculate_backoff attempt jitter (Some retry_after)) in *.
  clearbody r. set (w := (base_wait * jitter)%Q) in *. clearbody w.
  split.
  - q_minmax. intuition lra.
  - intros Hle. q_minmax. intuition lra.
Qed.

Lemma calculate_backoff_formula_witness :
  (RateLimiter._calculate_backoff 1 1 None == Qmin 60 (inject_Z (2 ^ 1) * 1))%Q
  /\ (RateLimiter._calculate_backoff 1 1 (Some 5)
      == Qmin 60 (Qmax (inject_Z (2 ^ 1) * 1) 5))%Q
  /\ (Qmin 5 60 <= RateLimiter._calculate_backoff 1 1 (Some 5))%Q
  /\ ((5 <= 60)%Q ->
      (RateLimiter._calculate_backoff 1 1 (Some 5)
       == Qmax (Qmin 60 (inject_Z (2 ^ 1) * 1)) 5)%Q).
Proof.
  apply (@calculate_backoff_formula 1%nat 1%Q 5%Q).
  - vm_compute; discriminate.
  - vm_compute; discriminate.
Defined.

(** C4 (counterexample). With [attempt = 0], jitter [1] and
    [Retry-After: 120] the computed wait is 60 seconds, not
    [max(min(60, 1), 120) = 120]. *)
Lemma calculate_backoff_cap_counterexample :
  (RateLimiter._calculate_backoff 0 1 (Some 120) == 60)%Q
  /\ ~ (RateLimiter._calculate_backoff 0 1 (Some 120)
        == Qmax (Qmin 60 (inject_Z (2 ^ Z.of_nat 0) * 1)) 120)%Q.
Proof.
  split.
  - vm_compute. reflexivity.
  - vm_compute. discriminate.
Qed.

(** ** Rate limiter: what [execute] raises when the retries run out *)

Section ExecuteExhausted.
Variable T : Type.
Variable float_of_str : pystr -> option Q.
Variable _limiters : list pystr.
Variable func : nat -> outcome T.
Variable jitter : nat -> Q.
Variable api_name : pystr.
Variable max_retries : Z.
Hypothesis registered : str_in api_name _limiters = true.

Lemma retryable_cases (r : outcome T) :
RateLimiter.retryable r = true ->
(exists code header,
    r = Raise (HTTPStatusError code header)
    /\ ((code =? 429)%Z = true
        \/ ((code =? 429)%Z = false
            /\ RateLimiter.retryable_status code = true)))
\/ (exists msg, r = Raise (ConnectError msg))
\/ (exists msg, r = Raise (TimeoutException msg)).
Proof.
destruct r as [v|e]; simpl; [discriminate|].
destruct e; simpl; try discriminate; intros H.
- left. exists status_code, retry_after_header. split; [reflexivity|].
  destruct (status_code =? 429)%Z; simpl in *; auto.
- right; left; eauto.
- right; right; eauto.
Qed.

(** Every iteration before the last one sleeps and goes on; the last
  one raises. *)
Lemma execute_loop_exhausted :
forall (todo attempt : nat) (last_error : option exn) (sleeps : list Q),
  (Z.of_nat attempt + Z.of_nat todo = max_retries + 1)%Z ->
  (0 < todo)%nat ->
  (forall a : nat, (attempt <= a)%nat -> (Z.of_nat a <= max_retries)%Z ->
                   RateLimiter.retryable (func a) = true) ->
  fst (RateLimiter.execute_loop float_of_str _limiters func jitter
         api_name max_retries todo attempt last_error sleeps)
  = RateLimiter.exhausted_error float_of_str api_name max_retries
      (func (Z.to_nat max_retries)).
Proof.
induction todo as [|todo IH]; intros attempt last_error sleeps Hsum Hpos Hretry;
  [lia|].
simpl. unfold RateLimiter.acquire. rewrite registered.
assert (Hr : RateLimiter.retryable (func attempt) = true)
  by (apply Hretry; lia).
destruct todo as [|todo'].
- (* the last permitted attempt *)
  assert (Hlast : Z.to_nat max_retries = attempt) by lia.
  rewrite Hlast.
  assert (Hlt : (Z.of_nat attempt <? max_retries)%Z = false)
    by (apply Z.ltb_ge; lia).
  destruct (retryable_cases _ Hr)
    as [(code & header & -> & Hc) | [(msg & ->) | (msg & ->)]]; simpl.
  + destruct Hc as [Hc | [Hc Hs]]; rewrite Hc, ?Hs, Hlt; reflexivity.
  + rewrite Hlt. reflexivity.
  + rewrite Hlt. reflexivity.
- assert (Hlt : (Z.of_nat attempt <? max_retries)%Z = true)
    by (apply Z.ltb_lt; lia).
  destruct (retryable_cases _ Hr)
    as [(code & header & -> & Hc) | [(msg & ->) | (msg & ->)]].
  + destruct Hc as [Hc | [Hc Hs]]; rewrite Hc, ?Hs, Hlt;
      (apply IH; [lia | lia | intros a Ha Hb; apply Hretry; lia]).
  + rewrite Hlt. apply IH; [lia | lia | intros a Ha Hb; apply Hretry; lia].
  + rewrite Hlt. apply IH; [lia | lia | intros a Ha Hb; apply Hretry; lia].
Qed.

(** When every attempt fails with a retryable failure, [execute] raises
  [RateLimitError] (with the Retry-After of the last response) only if
  the last failure is a 429; a 5xx status or a network error of the
  last attempt is re-raised as it is. *)
Lemma execute_exhausted :
(0 <= max_retries)%Z ->
(forall a : nat, (Z.of_nat a <= max_retries)%Z ->
                 RateLimiter.retryable (func a) = true) ->
fst (RateLimiter.execute float_of_str _limiters func jitter
       api_name max_retries)
= RateLimiter.exhausted_error float_of_str api_name max_retries
    (func (Z.to_nat max_retries)).
Proof.
intros Hmax Hretry. unfold RateLimiter.execute.
apply execute_loop_exhausted; [lia | lia | intros a _ Hb; auto].
Qed.

End ExecuteExhausted.

(** C2 (failing input). A wrapped operation that answers HTTP 503 on
    each of the [max_retries + 1 = 4] attempts exhausts the retries on a
    retryable failure, and [execute] raises the [HTTPStatusError] of the
    last attempt, which is not a [RateLimitError]. *)
Theorem execute_exhausted_503_reraises :
  forall (float_of_str : pystr -> option Q) (jitter : nat -> Q),
    let func := fun _ : nat => @Raise unit (HTTPStatusError 503 None) in
    (forall a : nat, RateLimiter.retryable (func a) = true)
    /\ fst (RateLimiter.execute float_of_str [py "finnhub"] func jitter
              (py "finnhub") 3)
       = Raise (HTTPStatusError 503 None)
    /\ (forall msg retry_after,
           fst (RateLimiter.execute float_of_str [py "finnhub"] func jitter
                  (py "finnhub") 3)
           <> Raise (RateLimitError msg retry_after)).
Proof.
  intros float_of_str jitter func.
  assert (H : fst (RateLimiter.execute float_of_str [py "finnhub"] func jitter
                     (py "finnhub") 3) = Raise (HTTPStatusError 503 None)).
  { rewrite execute_exhausted; [reflexivity | reflexivity | lia | reflexivity]. }
  split; [reflexivity|]. split; [exact H|].
  intros msg ra. rewrite H. discriminate.
Qed.

(** A 429 on every attempt does end in [RateLimitError], carrying the
    Retry-After of the last response. *)
Lemma execute_exhausted_429_rate_limited :
  forall (float_of_str : pystr -> option Q) (jitter : nat -> Q)
         (header : option pystr),
    fst (RateLimiter.execute float_of_str [py "finnhub"]
           (fun _ : nat => @Raise unit (HTTPStatusError 429 header)) jitter
           (py "finnhub") 3)
    = Raise (RateLimitError
               (RateLimiter.rate_limit_message (py "finnhub") 3)
               (RateLimiter._parse_retry_after float_of_str header)).
Proof.
  intros. rewrite execute_exhausted; [reflexivity | reflexivity | lia | reflexivity].
Qed.

(** ** Normalizer: credibility *)

Lemma determine_credibility_filing (src : pystr) :
  Normalizer._determine_credibility src (py "filing") = py "high".
Proof. reflexivity. Qed.

Lemma determine_credibility_other (src src_type : pystr) :
  src_type <> py "filing" ->
  Normalizer._determine_credibility src src_type
  = match dict_get src Normalizer.CREDIBILITY_MAP with
    | Some credibility => credibility
    | None => py "low"
    end.
Proof.
  intros Hne. unfold Normalizer._determine_credibility.
  apply str_eqb_neq in Hne. rewrite Hne. reflexivity.
Qed.

(** C9. The [NewsItem] produced for a raw item of source type
    ['filing'] has credibility ['high'] whatever its source; for any other
    source type the credibility is the entry of the per-source table,
    ['low'] when the source has none. *)
Theorem normalize_item_credibility :
  forall (U : UnicodeData) (sha256_hexdigest : pystr -> pystr)
         (utcnow : datetime) (raw : RawNewsData),
    let news_create :=
      snd (Normalizer._normalize_item U sha256_hexdigest utcnow raw) in
    (source_type raw = py "filing" ->
     NewsItemCreate.credibility news_create = py "high")
    /\ (source_type raw <> py "filing" ->
        NewsItemCreate.credibility news_create
        = match dict_get (source raw) Normalizer.CREDIBILITY_MAP with
          | Some credibility => credibility
          | None => py "low"
          end).
Proof.
  intros U sha utcnow raw news_create. subst news_create. simpl. split.
  - intros ->. apply determine_credibility_filing.
  - apply determine_credibility_other.
Qed.

Lemma normalize_item_credibility_witness :
  NewsItemCreate.credibility
    (snd (Normalizer._normalize_item ascii_only (fun s => s) sample_time
            sample_filing))
  = py "high".
Proof.
  apply (proj1 (normalize_item_credibility ascii_only (fun s => s)
                  sample_time sample_filing)).
  reflexivity.
Defined.

(** Every item [normalize] returns for a batch of filings is ['high']. *)
Lemma normalize_filings_high :
  forall (U : UnicodeData) (sha256_hexdigest : pystr -> pystr)
         (utcnow : datetime) (raw_items : list RawNewsData),
    Forall (fun raw => source_type raw = py "filing") raw_items ->
    Forall (fun p => NewsItemCreate.credibility (snd p) = py "high")
           (Normalizer.normalize U sha256_hexdigest utcnow raw_items).
Proof.
  intros U sha utcnow raw_items H. unfold Normalizer.normalize.
  induction H as [|raw l Hraw _ IH]; cbn [filter List.map]; [constructor|].
  destruct (Normalizer.records_accepted raw); [|exact IH].
  cbn [List.map]. constructor; [|exact IH].
  simpl. rewrite Hraw. apply determine_credibility_filing.
Qed.

(** ** LLM schema: truncation before the length checks *)


Lemma encodable_firstn (n : nat) (s : pystr) :
  encodable s = true -> encodable (firstn n s) = true.
Proof.
  unfold encodable. rewrite !forallb_forall. intros H c Hc.
  apply H. rewrite <- (firstn_skipn n s). apply in_or_app. left. exact Hc.
Qed.




Lemma check_str_items_strings (name : pystr) (l : list pystr) :
  AIAnalysisOutput.check_str_items name (List.map JStr l) = inr l.
Proof. induction l as [|s l IH]; simpl; [reflexivity | rewrite IH; reflexivity]. Qed.

Lemma check_str_list_strings (name : pystr) (n : nat) (l : list pystr) :
  (List.length l <= n)%nat ->
  AIAnalysisOutput.check_str_list name n (JList (List.map JStr l)) = inr l.
Proof.
  intros H. unfold AIAnalysisOutput.check_str_list.
  rewrite length_map. apply Nat.leb_le in H. rewrite H.
  apply check_str_items_strings.
Qed.
















(** A reply that is not JSON makes [_parse_and_validate] raise
    [TypeError], and a provider error object [KeyError]: neither is the
    [ValidationError] the two [raise] statements name. *)
Lemma parse_and_validate_not_json :
  forall (U : UnicodeData) (json_loads : pystr -> option json)
         (repr : json -> pystr) (raw_output : pystr),
    json_loads (BaseAIProvider.json_window
                  (BaseAIProvider.strip_code_fence U (strip U raw_output)))
    = None ->
    BaseAIProvider._parse_and_validate U json_loads repr raw_output
    = Raise (TypeError (py "JsonInvalid: 'error' required in context")).
Proof.
  intros U json_loads repr raw_output H.
  unfold BaseAIProvider._parse_and_validate. rewrite H. reflexivity.
Qed.

Lemma parse_and_validate_error_object :
  forall (U : UnicodeData) (json_loads : pystr -> option json)
         (repr : json -> pystr) (raw_output : pystr)
         (d : dict json) (err : dict json),
    json_loads (BaseAIProvider.json_window
                  (BaseAIProvider.strip_code_fence U (strip U raw_output)))
    = Some (JDict d) ->
    dict_get (py "error") d = Some (JDict err) ->
    BaseAIProvider._parse_and_validate U json_loads repr raw_output
    = Raise (KeyError (py "Invalid error type: 'api_error'")).
Proof.
  intros U json_loads repr raw_output d err H Herr.
  unfold BaseAIProvider._parse_and_validate. rewrite H.
  unfold BaseAIProvider.check_error_response. rewrite Herr. reflexivity.
Qed.




(** The same holds whatever [str] renders. *)
Lemma schema_missing_summary_any_repr (repr : json -> pystr) :
  AIAnalysisOutput.model_validate repr (JDict sample_enums_only)
  = AIAnalysisOutput.Invalid
      [(py "confidence_reason", py "missing"); (py "summary", py "missing")].
Proof. reflexivity. Qed.

(** ** Pipeline: the status written at the end of a run *)

Section RunStatus.
Variable U : UnicodeData.
Variable sha256_hexdigest : pystr -> pystr.
Variable Simhash : pystr -> N.
Variable SIMHASH_AVAILABLE : bool.
Variable str_of_exn : exn -> pystr.
Variable w : Pipeline.World.
Variable specified_tickers : option (list pystr).
Variable limit_per_ticker : option Z.

Lemma update_pipeline_run_writes (status : pystr) (error_log : option pystr)
    (s : Pipeline.Stats) (u : Pipeline.PipelineRunUpdate.t) :
  Pipeline._update_pipeline_run w status error_log s = Return (Some u) ->
  u = Pipeline.run_update w status error_log s.
Proof.
  unfold Pipeline._update_pipeline_run.
  destruct (Pipeline.open_session w) as [[]|e1].
  - destruct (Pipeline.update_pipeline_run w _) as [found|e2].
    + destruct (Pipeline.commit w) as [[]|e3].
      * destruct found; intros H; [congruence | discriminate].
      * destruct (is_Exception e3); discriminate.
    + destruct (is_Exception e2); discriminate.
  - destruct (is_Exception e1); discriminate.
Qed.

(** The only statuses [run] writes are ['success'], when the body of its
    [try] block returns the digest, and ['failed'] with the text of the
    exception, when the body raises. *)
Lemma run_records_success_or_failed (run_id : pystr)
    (u : Pipeline.PipelineRunUpdate.t) :
  let r := Pipeline.run U sha256_hexdigest Simhash SIMHASH_AVAILABLE
             str_of_exn w specified_tickers limit_per_ticker run_id in
  Pipeline.recorded r = Some u ->
  (Pipeline.PipelineRunUpdate.status u = Some (py "success")
   /\ Pipeline.PipelineRunUpdate.error_log u = None
   /\ exists digest, Pipeline.returned r = Return digest)
  \/ (Pipeline.PipelineRunUpdate.status u = Some (py "failed")
      /\ exists e, Pipeline.returned r = Raise e
                   /\ Pipeline.PipelineRunUpdate.error_log u
                      = Some (str_of_exn e)).
Proof.
  unfold Pipeline.run.
  destruct (Pipeline.run_steps _ _ _ _ _ _ _ _ _) as [[digest|e] s].
  - destruct (Pipeline._update_pipeline_run w (py "success") None s)
      as [ru|e'] eqn:Eu; simpl; [|discriminate].
    intros ->. apply update_pipeline_run_writes in Eu. subst u.
    left. simpl. eauto.
  - destruct (is_Exception e); [|simpl; discriminate].
    destruct (Pipeline._update_pipeline_run w (py "failed") _ s)
      as [ru|e'] eqn:Eu; simpl; [|discriminate].
    intros ->. apply update_pipeline_run_writes in Eu. subst u.
    right. simpl. eauto.
Qed.

(** No run writes the status ['partial']. *)
Lemma run_never_records_partial (run_id : pystr)
    (u : Pipeline.PipelineRunUpdate.t) :
  Pipeline.recorded
    (Pipeline.run U sha256_hexdigest Simhash SIMHASH_AVAILABLE
       str_of_exn w specified_tickers limit_per_ticker run_id) = Some u ->
  Pipeline.PipelineRunUpdate.status u <> Some (py "partial").
Proof.
  intros H. apply run_records_success_or_failed in H.
  destruct H as [(-> & _) | (-> & _)]; discriminate.
Qed.

End RunStatus.

(** C1 (failing input). In a run over one collected item whose analysis
    raises, no stage raises and the digest is delivered; the run ends
    with [analyzed_failed = 1] and the status written is ['success'],
    not ['partial']. *)
Theorem run_with_failed_analysis_records_success :
  forall (U : UnicodeData) (sha256_hexdigest : pystr -> pystr)
         (Simhash : pystr -> N) (SIMHASH_AVAILABLE : bool)
         (str_of_exn : exn -> pystr),
    let r := Pipeline.run U sha256_hexdigest Simhash SIMHASH_AVAILABLE
               str_of_exn sample_world None None (py "run-1") in
    (exists digest, Pipeline.returned r = Return digest
                    /\ List.length (items digest) = 1%nat
                    /\ total_failed digest = 1%Z)
    /\ Pipeline.analyzed_failed (Pipeline.final_stats r) = 1%Z
    /\ Pipeline.delivered (Pipeline.final_stats r) = 1%Z
    /\ (exists u, Pipeline.recorded r = Some u
                  /\ Pipeline.PipelineRunUpdate.status u = Some (py "success")
                  /\ Pipeline.PipelineRunUpdate.analyzed_failed u = Some 1%Z).
Proof.
  intros U sha256_hexdigest Simhash SIMHASH_AVAILABLE str_of_exn r.
  subst r. split; [|split; [|split]].
  - eexists. split; [vm_compute; reflexivity|]. split; reflexivity.
  - vm_compute; reflexivity.
  - vm_compute; reflexivity.
  - eexists. split; [vm_compute; reflexivity|]. split; reflexivity.
Qed.

(** ** Deduplicator: title normalisation *)

Section NormalizeTitle.
Variable U : UnicodeData.

Lemma isspace_space : isspace U 32%N = true.
Proof. reflexivity. Qed.


(** The words [split()] returns are non-empty, hold no white space and
    are made of characters of the text. *)
Lemma split_ws_from_words (s cur : pystr) :
  Forall (fun c => isspace U c = false) cur ->
  Forall (fun word => word <> []
                      /\ Forall (fun c => isspace U c = false) word
                      /\ incl word (cur ++ s))
         (split_ws_from U cur s).
Proof.
  revert cur. induction s as [|c s IH]; intros cur Hcur; simpl.
  - destruct cur as [|x cur']; constructor; [|constructor].
    split; [discriminate|]. split; [exact Hcur|].
    rewrite app_nil_r. apply incl_refl.
  - destruct (isspace U c) eqn:Ec.
    + assert (Hrest : Forall (fun word => word <> []
                        /\ Forall (fun c0 => isspace U c0 = false) word
                        /\ incl word (cur ++ c :: s))
                        (split_ws_from U [] s)).
      { eapply Forall_impl; [|apply (IH []); constructor].
        intros word (Hne & Hns & Hincl). split; [exact Hne|].
        split; [exact Hns|].
        intros x Hx. apply in_or_app. right. right. apply Hincl. exact Hx. }
      destruct cur as [|x cur']; [exact Hrest|].
      constructor; [|exact Hrest].
      split; [discriminate|]. split; [exact Hcur|].
      apply incl_appl, incl_refl.
    + eapply Forall_impl; [|apply (IH (cur ++ [c]))].
      * intros word (Hne & Hns & Hincl). split; [exact Hne|].
        split; [exact Hns|]. rewrite <- app_assoc in Hincl. exact Hincl.
      * apply Forall_app. split; [exact Hcur|]. constructor; [exact Ec|constructor].
Qed.

Lemma split_ws_words (s : pystr) :
  Forall (fun word => word <> []
                      /\ Forall (fun c => isspace U c = false) word
                      /\ incl word s)
         (split_ws U s).
Proof. apply (split_ws_from_words s (cur := [])). constructor. Qed.

(** After the substitution every character is a word character or white
    space. *)
Lemma sub_punctuation_chars (title : pystr) :
  Forall (fun c => is_word U c = true \/ isspace U c = true)
         (Deduplicator.sub_punctuation U title).
Proof.
  unfold Deduplicator.sub_punctuation. apply Forall_forall.
  intros c Hc. apply in_map_iff in Hc. destruct Hc as [x [<- _]].
  destruct (is_word U x) eqn:Ew; simpl; [left; exact Ew|].
  destruct (isspace U x) eqn:Es; [right; exact Es|].
  right. apply isspace_space.
Qed.

End NormalizeTitle.

(** *** Joining words with single spaces *)







Lemma join_chars (P : codepoint -> Prop) (sep : pystr) (words : list pystr) :
  Forall P sep -> Forall (Forall P) words -> Forall P (join sep words).
Proof.
  intros Hsep. induction 1 as [|p ps Hp Hps IH]; [constructor|].
  destruct ps as [|q ps']; [exact Hp|].
  change (join sep (p :: q :: ps')) with (p ++ sep ++ join sep (q :: ps')).
  apply Forall_app. split; [exact Hp|]. apply Forall_app. split; assumption.
Qed.

(** Case analysis on the comparisons of code points in the goal. *)
Ltac n_cases :=
  repeat match goal with
  | |- context [(?a <=? ?b)%N] => destruct (N.leb_spec a b)
  | |- context [(?a <? ?b)%N] => destruct (N.ltb_spec a b)
  | |- context [(?a =? ?b)%N] => destruct (N.eqb_spec a b)
  | H : context [(?a <=? ?b)%N] |- _ => destruct (N.leb_spec a b)
  | H : context [(?a <? ?b)%N] |- _ => destruct (N.ltb_spec a b)
  | H : context [(?a =? ?b)%N] |- _ => destruct (N.eqb_spec a b)
  end;
  simpl in *; try discriminate; try reflexivity; try lia.

Lemma ascii_lower_ascii (c : codepoint) :
  is_ascii c = true -> is_ascii (ascii_lower c) = true.
Proof. unfold is_ascii, ascii_lower, ascii_isupper. intros H. n_cases. Qed.

Lemma ascii_lower_not_upper (c : codepoint) :
  ascii_isupper (ascii_lower c) = false.
Proof. unfold ascii_lower, ascii_isupper. n_cases. Qed.


(** The normalised form of a non-empty title. *)
Lemma normalize_title_nonempty (U : UnicodeData) (title : pystr) :
  title <> [] ->
  Deduplicator.normalize_title U title
  = join [32%N]
      (split_ws U
         (Deduplicator.sub_punctuation U (lower U (normalize_nfkc U title)))).
Proof. destruct title; [congruence | reflexivity]. Qed.

Lemma normalized_words (U : UnicodeData) (text : pystr) :
  Forall (fun word => word <> []
            /\ Forall (fun c => is_word U c = true /\ isspace U c = false) word
            /\ incl word (Deduplicator.sub_punctuation U text))
         (split_ws U (Deduplicator.sub_punctuation U text)).
Proof.
  eapply Forall_impl; [|apply split_ws_words].
  intros word (Hne & Hns & Hincl). split; [exact Hne|]. split; [|exact Hincl].
  pose proof (sub_punctuation_chars U text) as Hsub.
  rewrite Forall_forall in *. intros c Hc.
  specialize (Hns c Hc). split; [|exact Hns].
  destruct (Hsub c (Hincl c Hc)) as [Hw|Hs]; [exact Hw | congruence].
Qed.

(** On an ASCII title every character left by the substitution is ASCII
    and not an upper-case letter. *)
Lemma sub_punctuation_ascii_lower (U : UnicodeData) (title : pystr) :
  str_isascii title = true ->
  Forall (fun c => is_ascii c = true /\ ascii_isupper c = false)
         (Deduplicator.sub_punctuation U (lower U (normalize_nfkc U title))).
Proof.
  intros Hascii. unfold normalize_nfkc, lower. rewrite Hascii, Hascii.
  unfold Deduplicator.sub_punctuation. apply Forall_forall. intros c Hc.
  apply in_map_iff in Hc. destruct Hc as [x [<- Hx]].
  apply in_map_iff in Hx. destruct Hx as [y [<- Hy]].
  unfold str_isascii in Hascii. rewrite forallb_forall in Hascii.
  destruct (is_word U (ascii_lower y) || isspace U (ascii_lower y)).
  - split; [apply ascii_lower_ascii, Hascii, Hy | apply ascii_lower_not_upper].
  - split; reflexivity.
Qed.




(** The same on every Unicode database, and the test of the repository. *)
Lemma normalize_title_underscore_any (U : UnicodeData) :
  Deduplicator.normalize_title U (py "a_b") = py "a_b".
Proof. reflexivity. Qed.

Lemma normalize_title_test (U : UnicodeData) :
  Deduplicator.normalize_title U sample_title
  = py "nvidia reports record q4 revenue".
Proof. reflexivity. Qed.

(** ** Subsequences *)

Lemma Subseq_nil_l (A : Type) (l : list A) : Subseq [] l.
Proof. induction l; [apply Subseq_nil | apply Subseq_skip; assumption]. Qed.

Lemma Subseq_refl (A : Type) (l : list A) : Subseq l l.
Proof. induction l; [apply Subseq_nil | apply Subseq_take; assumption]. Qed.

Lemma Subseq_app (A : Type) (l1 l2 l1' l2' : list A) :
  Subseq l1 l2 -> Subseq l1' l2' -> Subseq (l1 ++ l1') (l2 ++ l2').
Proof.
  intros H H'. induction H; simpl;
    [exact H' | apply Subseq_skip; assumption | apply Subseq_take; assumption].
Qed.

Lemma Subseq_snoc_skip (A : Type) (l1 l2 : list A) (x : A) :
  Subseq l1 l2 -> Subseq l1 (l2 ++ [x]).
Proof.
  intros H. rewrite <- (app_nil_r l1).
  apply Subseq_app; [exact H | apply Subseq_nil_l].
Qed.

Lemma Subseq_trans (A : Type) (l1 l2 l3 : list A) :
  Subseq l1 l2 -> Subseq l2 l3 -> Subseq l1 l3.
Proof.
  intros H12 H23. revert l1 H12.
  induction H23 as [|x l2 l3 H23 IH|x l2 l3 H23 IH]; intros l1 H12.
  - exact H12.
  - apply Subseq_skip. apply IH. exact H12.
  - inversion H12; subst.
    + apply Subseq_skip. apply IH. assumption.
    + apply Subseq_take. apply IH. assumption.
Qed.

Lemma Subseq_In (A : Type) (l1 l2 : list A) (x : A) :
  Subseq l1 l2 -> In x l1 -> In x l2.
Proof.
  induction 1; simpl; intros Hin; auto.
  destruct Hin as [->|Hin]; auto.
Qed.

Lemma Subseq_length (A : Type) (l1 l2 : list A) :
  Subseq l1 l2 -> (List.length l1 <= List.length l2)%nat.
Proof. induction 1; simpl; lia. Qed.

Lemma Subseq_map (A B : Type) (f : A -> B) (l1 l2 : list A) :
  Subseq l1 l2 -> Subseq (List.map f l1) (List.map f l2).
Proof.
  induction 1; simpl;
    [apply Subseq_nil | apply Subseq_skip; assumption
     | apply Subseq_take; assumption].
Qed.

Lemma Subseq_NoDup (A : Type) (l1 l2 : list A) :
  Subseq l1 l2 -> NoDup l2 -> NoDup l1.
Proof.
  induction 1 as [|x l1 l2 H IH|x l1 l2 H IH]; intros Hnd.
  - constructor.
  - inversion Hnd; subst. auto.
  - inversion Hnd; subst. constructor; [|auto].
    intros Hin. apply H2. eapply Subseq_In; eassumption.
Qed.

(** ** Deduplicator: stages 1 and 2 keep one item for each key *)

Section FirstSeen.
Variable key : RawNewsData -> pystr.

(** What the loop maintains: the kept items are a subsequence of the
    items read so far, [seen] is keyed by their keys, and no key occurs
    twice. *)
Lemma first_seen_loop_inv :
  forall (items : list RawNewsData) (seen : dict RawNewsData)
         (duplicates : dict (list pystr)) (read : list RawNewsData),
    Subseq (dict_values seen) read
    /\ List.map key (dict_values seen) = dict_keys seen
    /\ NoDup (dict_keys seen) ->
    let seen' :=
      fst (Deduplicator.first_seen_loop key items seen duplicates) in
    Subseq (dict_values seen') (read ++ items)
    /\ List.map key (dict_values seen') = dict_keys seen'
    /\ NoDup (dict_keys seen').
Proof.
  intros l. induction l as [|item rest IH]; intros seen duplicates read Hinv.
  - simpl. rewrite app_nil_r. exact Hinv.
  - simpl. replace (read ++ item :: rest) with ((read ++ [item]) ++ rest)
      by (rewrite <- app_assoc; reflexivity).
    destruct Hinv as (Hsub & Hkeys & Hnd).
    destruct (dict_get (key item) seen) as [first|] eqn:Eget.
    + apply IH. split; [|split; assumption].
      apply Subseq_snoc_skip. exact Hsub.
    + apply IH. rewrite dict_set_new by exact Eget.
      unfold dict_values, dict_keys in *. rewrite !map_app. simpl.
      split; [|split].
      * apply Subseq_app; [exact Hsub | apply Subseq_refl].
      * rewrite Hkeys. reflexivity.
      * apply dict_get_None_keys in Eget. unfold dict_keys in Eget.
        apply NoDup_app; [exact Hnd | repeat constructor; simpl; tauto |].
        intros x Hx [<-|[]]. auto.
Qed.

End FirstSeen.

Lemma first_seen_dedup_kept (key : RawNewsData -> pystr) (meth : pystr)
    (l : list RawNewsData) :
  Subseq (fst (Deduplicator.first_seen_dedup key meth l)) l
  /\ NoDup (List.map key (fst (Deduplicator.first_seen_dedup key meth l))).
Proof.
  unfold Deduplicator.first_seen_dedup.
  pose proof (@first_seen_loop_inv key l [] [] []) as H.
  destruct (Deduplicator.first_seen_loop key l [] []) as [seen duplicates].
  simpl in *.
  destruct H as (Hsub & Hkeys & Hnd).
  - split; [apply Subseq_nil | split; [reflexivity | constructor]].
  - split; [exact Hsub | rewrite Hkeys; exact Hnd].
Qed.

Lemma first_seen_dedup_method (key : RawNewsData -> pystr) (meth : pystr)
    (l : list RawNewsData) (c : Deduplicator.DedupClusterInfo) :
  In c (snd (Deduplicator.first_seen_dedup key meth l)) ->
  Deduplicator.method c = meth.
Proof.
  unfold Deduplicator.first_seen_dedup.
  destruct (Deduplicator.first_seen_loop key l [] []) as [seen duplicates].
  simpl. intros Hin. apply in_map_iff in Hin.
  destruct Hin as [kv [<- _]]. reflexivity.
Qed.

(** ** Deduplicator: stage 3 *)

Section GreedyProperties.
Variable similarity_threshold : Q.
Variable F : Type.
Variable similar : F -> F -> bool.

(** The inner loop appends the URLs of some of the later items, in order. *)
Lemma scan_later_picks :
  forall (later : list (Deduplicator.entry F)) (feature_i : F)
         (similar_items : list pystr) (removed : list nat),
    exists picked : list RawNewsData,
      Subseq picked (List.map (@Deduplicator.entry_item F) later)
      /\ fst (Deduplicator.scan_later similar feature_i later
                similar_items removed)
         = similar_items ++ List.map url picked.
Proof.
  induction later as [|[j [item_j feature_j]] later IH];
    intros feature_i similar_items removed.
  - exists []. split; [apply Subseq_nil | simpl; rewrite app_nil_r; reflexivity].
  - simpl. destruct (existsb (Nat.eqb j) removed).
    + destruct (IH feature_i similar_items removed) as [picked [Hsub Heq]].
      exists picked. split; [apply Subseq_skip; exact Hsub | exact Heq].
    + destruct (similar feature_i feature_j).
      * destruct (IH feature_i (similar_items ++ [url item_j]) (j :: removed))
          as [picked [Hsub Heq]].
        exists (item_j :: picked). split; [apply Subseq_take; exact Hsub|].
        rewrite Heq, <- app_assoc. reflexivity.
      * destruct (IH feature_i similar_items removed) as [picked [Hsub Heq]].
        exists picked. split; [apply Subseq_skip; exact Hsub | exact Heq].
Qed.

Lemma cluster_from_skip (c : Deduplicator.DedupClusterInfo)
    (x : RawNewsData) (pool : list RawNewsData) :
  Deduplicator.cluster_from c pool -> Deduplicator.cluster_from c (x :: pool).
Proof.
  intros (Hm & members & Hsub & Heq). split; [exact Hm|].
  exists members. split; [apply Subseq_skip; exact Hsub | exact Heq].
Qed.

Lemma greedy_loop_result :
  forall (entries : list (Deduplicator.entry F))
         (kept : list RawNewsData)
         (clusters : list Deduplicator.DedupClusterInfo)
         (removed : list nat),
    exists (added : list RawNewsData)
           (new_clusters : list Deduplicator.DedupClusterInfo),
      Deduplicator.greedy_loop similarity_threshold similar entries
        kept clusters removed
      = (kept ++ added, clusters ++ new_clusters)
      /\ Subseq added (List.map (@Deduplicator.entry_item F) entries)
      /\ Forall (fun c => Deduplicator.cluster_from c (List.map (@Deduplicator.entry_item F) entries))
                new_clusters.
Proof.
  induction entries as [|[i [item_i feature_i]] later IH];
    intros kept clusters removed.
  - exists [], []. simpl. rewrite !app_nil_r.
    split; [reflexivity | split; [apply Subseq_nil | constructor]].
  - simpl. destruct (existsb (Nat.eqb i) removed).
    + destruct (IH kept clusters removed) as (added & new & Heq & Hsub & Hcl).
      exists added, new. split; [exact Heq|].
      split; [apply Subseq_skip; exact Hsub|].
      eapply Forall_impl; [|exact Hcl]. intros c. apply cluster_from_skip.
    + destruct (scan_later_picks later feature_i [url item_i] removed)
        as [picked [Hpicked Hsim]].
      destruct (Deduplicator.scan_later similar feature_i later
                  [url item_i] removed) as [similar_items removed'].
      simpl in Hsim. subst similar_items.
      match goal with
      | |- context [if ?b then _ else _] => destruct b
      end;
        match goal with
        | |- context [Deduplicator.greedy_loop _ _ later ?k ?c ?r] =>
            destruct (IH k c r) as (added & new & Heq & Hsub & Hcl)
        end.
      * eexists (item_i :: added), (_ :: new).
        split; [rewrite Heq, <- !app_assoc; reflexivity|].
        split; [apply Subseq_take; exact Hsub|].
        constructor.
        -- split; [reflexivity|]. exists (item_i :: picked).
           split; [apply Subseq_take; exact Hpicked | reflexivity].
        -- eapply Forall_impl; [|exact Hcl]. intros c. apply cluster_from_skip.
      * exists (item_i :: added), new.
        split; [rewrite Heq, <- !app_assoc; reflexivity|].
        split; [apply Subseq_take; exact Hsub|].
        eapply Forall_impl; [|exact Hcl]. intros c. apply cluster_from_skip.
Qed.

Lemma enumerate_items (l : list (RawNewsData * F)) :
  List.map (@Deduplicator.entry_item F) (Deduplicator.enumerate l) = List.map fst l.
Proof.
  unfold Deduplicator.enumerate. generalize 0%nat.
  induction l as [|[item f] l IH]; intros start; [reflexivity|].
  simpl. rewrite IH. reflexivity.
Qed.

Lemma greedy_dedup_result (l : list (RawNewsData * F)) :
  Subseq (fst (Deduplicator.greedy_dedup similarity_threshold similar l))
         (List.map fst l)
  /\ Forall (fun c => Deduplicator.cluster_from c (List.map fst l))
            (snd (Deduplicator.greedy_dedup similarity_threshold similar l)).
Proof.
  unfold Deduplicator.greedy_dedup.
  destruct (greedy_loop_result (Deduplicator.enumerate l) [] [] [])
    as (added & new & Heq & Hsub & Hcl).
  rewrite Heq. simpl. rewrite <- enumerate_items. split; assumption.
Qed.

End GreedyProperties.

(** ** Deduplicator: the three stages together *)

Lemma cluster_from_subseq (c : Deduplicator.DedupClusterInfo)
    (pool pool' : list RawNewsData) :
  Deduplicator.cluster_from c pool -> Subseq pool pool' ->
  Deduplicator.cluster_from c pool'.
Proof.
  intros (Hm & members & Hsub & Heq) Hpool. split; [exact Hm|].
  exists members. split; [eapply Subseq_trans; eassumption | exact Heq].
Qed.

Lemma flat_map_optional_subseq (A B : Type) (f : A -> B) (keep : A -> bool)
    (l : list A) :
  Subseq (List.map fst (flat_map (fun a => if keep a then [(a, f a)] else []) l))
         l.
Proof.
  induction l as [|a l IH]; simpl; [apply Subseq_nil|].
  destruct (keep a); simpl; [apply Subseq_take | apply Subseq_skip]; exact IH.
Qed.

Section Stages.
Variable U : UnicodeData.
Variable sha256_hexdigest : pystr -> pystr.
Variable Simhash : pystr -> N.
Variable SIMHASH_AVAILABLE : bool.
Variable similarity_threshold : Q.

Lemma similarity_dedup_result (l : list RawNewsData) :
  let r := Deduplicator._similarity_dedup U Simhash SIMHASH_AVAILABLE
             similarity_threshold l in
  Subseq (fst r) l
  /\ Forall (fun c => Deduplicator.cluster_from c l) (snd r).
Proof.
  unfold Deduplicator._similarity_dedup.
  destruct (List.length l <=? 1)%nat.
  { simpl. split; [apply Subseq_refl | constructor]. }
  destruct SIMHASH_AVAILABLE.
  - unfold Deduplicator._simhash_dedup.
    match goal with
    | |- context [Deduplicator.greedy_dedup ?t ?sim ?h] =>
        destruct (greedy_dedup_result t sim h) as [Hk Hc];
        assert (Hpool : Subseq (List.map fst h) l)
    end.
    { apply (flat_map_optional_subseq
               (fun item => Simhash (Deduplicator.normalize_title U (title item)))
               (fun item => str_truthy
                              (Deduplicator.normalize_title U (title item)))). }
    simpl. split; [eapply Subseq_trans; eassumption|].
    eapply Forall_impl; [|exact Hc].
    intros c Hcl. exact (cluster_from_subseq Hcl Hpool).
  - unfold Deduplicator._simple_similarity_dedup.
    match goal with
    | |- context [Deduplicator.greedy_dedup ?t ?sim ?h] =>
        destruct (greedy_dedup_result t sim h) as [Hk Hc]
    end.
    rewrite map_map in Hk, Hc. simpl in Hk, Hc. rewrite map_id in Hk, Hc.
    simpl. split; assumption.
Qed.

(** [removed_count] is the number of input items that are not kept. *)
Lemma deduplicate_count (l : list RawNewsData) :
  let r := Deduplicator.deduplicate U sha256_hexdigest Simhash
             SIMHASH_AVAILABLE similarity_threshold l in
  (Z.of_nat (List.length (Deduplicator.kept_items r))
   + Deduplicator.removed_count r = Z.of_nat (List.length l))%Z.
Proof.
  unfold Deduplicator.deduplicate. destruct l as [|a l]; [reflexivity|].
  destruct (Deduplicator._url_dedup U (a :: l)) as [items1 c1].
  destruct (Deduplicator._hash_dedup U sha256_hexdigest items1) as [items2 c2].
  destruct (Deduplicator._similarity_dedup U Simhash SIMHASH_AVAILABLE
              similarity_threshold items2) as [items3 c3].
  cbn [Deduplicator.kept_items Deduplicator.removed_count]. lia.
Qed.

(** The kept items are input items, in the order of the input. *)
Lemma deduplicate_subseq (l : list RawNewsData) :
  Subseq (Deduplicator.kept_items
            (Deduplicator.deduplicate U sha256_hexdigest Simhash
               SIMHASH_AVAILABLE similarity_threshold l)) l.
Proof.
  unfold Deduplicator.deduplicate. destruct l as [|a l]; [apply Subseq_nil|].
  pose proof (first_seen_dedup_kept
                (fun item => Deduplicator.canonicalize_url U (url item))
                (py "url_exact") (a :: l)) as [H1 _].
  fold (Deduplicator._url_dedup U (a :: l)) in H1.
  destruct (Deduplicator._url_dedup U (a :: l)) as [items1 c1].
  pose proof (first_seen_dedup_kept
                (Deduplicator.compute_content_hash U sha256_hexdigest)
                (py "hash_match") items1) as [H2 _].
  fold (Deduplicator._hash_dedup U sha256_hexdigest items1) in H2.
  destruct (Deduplicator._hash_dedup U sha256_hexdigest items1) as [items2 c2].
  pose proof (similarity_dedup_result items2) as [H3 _].
  destruct (Deduplicator._similarity_dedup U Simhash SIMHASH_AVAILABLE
              similarity_threshold items2) as [items3 c3].
  simpl in *. eapply Subseq_trans; [exact H3|].
  eapply Subseq_trans; eassumption.
Qed.

End Stages.

(** C8. The stages run in the order URL, content hash, similarity:
    every cluster with method ['similarity'] is made of the URLs of
    distinct input items that survived the first two stages, so no two
    of its items share a canonical URL or a content hash. *)
Theorem similarity_clusters_exclude_exact_duplicates :
  forall (U : UnicodeData) (sha256_hexdigest : pystr -> pystr)
         (Simhash : pystr -> N) (SIMHASH_AVAILABLE : bool)
         (similarity_threshold : Q) (l : list RawNewsData)
         (c : Deduplicator.DedupClusterInfo),
    In c (Deduplicator.clusters
            (Deduplicator.deduplicate U sha256_hexdigest Simhash
               SIMHASH_AVAILABLE similarity_threshold l)) ->
    Deduplicator.method c = py "similarity" ->
    exists members : list RawNewsData,
      Subseq members l
      /\ Deduplicator.representative_url c :: Deduplicator.member_urls c
         = List.map url members
      /\ NoDup (List.map
                  (fun item => Deduplicator.canonicalize_url U (url item))
                  members)
      /\ NoDup (List.map
                  (Deduplicator.compute_content_hash U sha256_hexdigest)
                  members).
Proof.
  intros U sha256_hexdigest Simhash SIMHASH_AVAILABLE similarity_threshold
    l c Hin Hmethod.
  unfold Deduplicator.deduplicate in Hin.
  destruct l as [|a l]; [destruct Hin|].
  pose proof (first_seen_dedup_kept
                (fun item => Deduplicator.canonicalize_url U (url item))
                (py "url_exact") (a :: l)) as [H1 N1].
  pose proof (@first_seen_dedup_method
                (fun item => Deduplicator.canonicalize_url U (url item))
                (py "url_exact") (a :: l) c) as M1.
  fold (Deduplicator._url_dedup U (a :: l)) in H1, N1, M1.
  destruct (Deduplicator._url_dedup U (a :: l)) as [items1 c1].
  pose proof (first_seen_dedup_kept
                (Deduplicator.compute_content_hash U sha256_hexdigest)
                (py "hash_match") items1) as [H2 N2].
  pose proof (@first_seen_dedup_method
                (Deduplicator.compute_content_hash U sha256_hexdigest)
                (py "hash_match") items1 c) as M2.
  fold (Deduplicator._hash_dedup U sha256_hexdigest items1) in H2, N2, M2.
  destruct (Deduplicator._hash_dedup U sha256_hexdigest items1) as [items2 c2].
  pose proof (similarity_dedup_result U Simhash SIMHASH_AVAILABLE
                similarity_threshold items2) as [_ H3].
  destruct (Deduplicator._similarity_dedup U Simhash SIMHASH_AVAILABLE
              similarity_threshold items2) as [items3 c3].
  cbn [Deduplicator.clusters fst snd] in *.
  apply in_app_or in Hin. destruct Hin as [Hin|Hin].
  { apply M1 in Hin. rewrite Hin in Hmethod. discriminate Hmethod. }
  apply in_app_or in Hin. destruct Hin as [Hin|Hin].
  { apply M2 in Hin. rewrite Hin in Hmethod. discriminate Hmethod. }
  rewrite Forall_forall in H3.
  destruct (H3 c Hin) as (_ & members & Hsub & Heq).
  exists members. split; [|split; [exact Heq|split]].
  - eapply Subseq_trans; [exact Hsub|]. eapply Subseq_trans; eassumption.
  - eapply Subseq_NoDup; [|exact N1]. apply Subseq_map.
    eapply Subseq_trans; eassumption.
  - eapply Subseq_NoDup; [|exact N2]. apply Subseq_map. exact Hsub.
Qed.

Lemma similarity_clusters_exclude_exact_duplicates_witness :
  exists members : list RawNewsData,
    Subseq members [sample_wire_a; sample_wire_b]
    /\ [url sample_wire_a; url sample_wire_b] = List.map url members
    /\ NoDup (List.map
                (fun item => Deduplicator.canonicalize_url ascii_only (url item))
                members)
    /\ NoDup (List.map
                (Deduplicator.compute_content_hash ascii_only sample_digest)
                members).
Proof.
  apply (@similarity_clusters_exclude_exact_duplicates ascii_only sample_digest
           sample_simhash false (85 # 100)%Q [sample_wire_a; sample_wire_b]
           {| Deduplicator.representative_url := url sample_wire_a;
              Deduplicator.member_urls := [url sample_wire_b];
              Deduplicator.method := py "similarity";
              Deduplicator.similarity_score := Some (85 # 100)%Q |}).
  - vm_compute. left. reflexivity.
  - reflexivity.
Defined.

(** ** Deduplicator: items lost in the SimHash stage *)

Lemma first_seen_dedup_two_distinct (key : RawNewsData -> pystr)
    (meth : pystr) (a b : RawNewsData) :
  key a <> key b ->
  Deduplicator.first_seen_dedup key meth [a; b] = ([a; b], []).
Proof.
  intros Hne. unfold Deduplicator.first_seen_dedup. simpl.
  assert (E : str_eqb (key b) (key a) = false)
    by (apply str_eqb_neq; congruence).
  rewrite E. reflexivity.
Qed.

(** C7 (failing input). Two items with distinct canonical URLs and
    distinct content hashes, the first with a title that normalises to
    the empty string: with SimHash the first item is not kept, although
    it duplicates nothing and no cluster is reported; the Jaccard path
    keeps both. *)
Theorem simhash_dedup_drops_untitled_item :
  forall (U : UnicodeData) (sha256_hexdigest : pystr -> pystr)
         (Simhash : pystr -> N) (similarity_threshold : Q),
    Deduplicator.compute_content_hash U sha256_hexdigest sample_untitled
    <> Deduplicator.compute_content_hash U sha256_hexdigest sample_titled ->
    let with_simhash :=
      Deduplicator.deduplicate U sha256_hexdigest Simhash true
        similarity_threshold [sample_untitled; sample_titled] in
    let with_jaccard :=
      Deduplicator.deduplicate U sha256_hexdigest Simhash false
        (85 # 100)%Q [sample_untitled; sample_titled] in
    Deduplicator.kept_items with_simhash = [sample_titled]
    /\ Deduplicator.removed_count with_simhash = 1%Z
    /\ Deduplicator.clusters with_simhash = []
    /\ Deduplicator.kept_items with_jaccard = [sample_untitled; sample_titled].
Proof.
  intros U sha256_hexdigest Simhash similarity_threshold Hhash
    with_simhash with_jaccard.
  subst with_simhash with_jaccard.
  unfold Deduplicator.deduplicate, Deduplicator._url_dedup,
    Deduplicator._hash_dedup.
  rewrite (@first_seen_dedup_two_distinct
             (fun item => Deduplicator.canonicalize_url U (url item))
             (py "url_exact") sample_untitled sample_titled)
    by (vm_compute; discriminate).
  rewrite (@first_seen_dedup_two_distinct
             (Deduplicator.compute_content_hash U sha256_hexdigest)
             (py "hash_match") sample_untitled sample_titled)
    by exact Hhash.
  repeat split; reflexivity.
Qed.

Lemma simhash_dedup_drops_untitled_item_witness :
  Deduplicator.kept_items
    (Deduplicator.deduplicate ascii_only sample_digest sample_simhash true
       (85 # 100)%Q [sample_untitled; sample_titled])
  = [sample_titled].
Proof.
  apply (@simhash_dedup_drops_untitled_item ascii_only sample_digest
           sample_simhash (85 # 100)%Q).
  vm_compute. discriminate.
Defined.

(** ** URL canonicalisation *)

(** *** Characters of the pieces of a string *)

Section PieceChars.
Variable P : codepoint -> Prop.


Lemma break_at_Forall (stop : codepoint -> bool) (s : pystr) :
  Forall P s ->
  Forall P (fst (break_at stop s)) /\ Forall P (snd (break_at stop s)).
Proof.
  induction 1 as [|x s Hx Hs IH]; simpl; [split; constructor|].
  destruct (stop x); simpl; [split; constructor; assumption|].
  destruct (break_at stop s) as [a b]. simpl in *. destruct IH as [Ha Hb].
  split; [constructor; assumption | assumption].
Qed.



Lemma remove_char_Forall (c : codepoint) (s : pystr) :
  Forall P s -> Forall P (remove_char c s).
Proof.
  unfold remove_char. rewrite !Forall_forall. intros H x Hx.
  apply filter_In in Hx. apply H. tauto.
Qed.

Lemma skipn_Forall (n : nat) (s : pystr) : Forall P s -> Forall P (skipn n s).
Proof.
  revert s. induction n as [|n IH]; intros s H; [exact H|].
  destruct s as [|x s]; [constructor|]. inversion H; subst. simpl. auto.
Qed.



End PieceChars.




(** *** The components of a parsed URL *)








(** *** Characters of an encoded query *)





(** *** UTF-8 and percent-encoding round trips *)




Lemma Some_inj (A : Type) (x y : A) : Some x = Some y -> x = y.
Proof. congruence. Qed.













(** *** Splitting and joining *)


Lemma split_on_plain (c : codepoint) (p : pystr) :
  Forall (fun x => x <> c) p -> split_on c p = [p].
Proof.
  induction 1 as [|x p Hx Hp IH]; cbn [split_on]; [reflexivity|].
  rewrite (proj2 (N.eqb_neq x c) Hx), IH. reflexivity.
Qed.



(** *** Names of a re-encoded query *)

Lemma dict_set_keys_in (V : Type) (k x : pystr) (v : V) (d : dict V) :
  In x (dict_keys (dict_set k v d)) -> x = k \/ In x (dict_keys d).
Proof.
  induction d as [|[k' v'] d IH]; simpl.
  - intros [H|[]]. left. symmetry. exact H.
  - destruct (str_eqb_spec k k') as [->|Hne]; simpl.
    + intros [H|H]; right; [left | right]; assumption.
    + intros [H|H]; [right; left; assumption|].
      destruct (IH H) as [H'|H']; [left | right; right]; assumption.
Qed.








(** *** Lower-casing, and the assembled URL *)










(** The same for every Unicode database. *)
Lemma canonicalize_url_rejected_any (U : UnicodeData) :
  Deduplicator.canonicalize_url U sample_rejected_url = sample_rejected_url.
Proof. reflexivity. Qed.

(** A second application strips what the first one left: the slash that
    ended the path hid the empty parameter part of the last segment. *)
Lemma canonicalize_url_not_idempotent (U : UnicodeData) :
  Deduplicator.canonicalize_url U sample_params_url = py "http://a.com/x;"
  /\ Deduplicator.canonicalize_url U
       (Deduplicator.canonicalize_url U sample_params_url)
     = py "http://a.com/x".
Proof. split; reflexivity. Qed.

(** [utm_id] is not one of the five [utm_] names of [TRACKING_PARAMS]. *)
Lemma canonicalize_url_keeps_utm_id (U : UnicodeData) :
  Deduplicator.canonicalize_url U sample_utm_id_url
  = py "http://a.com?utm_id=1".
Proof. reflexivity. Qed.

(** The URL of the repository's test. *)
Lemma canonicalize_url_test (U : UnicodeData) :
  Deduplicator.canonicalize_url U sample_url
  = py "https://example.com/News/Article?page=1".
Proof. reflexivity. Qed.

(* ================================================================== *)
(** * Further properties *)
(* ================================================================== *)

(** ** Rate limiter: the course of [execute] *)

Section ExecuteCourse.
Variable T : Type.
Variable float_of_str : pystr -> option Q.
Variable _limiters : list pystr.
Variable func : nat -> outcome T.
Variable jitter : nat -> Q.
Variable api_name : pystr.
Variable max_retries : Z.

Lemma execute_loop_conclusive :
  forall (todo attempt k : nat) (last_error : option exn) (sleeps : list Q),
    str_in api_name _limiters = true ->
    (attempt <= k)%nat -> (k < attempt + todo)%nat ->
    (Z.of_nat k <= max_retries)%Z ->
    (forall a : nat, (attempt <= a)%nat -> (a < k)%nat ->
                     RateLimiter.retryable (func a) = true) ->
    RateLimiter.retryable (func k) = false ->
    RateLimiter.execute_loop float_of_str _limiters func jitter
      api_name max_retries todo attempt last_error sleeps
    = (func k,
       sleeps ++
       List.map
         (fun a => RateLimiter._calculate_backoff a (jitter a)
                     (RateLimiter.backoff_hint float_of_str (func a)))
         (seq attempt (k - attempt))).
Proof.
  set (wait_after := fun a : nat =>
         RateLimiter._calculate_backoff a (jitter a)
           (RateLimiter.backoff_hint float_of_str (func a))).
  induction todo as [|todo IH];
    intros attempt k last_error sleeps Hreg Hle Hlt Hmax Hretry Hstop; [lia|].
  cbn [RateLimiter.execute_loop]. unfold RateLimiter.acquire. rewrite Hreg.
  destruct (Nat.eq_dec attempt k) as [->|Hne].
  - rewrite Nat.sub_diag. cbn [seq List.map]. rewrite app_nil_r.
    destruct (func k) as [v|e]; [reflexivity|].
    destruct e; try reflexivity; cbn [RateLimiter.retryable] in Hstop.
    + apply orb_false_elim in Hstop. destruct Hstop as [H1 H2].
      rewrite H1, H2. reflexivity.
    + discriminate.
    + discriminate.
  - assert (Hr : RateLimiter.retryable (func attempt) = true)
      by (apply Hretry; lia).
    assert (Hlt' : (Z.of_nat attempt <? max_retries)%Z = true)
      by (apply Z.ltb_lt; lia).
    replace (k - attempt)%nat with (S (k - S attempt)) by lia.
    cbn [seq List.map].
    assert (Hstep : forall (e : exn),
      RateLimiter.execute_loop float_of_str _limiters func jitter
        api_name max_retries todo (S attempt) (Some e)
        (sleeps ++ [wait_after attempt])
      = (func k, sleeps ++ wait_after attempt
                   :: List.map wait_after (seq (S attempt) (k - S attempt)))).
    { intros e.
      rewrite (IH (S attempt) k (Some e) (sleeps ++ [wait_after attempt]));
        try assumption; try lia.
      - rewrite <- app_assoc. reflexivity.
      - intros a Ha Hb. apply Hretry; lia. }
    unfold wait_after in Hstep at 1. unfold RateLimiter.backoff_hint in Hstep.
    destruct (func attempt) as [v|e]; [discriminate Hr|].
    destruct e; try discriminate Hr; cbn [RateLimiter.retryable] in Hr.
    + destruct (status_code =? 429)%Z eqn:E429.
      * rewrite Hlt'. apply Hstep.
      * cbn [orb] in Hr. rewrite Hr, Hlt'. apply Hstep.
    + rewrite Hlt'. apply Hstep.
    + rewrite Hlt'. apply Hstep.
Qed.

Lemma backoff_positive_capped (attempt : nat) (j : Q) (hint : option Q) :
  (75 # 100 <= j)%Q ->
  (0 < RateLimiter._calculate_backoff attempt j hint)%Q
  /\ (RateLimiter._calculate_backoff attempt j hint <= 60)%Q.
Proof.
  intros Hj. unfold RateLimiter._calculate_backoff.
  pose proof (base_wait_pos attempt) as Hb.
  set (b := inject_Z (2 ^ Z.of_nat attempt)) in *. clearbody b.
  assert (Hw : (0 < b * j)%Q) by (apply Qmult_lt_0_compat; lra).
  set (wt := (b * j)%Q) in *. clearbody wt.
  destruct hint as [ra|]; [destruct (Qeq_bool ra 0)|];
    q_minmax; intuition lra.
Qed.

Lemma execute_loop_sleeps :
  (forall a : nat, (75 # 100 <= jitter a)%Q) ->
  forall (todo attempt : nat) (last_error : option exn) (sleeps : list Q),
    exists extra : list Q,
      snd (RateLimiter.execute_loop float_of_str _limiters func jitter
             api_name max_retries todo attempt last_error sleeps)
      = sleeps ++ extra
      /\ (Z.of_nat (List.length extra)
          <= Z.max 0 (max_retries - Z.of_nat attempt))%Z
      /\ Forall (fun s => (0 < s)%Q /\ (s <= 60)%Q) extra.
Proof.
  intros Hj. induction todo as [|todo IH]; intros attempt last_error sleeps.
  { exists []. cbn [RateLimiter.execute_loop]. rewrite app_nil_r.
    destruct last_error; cbn [snd List.length];
      (split; [reflexivity | split; [lia | constructor]]). }
  assert (Hstay : exists extra : list Q,
            sleeps = sleeps ++ extra
            /\ (Z.of_nat (List.length extra)
                <= Z.max 0 (max_retries - Z.of_nat attempt))%Z
            /\ Forall (fun s => (0 < s)%Q /\ (s <= 60)%Q) extra).
  { exists []. rewrite app_nil_r.
    split; [reflexivity | split; [cbn; lia | constructor]]. }
  assert (Hgo : forall (e : exn) (hint : option Q),
            (Z.of_nat attempt < max_retries)%Z ->
            exists extra : list Q,
              snd (RateLimiter.execute_loop float_of_str _limiters func jitter
                     api_name max_retries todo (S attempt) (Some e)
                     (sleeps ++ [RateLimiter._calculate_backoff attempt
                                   (jitter attempt) hint]))
              = sleeps ++ extra
              /\ (Z.of_nat (List.length extra)
                  <= Z.max 0 (max_retries - Z.of_nat attempt))%Z
              /\ Forall (fun s => (0 < s)%Q /\ (s <= 60)%Q) extra).
  { intros e hint Hlt.
    destruct (IH (S attempt) (Some e)
                (sleeps ++ [RateLimiter._calculate_backoff attempt
                              (jitter attempt) hint]))
      as (extra & Heq & Hlen & Hall).
    exists (RateLimiter._calculate_backoff attempt (jitter attempt) hint
            :: extra).
    split; [rewrite Heq, <- app_assoc; reflexivity|].
    split; [cbn [List.length]; lia|].
    constructor; [apply backoff_positive_capped, Hj | exact Hall]. }
  cbn [RateLimiter.execute_loop].
  destruct (RateLimiter.acquire _limiters api_name); [|exact Hstay].
  destruct (func attempt) as [v|e]; [exact Hstay|].
  destruct e; try exact Hstay.
  - destruct (status_code =? 429)%Z.
    + destruct (Z.ltb_spec (Z.of_nat attempt) max_retries) as [Hlt|Hlt];
        [apply Hgo; exact Hlt | exact Hstay].
    + destruct (RateLimiter.retryable_status status_code); [|exact Hstay].
      destruct (Z.ltb_spec (Z.of_nat attempt) max_retries) as [Hlt|Hlt];
        [apply Hgo; exact Hlt | exact Hstay].
  - destruct (Z.ltb_spec (Z.of_nat attempt) max_retries) as [Hlt|Hlt];
      [apply Hgo; exact Hlt | exact Hstay].
  - destruct (Z.ltb_spec (Z.of_nat attempt) max_retries) as [Hlt|Hlt];
      [apply Hgo; exact Hlt | exact Hstay].
Qed.

End ExecuteCourse.

(** X1. [execute] hands back the outcome of the first attempt that
    does not fail in a retryable way (a result, or an error that is not
    retried), provided it comes within the [max_retries + 1] attempts;
    before it, it has slept once after each failed attempt, for the
    back-off computed from that attempt. *)
Theorem execute_returns_first_conclusive_attempt :
  forall (T : Type) (float_of_str : pystr -> option Q)
         (_limiters : list pystr) (func : nat -> outcome T)
         (jitter : nat -> Q) (api_name : pystr) (max_retries : Z) (k : nat),
    str_in api_name _limiters = true ->
    (Z.of_nat k <= max_retries)%Z ->
    (forall a : nat, (a < k)%nat -> RateLimiter.retryable (func a) = true) ->
    RateLimiter.retryable (func k) = false ->
    RateLimiter.execute float_of_str _limiters func jitter api_name max_retries
    = (func k,
       List.map
         (fun a => RateLimiter._calculate_backoff a (jitter a)
                     (RateLimiter.backoff_hint float_of_str (func a)))
         (seq 0 k)).
Proof.
  intros T float_of_str _limiters func jitter api_name max_retries k
    Hreg Hk Hretry Hstop.
  unfold RateLimiter.execute.
  rewrite (@execute_loop_conclusive T float_of_str _limiters func jitter
             api_name max_retries (Z.to_nat (max_retries + 1)) 0 k None []);
    try assumption; try lia.
  - rewrite Nat.sub_0_r. reflexivity.
  - intros a _ Ha. apply Hretry. exact Ha.
Qed.

Lemma execute_returns_first_conclusive_attempt_witness :
  RateLimiter.execute (fun _ => None) [py "finnhub"]
    (fun a => match a with
              | O => Raise (HTTPStatusError 503 None)
              | _ => Return 7%Z
              end)
    (fun _ => 1%Q) (py "finnhub") 3
  = (Return 7%Z, [RateLimiter._calculate_backoff 0 1 None]).
Proof.
  apply (@execute_returns_first_conclusive_attempt Z (fun _ => None)
           [py "finnhub"]
           (fun a => match a with
                     | O => Raise (HTTPStatusError 503 None)
                     | _ => Return 7%Z
                     end)
           (fun _ => 1%Q) (py "finnhub") 3%Z 1%nat).
  - reflexivity.
  - lia.
  - intros a Ha. assert (a = 0%nat) as -> by lia. reflexivity.
  - reflexivity.
Defined.

(** X2. Whatever the wrapped operation does, one call of [execute]
    sleeps at most [max_retries] times, and each sleep lasts more than 0
    and at most 60 seconds (the jitter factor being at least 0.75). *)
Theorem execute_sleeps_bounded :
  forall (T : Type) (float_of_str : pystr -> option Q)
         (_limiters : list pystr) (func : nat -> outcome T)
         (jitter : nat -> Q) (api_name : pystr) (max_retries : Z),
    (forall a : nat, (75 # 100 <= jitter a)%Q) ->
    let sleeps :=
      snd (RateLimiter.execute float_of_str _limiters func jitter
             api_name max_retries) in
    (Z.of_nat (List.length sleeps) <= Z.max 0 max_retries)%Z
    /\ Forall (fun s => (0 < s)%Q /\ (s <= 60)%Q) sleeps.
Proof.
  intros T float_of_str _limiters func jitter api_name max_retries Hj sleeps.
  subst sleeps. unfold RateLimiter.execute.
  destruct (@execute_loop_sleeps T float_of_str _limiters func jitter
              api_name max_retries Hj (Z.to_nat (max_retries + 1)) 0 None [])
    as (extra & Heq & Hlen & Hall).
  rewrite Heq. cbn [app]. split; [lia | exact Hall].
Qed.

Lemma execute_sleeps_bounded_witness :
  (Z.of_nat (List.length
     (snd (RateLimiter.execute (fun _ => None) [py "finnhub"]
             (fun _ : nat => @Raise unit (HTTPStatusError 503 None))
             (fun _ => 1%Q) (py "finnhub") 3)))
   <= Z.max 0 3)%Z
  /\ Forall (fun s => (0 < s)%Q /\ (s <= 60)%Q)
       (snd (RateLimiter.execute (fun _ => None) [py "finnhub"]
               (fun _ : nat => @Raise unit (HTTPStatusError 503 None))
               (fun _ => 1%Q) (py "finnhub") 3)).
Proof.
  apply (@execute_sleeps_bounded unit (fun _ => None) [py "finnhub"]
           (fun _ : nat => @Raise unit (HTTPStatusError 503 None))
           (fun _ => 1%Q) (py "finnhub") 3%Z).
  intros a. vm_compute. discriminate.
Defined.

(** X3. For an API name without a registered limiter [execute] raises
    [ValueError] before the wrapped operation is called: the outcome is
    the same for every operation, and nothing is slept. *)
Theorem execute_unknown_api :
  forall (T : Type) (float_of_str : pystr -> option Q)
         (_limiters : list pystr) (func : nat -> outcome T)
         (jitter : nat -> Q) (api_name : pystr) (max_retries : Z),
    str_in api_name _limiters = false ->
    (0 <= max_retries)%Z ->
    RateLimiter.execute float_of_str _limiters func jitter api_name max_retries
    = (Raise (ValueError (py "Unknown API: " ++ api_name)), []).
Proof.
  intros T float_of_str _limiters func jitter api_name max_retries Hreg Hmax.
  unfold RateLimiter.execute.
  replace (Z.to_nat (max_retries + 1)) with (S (Z.to_nat max_retries)) by lia.
  cbn [RateLimiter.execute_loop]. unfold RateLimiter.acquire.
  rewrite Hreg. reflexivity.
Qed.

Lemma execute_unknown_api_witness :
  RateLimiter.execute (fun _ => None) [py "finnhub"]
    (fun _ : nat => Return 7%Z) (fun _ => 1%Q) (py "polygon") 3
  = (Raise (ValueError (py "Unknown API: polygon")), []).
Proof.
  apply (@execute_unknown_api Z (fun _ => None) [py "finnhub"]
           (fun _ : nat => Return 7%Z) (fun _ => 1%Q) (py "polygon") 3%Z).
  - reflexivity.
  - lia.
Defined.

(** Up to attempt 5 the cap is out of reach: without a Retry-After value
    the wait is [2^attempt * jitter] itself. *)
Lemma calculate_backoff_uncapped (attempt : nat) (jitter : Q) :
  (75 # 100 <= jitter)%Q -> (jitter <= 125 # 100)%Q ->
  (attempt <= 5)%nat ->
  (RateLimiter._calculate_backoff attempt jitter None
   == inject_Z (2 ^ Z.of_nat attempt) * jitter)%Q.
Proof.
  intros Hlo Hhi Hle. unfold RateLimiter._calculate_backoff.
  assert (Hb : (inject_Z (2 ^ Z.of_nat attempt) <= 32)%Q).
  { change 32%Q with (inject_Z (2 ^ 5)). rewrite <- Zle_Qle.
    apply Z.pow_le_mono_r; lia. }
  pose proof (base_wait_pos attempt) as Hpos.
  set (b := inject_Z (2 ^ Z.of_nat attempt)) in *. clearbody b.
  assert (Hw : (b * jitter <= 32 * (125 # 100))%Q)
    by (apply Qmult_le_compat_nonneg; split; lra).
  q_minmax. intuition lra.
Qed.



(** ** Dictionaries: reading what was written *)

Lemma dict_get_set_same (V : Type) (k : pystr) (v : V) (d : dict V) :
  dict_get k (dict_set k v d) = Some v.
Proof.
  induction d as [|[k' v'] d IH]; simpl.
  - rewrite str_eqb_refl. reflexivity.
  - destruct (str_eqb k k') eqn:E; simpl; rewrite E; [reflexivity | exact IH].
Qed.

Lemma dict_get_set_other (V : Type) (k k' : pystr) (v : V) (d : dict V) :
  k' <> k -> dict_get k' (dict_set k v d) = dict_get k' d.
Proof.
  intros Hne. induction d as [|[k0 v0] d IH]; simpl.
  - apply str_eqb_neq in Hne. rewrite Hne. reflexivity.
  - destruct (str_eqb_spec k k0) as [->|Hk]; simpl.
    + apply str_eqb_neq in Hne. rewrite Hne. reflexivity.
    + rewrite IH. reflexivity.
Qed.

Lemma dict_get_Some_keys (V : Type) (k : pystr) (v : V) (d : dict V) :
  dict_get k d = Some v -> str_in k (dict_keys d) = true.
Proof.
  intros H. apply str_in_In. destruct (in_dec (list_eq_dec N.eq_dec) k (dict_keys d))
    as [Hin|Hout]; [exact Hin|].
  apply dict_get_None_keys in Hout. congruence.
Qed.

(** ** Deduplicator: what the stages keep *)

(** X6. For every input, the kept items are input items in input
    order, and [removed_count] is the number of input items that are not
    kept; it is never negative. *)
Theorem deduplicate_keeps_subsequence :
  forall (U : UnicodeData) (sha256_hexdigest : pystr -> pystr)
         (Simhash : pystr -> N) (SIMHASH_AVAILABLE : bool)
         (similarity_threshold : Q) (l : list RawNewsData),
    let r := Deduplicator.deduplicate U sha256_hexdigest Simhash
               SIMHASH_AVAILABLE similarity_threshold l in
    Subseq (Deduplicator.kept_items r) l
    /\ Deduplicator.removed_count r
       = (Z.of_nat (List.length l)
          - Z.of_nat (List.length (Deduplicator.kept_items r)))%Z
    /\ (0 <= Deduplicator.removed_count r)%Z.
Proof.
  intros U sha Simhash avail thr l r. subst r.
  pose proof (deduplicate_subseq U sha Simhash avail thr l) as Hsub.
  pose proof (deduplicate_count U sha Simhash avail thr l) as Hcount.
  cbv zeta in Hcount. apply Subseq_length in Hsub.
  split; [apply deduplicate_subseq|]. split; lia.
Qed.

Lemma deduplicate_kept_nodup (U : UnicodeData)
    (sha256_hexdigest : pystr -> pystr) (Simhash : pystr -> N)
    (SIMHASH_AVAILABLE : bool) (similarity_threshold : Q)
    (l : list RawNewsData) :
  NoDup (List.map (fun item => Deduplicator.canonicalize_url U (url item))
           (Deduplicator.kept_items
              (Deduplicator.deduplicate U sha256_hexdigest Simhash
                 SIMHASH_AVAILABLE similarity_threshold l)))
  /\ NoDup (List.map (Deduplicator.compute_content_hash U sha256_hexdigest)
              (Deduplicator.kept_items
                 (Deduplicator.deduplicate U sha256_hexdigest Simhash
                    SIMHASH_AVAILABLE similarity_threshold l))).
Proof.
  unfold Deduplicator.deduplicate.
  destruct l as [|a l]; [split; constructor|].
  pose proof (first_seen_dedup_kept
                (fun item => Deduplicator.canonicalize_url U (url item))
                (py "url_exact") (a :: l)) as [H1 N1].
  fold (Deduplicator._url_dedup U (a :: l)) in H1, N1.
  destruct (Deduplicator._url_dedup U (a :: l)) as [items1 c1].
  pose proof (first_seen_dedup_kept
                (Deduplicator.compute_content_hash U sha256_hexdigest)
                (py "hash_match") items1) as [H2 N2].
  fold (Deduplicator._hash_dedup U sha256_hexdigest items1) in H2, N2.
  destruct (Deduplicator._hash_dedup U sha256_hexdigest items1)
    as [items2 c2].
  pose proof (similarity_dedup_result U Simhash SIMHASH_AVAILABLE
                similarity_threshold items2) as [H3 _].
  destruct (Deduplicator._similarity_dedup U Simhash SIMHASH_AVAILABLE
              similarity_threshold items2) as [items3 c3].
  cbn [Deduplicator.kept_items fst snd] in *. split.
  - eapply Subseq_NoDup; [|exact N1]. apply Subseq_map.
    eapply Subseq_trans; eassumption.
  - eapply Subseq_NoDup; [|exact N2]. apply Subseq_map. exact H3.
Qed.

(** X7. No two kept items have the same canonical URL, and no two have
    the same content hash. *)
Theorem deduplicate_kept_distinct :
  forall (U : UnicodeData) (sha256_hexdigest : pystr -> pystr)
         (Simhash : pystr -> N) (SIMHASH_AVAILABLE : bool)
         (similarity_threshold : Q) (l : list RawNewsData),
    let kept :=
      Deduplicator.kept_items
        (Deduplicator.deduplicate U sha256_hexdigest Simhash
           SIMHASH_AVAILABLE similarity_threshold l) in
    NoDup (List.map (fun item => Deduplicator.canonicalize_url U (url item))
                    kept)
    /\ NoDup (List.map (Deduplicator.compute_content_hash U sha256_hexdigest)
                       kept).
Proof.
  intros U sha Simhash avail thr l kept. subst kept.
  apply deduplicate_kept_nodup.
Qed.

(** ** Deduplicator: every merged item is listed in a cluster *)

Lemma dict_set_sum (V : Type) (f : V -> nat) (k : pystr) (v : V)
    (d : dict V) :
  (list_sum (List.map (fun kv => f (snd kv)) (dict_set k v d))
   + match dict_get k d with Some old => f old | None => 0 end
   = list_sum (List.map (fun kv => f (snd kv)) d) + f v)%nat.
Proof.
  induction d as [|[k' v'] d IH]; simpl; [lia|].
  destruct (str_eqb k k'); simpl; lia.
Qed.

Lemma dict_set_Forall (V : Type) (P : pystr * V -> Prop) (k : pystr) (v : V)
    (d : dict V) :
  Forall P d -> P (k, v) -> Forall P (dict_set k v d).
Proof.
  intros Hd Hk. induction Hd as [|[k' v'] d Hx Hd IH]; simpl.
  - constructor; [exact Hk | constructor].
  - destruct (str_eqb_spec k k') as [->|Hne].
    + constructor; assumption.
    + constructor; assumption.
Qed.

Lemma dict_get_In_values (V : Type) (k : pystr) (v : V) (d : dict V) :
  dict_get k d = Some v -> In v (dict_values d).
Proof.
  induction d as [|[k' v'] d IH]; simpl; [discriminate|].
  destruct (str_eqb k k').
  - intros H. injection H as ->. left. reflexivity.
  - intros H. right. apply IH. exact H.
Qed.

Lemma dict_get_Forall (V : Type) (P : pystr * V -> Prop) (k : pystr) (v : V)
    (d : dict V) :
  Forall P d -> dict_get k d = Some v -> P (k, v).
Proof.
  induction 1 as [|[k' v'] d Hx Hd IH]; simpl; [discriminate|].
  destruct (str_eqb_spec k k') as [->|Hne].
  - intros H. injection H as <-. exact Hx.
  - exact IH.
Qed.

Section FirstSeenAccounting.
Variable key : RawNewsData -> pystr.

Lemma first_seen_loop_accounts :
  forall (l read : list RawNewsData) (seen : dict RawNewsData)
         (duplicates : dict (list pystr)),
    (List.length read
     = List.length seen
       + list_sum (List.map (fun kv => List.length (snd kv) - 1) duplicates))%nat ->
    Forall (fun kv => (2 <= List.length (snd kv))%nat
                      /\ exists first : RawNewsData,
                           dict_get (fst kv) seen = Some first
                           /\ hd [] (snd kv) = url first) duplicates ->
    let '(seen', duplicates') :=
      Deduplicator.first_seen_loop key l seen duplicates in
    (List.length (read ++ l)
     = List.length seen'
       + list_sum (List.map (fun kv => List.length (snd kv) - 1) duplicates'))%nat
    /\ Forall (fun kv => (2 <= List.length (snd kv))%nat
                         /\ exists first : RawNewsData,
                              dict_get (fst kv) seen' = Some first
                              /\ hd [] (snd kv) = url first) duplicates'.
Proof.
  induction l as [|item rest IH]; intros read seen duplicates Hlen Hdup.
  - cbn [Deduplicator.first_seen_loop]. rewrite app_nil_r. split; assumption.
  - cbn [Deduplicator.first_seen_loop].
    replace (read ++ item :: rest) with ((read ++ [item]) ++ rest)
      by (rewrite <- app_assoc; reflexivity).
    destruct (dict_get (key item) seen) as [first|] eqn:Eseen.
    + set (urls := match dict_get (key item) duplicates with
                   | Some urls => urls
                   | None => [url first]
                   end).
      assert (Hu : (1 <= List.length urls)%nat
                   /\ hd [] urls = url first
                   /\ (match dict_get (key item) duplicates with
                       | Some old => List.length old - 1
                       | None => 0
                       end + 1 = List.length urls)%nat).
      { subst urls.
        destruct (dict_get (key item) duplicates) as [old|] eqn:Edup.
        - destruct (@dict_get_Forall _ _ _ _ _ Hdup Edup)
            as [Hl [first' [Hget Hhd]]].
          cbn [fst snd] in *. rewrite Eseen in Hget. injection Hget as <-.
          unfold pystr in *. repeat split; [lia | exact Hhd | lia].
        - repeat split; reflexivity. }
      destruct Hu as (Hu1 & Hu2 & Hu3).
      apply IH.
      * rewrite length_app. cbn [List.length].
        pose proof (dict_set_sum
                      (fun urls : list pystr => List.length urls - 1)%nat
                      (key item) (urls ++ [url item]) duplicates) as Hsum.
        cbv beta in Hsum. rewrite length_app in Hsum.
        cbn [List.length] in Hsum. lia.
      * apply dict_set_Forall; [exact Hdup|]. cbn [fst snd]. split.
        -- rewrite length_app. cbn [List.length]. lia.
        -- exists first. split; [exact Eseen|].
           destruct urls; [simpl in Hu1; lia | exact Hu2].
    + apply IH.
      * rewrite dict_set_new by exact Eseen. rewrite !length_app.
        cbn [List.length]. lia.
      * eapply Forall_impl; [|exact Hdup].
        intros [k urls] [Hl [first [Hget Hhd]]]. cbn [fst snd] in *.
        split; [exact Hl|]. exists first. split; [|exact Hhd].
        rewrite dict_get_set_other; [exact Hget|].
        intros ->. rewrite Eseen in Hget. discriminate.
Qed.

Lemma first_seen_dedup_accounts (meth : pystr) (l : list RawNewsData) :
  let r := Deduplicator.first_seen_dedup key meth l in
  (List.length (fst r)
   + list_sum (List.map (fun c => List.length (Deduplicator.member_urls c))
                        (snd r))
   = List.length l)%nat
  /\ Forall (fun c => Deduplicator.member_urls c <> []
                      /\ In (Deduplicator.representative_url c)
                            (List.map url (fst r))) (snd r).
Proof.
  unfold Deduplicator.first_seen_dedup.
  pose proof (@first_seen_loop_accounts l [] [] []) as H.
  destruct (Deduplicator.first_seen_loop key l [] []) as [seen duplicates].
  cbn [fst snd app] in *.
  destruct H as [Hlen Hdup]; [reflexivity | constructor |].
  split.
  - unfold dict_values. rewrite length_map, map_map. rewrite Hlen.
    f_equal. f_equal. apply map_ext. intros [k urls]. cbn [snd].
    unfold Deduplicator.cluster_of_urls. cbn [Deduplicator.member_urls].
    destruct urls; simpl; lia.
  - apply Forall_forall. intros c Hc. apply in_map_iff in Hc.
    destruct Hc as [[k urls] [<- Hin]]. rewrite Forall_forall in Hdup.
    destruct (Hdup _ Hin) as [Hl [first [Hget Hhd]]]. cbn [fst snd] in *.
    unfold Deduplicator.cluster_of_urls.
    cbn [Deduplicator.member_urls Deduplicator.representative_url]. split.
    + destruct urls as [|u [|u' urls]]; simpl in Hl; try lia. discriminate.
    + rewrite Hhd. apply in_map. eapply dict_get_In_values. exact Hget.
Qed.

End FirstSeenAccounting.

(** X8. In the URL stage and in the content-hash stage every input
    item is either kept or listed as a member of exactly one cluster:
    the kept items and the cluster members add up to the input.  Every
    cluster has at least one member, and its representative is the URL
    of a kept item. *)
Theorem exact_stages_account_for_every_item :
  forall (U : UnicodeData) (sha256_hexdigest : pystr -> pystr)
         (l : list RawNewsData),
    let accounted :=
      fun r : list RawNewsData * list Deduplicator.DedupClusterInfo =>
        (List.length (fst r)
         + list_sum (List.map (fun c => List.length (Deduplicator.member_urls c))
                              (snd r)))%nat in
    let represented :=
      fun r : list RawNewsData * list Deduplicator.DedupClusterInfo =>
        Forall (fun c => Deduplicator.member_urls c <> []
                         /\ In (Deduplicator.representative_url c)
                               (List.map url (fst r))) (snd r) in
    accounted (Deduplicator._url_dedup U l) = List.length l
    /\ represented (Deduplicator._url_dedup U l)
    /\ accounted (Deduplicator._hash_dedup U sha256_hexdigest l)
       = List.length l
    /\ represented (Deduplicator._hash_dedup U sha256_hexdigest l).
Proof.
  intros U sha l accounted represented. subst accounted represented.
  cbv beta. unfold Deduplicator._url_dedup, Deduplicator._hash_dedup.
  pose proof (first_seen_dedup_accounts
                (fun item => Deduplicator.canonicalize_url U (url item))
                (py "url_exact") l) as [H1 H2].
  pose proof (first_seen_dedup_accounts
                (Deduplicator.compute_content_hash U sha)
                (py "hash_match") l) as [H3 H4].
  repeat split; assumption.
Qed.

(** ** Deduplicator: the similarity stage loses no item it was given *)

Section GreedyAccounting.
Variable similarity_threshold : Q.
Variable F : Type.
Variable similar : F -> F -> bool.

Lemma scan_later_removed :
  forall (later : list (Deduplicator.entry F)) (feature_i : F)
         (similar_items : list pystr) (removed : list nat) (x : nat),
    let removed' :=
      snd (Deduplicator.scan_later similar feature_i later
             similar_items removed) in
    (existsb (Nat.eqb x) removed = true ->
     existsb (Nat.eqb x) removed' = true)
    /\ (existsb (Nat.eqb x) removed' = true ->
        existsb (Nat.eqb x) removed = true \/ In x (List.map fst later)).
Proof.
  induction later as [|[j [item_j feature_j]] later IH];
    intros feature_i similar_items removed x; cbn [Deduplicator.scan_later].
  - cbn [snd List.map In]. tauto.
  - cbn [List.map fst In].
    destruct (existsb (Nat.eqb j) removed) eqn:Ej.
    + destruct (IH feature_i similar_items removed x) as [H1 H2].
      split; [exact H1 | intros H; destruct (H2 H); auto].
    + destruct (similar feature_i feature_j).
      * destruct (IH feature_i (similar_items ++ [url item_j]) (j :: removed) x)
          as [H1 H2].
        split.
        -- intros H. apply H1. cbn [existsb]. rewrite H. apply orb_true_r.
        -- intros H. destruct (H2 H) as [H'|H']; [|auto].
           cbn [existsb] in H'. apply orb_true_iff in H'.
           destruct H' as [H'|H']; [|auto].
           apply Nat.eqb_eq in H'. auto.
      * destruct (IH feature_i similar_items removed x) as [H1 H2].
        split; [exact H1 | intros H; destruct (H2 H); auto].
Qed.

Lemma live_outside (removed : list nat) (j : nat)
    (later : list (Deduplicator.entry F)) :
  ~ In j (List.map fst later) ->
  filter (fun e => negb (existsb (Nat.eqb (fst e)) (j :: removed))) later
  = filter (fun e => negb (existsb (Nat.eqb (fst e)) removed)) later.
Proof.
  intros Hout. apply filter_ext_in. intros e He. cbn [existsb].
  replace (fst e =? j)%nat with false; [reflexivity|].
  symmetry. apply Nat.eqb_neq. intros <-. apply Hout. apply in_map. exact He.
Qed.

(** The inner loop moves [k] of the later entries that are still in
    play to the cluster being built. *)
Lemma scan_later_accounts :
  forall (later : list (Deduplicator.entry F)) (feature_i : F)
         (similar_items : list pystr) (removed : list nat),
    NoDup (List.map fst later) ->
    let r := Deduplicator.scan_later similar feature_i later
               similar_items removed in
    exists k : nat,
      List.length (fst r) = (List.length similar_items + k)%nat
      /\ (List.length
            (filter (fun e => negb (existsb (Nat.eqb (fst e)) (snd r))) later)
          + k
          = List.length
              (filter (fun e => negb (existsb (Nat.eqb (fst e)) removed)) later))%nat.
Proof.
  induction later as [|[j [item_j feature_j]] later IH];
    intros feature_i similar_items removed Hnd.
  - exists 0%nat. cbn. split; lia.
  - cbn [List.map fst] in Hnd. inversion Hnd as [|j' l' Hout Hnd']; subst.
    cbn zeta. cbn [Deduplicator.scan_later].
    destruct (existsb (Nat.eqb j) removed) eqn:Ej.
    + destruct (IH feature_i similar_items removed Hnd') as [k [H1 H2]].
      exists k. split; [exact H1|]. cbn [filter fst].
      rewrite Ej. cbn [negb].
      rewrite (proj1 (scan_later_removed later feature_i similar_items
                        removed j) Ej). cbn [negb]. exact H2.
    + destruct (similar feature_i feature_j).
      * destruct (IH feature_i (similar_items ++ [url item_j]) (j :: removed)
                    Hnd') as [k [H1 H2]].
        exists (S k). split.
        -- rewrite H1, length_app. cbn [List.length]. lia.
        -- cbn [filter fst]. rewrite Ej. cbn [negb].
           rewrite (proj1 (scan_later_removed later feature_i
                             (similar_items ++ [url item_j]) (j :: removed) j)).
           ++ cbn [negb List.length]. rewrite live_outside in H2 by exact Hout.
              lia.
           ++ cbn [existsb]. rewrite Nat.eqb_refl. reflexivity.
      * destruct (IH feature_i similar_items removed Hnd') as [k [H1 H2]].
        exists k. split; [exact H1|]. cbn [filter fst]. rewrite Ej.
        cbn [negb].
        destruct (existsb (Nat.eqb j)
                    (snd (Deduplicator.scan_later similar feature_i later
                            similar_items removed))) eqn:Ej'.
        -- apply (scan_later_removed later feature_i similar_items removed j)
             in Ej'.
           destruct Ej' as [Ej'|Ej']; [congruence | contradiction].
        -- cbn [negb List.length]. lia.
Qed.

Lemma greedy_loop_accounts :
  forall (entries : list (Deduplicator.entry F))
         (kept : list RawNewsData)
         (clusters : list Deduplicator.DedupClusterInfo)
         (removed : list nat),
    NoDup (List.map fst entries) ->
    let r := Deduplicator.greedy_loop similarity_threshold similar entries
               kept clusters removed in
    (List.length (fst r)
     + list_sum (List.map (fun c => List.length (Deduplicator.member_urls c))
                          (snd r))
     = List.length kept
       + list_sum (List.map (fun c => List.length (Deduplicator.member_urls c))
                            clusters)
       + List.length
           (filter (fun e => negb (existsb (Nat.eqb (fst e)) removed)) entries))%nat.
Proof.
  induction entries as [|[i [item_i feature_i]] later IH];
    intros kept clusters removed Hnd.
  - cbv zeta. cbn [Deduplicator.greedy_loop fst snd filter List.length]. lia.
  - cbn [List.map fst] in Hnd. inversion Hnd as [|i' l' Hout Hnd']; subst.
    cbv zeta. cbn [Deduplicator.greedy_loop filter fst].
    destruct (existsb (Nat.eqb i) removed) eqn:Ei; cbn [negb].
    + apply IH. exact Hnd'.
    + destruct (scan_later_accounts later feature_i [url item_i] removed Hnd')
        as [k [H1 H2]].
      destruct (Deduplicator.scan_later similar feature_i later
                  [url item_i] removed) as [similar_items removed'].
      cbn [fst snd] in H1, H2. cbn [List.length] in H1 |- *.
      match goal with
      | |- context [Deduplicator.greedy_loop _ _ later ?k' ?c' removed'] =>
          pose proof (IH k' c' removed' Hnd') as Hrec
      end.
      cbv zeta in Hrec. rewrite Hrec. rewrite length_app. cbn [List.length].
      destruct (1 <? List.length similar_items)%nat eqn:E1.
      * rewrite map_app, list_sum_app.
        cbn [List.map Deduplicator.member_urls list_sum].
        simpl (list_sum [_]). unfold pystr in *.
        destruct similar_items; cbn [List.length tl] in *; lia.
      * apply Nat.ltb_ge in E1. lia.
Qed.

Lemma enumerate_indices (l : list (RawNewsData * F)) :
  NoDup (List.map fst (Deduplicator.enumerate l)).
Proof.
  unfold Deduplicator.enumerate.
  assert (H : List.map fst (combine (seq 0 (List.length l)) l)
              = seq 0 (List.length l)).
  { generalize 0%nat. induction l as [|x l IH]; intros start; [reflexivity|].
    cbn [List.length seq combine List.map fst]. rewrite IH. reflexivity. }
  rewrite H. apply seq_NoDup.
Qed.

Lemma filter_all (A : Type) (f : A -> bool) (l : list A) :
  (forall x : A, f x = true) -> filter f l = l.
Proof.
  intros H. induction l as [|x l IH]; [reflexivity|].
  cbn [filter]. rewrite H, IH. reflexivity.
Qed.

Lemma greedy_dedup_accounts (l : list (RawNewsData * F)) :
  let r := Deduplicator.greedy_dedup similarity_threshold similar l in
  (List.length (fst r)
   + list_sum (List.map (fun c => List.length (Deduplicator.member_urls c))
                        (snd r))
   = List.length l)%nat.
Proof.
  unfold Deduplicator.greedy_dedup.
  pose proof (@greedy_loop_accounts (Deduplicator.enumerate l) [] [] []
                (enumerate_indices l)) as H.
  cbv zeta in H |- *. rewrite H.
  rewrite filter_all by reflexivity.
  unfold Deduplicator.enumerate.
  rewrite length_combine, length_seq. simpl. lia.
Qed.

End GreedyAccounting.

(** X9. Without SimHash (the word-overlap path) the similarity stage
    accounts for every item it is given: the kept items and the members
    of its clusters add up to the input. *)
Theorem jaccard_stage_accounts_for_every_item :
  forall (U : UnicodeData) (Simhash : pystr -> N)
         (similarity_threshold : Q) (l : list RawNewsData),
    let r := Deduplicator._similarity_dedup U Simhash false
               similarity_threshold l in
    (List.length (fst r)
     + list_sum (List.map (fun c => List.length (Deduplicator.member_urls c))
                          (snd r))
     = List.length l)%nat.
Proof.
  intros U Simhash thr l r. subst r. unfold Deduplicator._similarity_dedup.
  destruct (List.length l <=? 1)%nat; [cbn; lia|].
  unfold Deduplicator._simple_similarity_dedup.
  rewrite greedy_dedup_accounts, length_map. reflexivity.
Qed.

(** X10. With SimHash, on two or more items, the stage accounts for
    exactly the items whose normalised title is not empty: the kept
    items and the cluster members add up to their number. *)
Theorem simhash_stage_accounts_for_titled_items :
  forall (U : UnicodeData) (Simhash : pystr -> N)
         (similarity_threshold : Q) (l : list RawNewsData),
    (1 < List.length l)%nat ->
    let r := Deduplicator._similarity_dedup U Simhash true
               similarity_threshold l in
    (List.length (fst r)
     + list_sum (List.map (fun c => List.length (Deduplicator.member_urls c))
                          (snd r))
     = List.length
         (filter (fun item =>
                    str_truthy (Deduplicator.normalize_title U (title item)))
                 l))%nat.
Proof.
  intros U Simhash thr l Hlen r. subst r.
  unfold Deduplicator._similarity_dedup.
  apply Nat.leb_gt in Hlen. rewrite Hlen.
  unfold Deduplicator._simhash_dedup. rewrite greedy_dedup_accounts.
  clear Hlen. induction l as [|item l IH]; [reflexivity|].
  cbn [flat_map filter].
  destruct (str_truthy (Deduplicator.normalize_title U (title item)));
    cbn [app List.length]; rewrite IH; reflexivity.
Qed.

Lemma simhash_stage_accounts_for_titled_items_witness :
  (List.length
     (fst (Deduplicator._similarity_dedup ascii_only sample_simhash true
             (85 # 100)%Q [sample_untitled; sample_titled]))
   + list_sum
       (List.map (fun c => List.length (Deduplicator.member_urls c))
          (snd (Deduplicator._similarity_dedup ascii_only sample_simhash true
                  (85 # 100)%Q [sample_untitled; sample_titled])))
   = List.length
       (filter (fun item =>
                  str_truthy
                    (Deduplicator.normalize_title ascii_only (title item)))
               [sample_untitled; sample_titled]))%nat.
Proof.
  apply (@simhash_stage_accounts_for_titled_items ascii_only sample_simhash
           (85 # 100)%Q [sample_untitled; sample_titled]).
  cbn [List.length]. lia.
Defined.

(** ** Deduplicator: normalising a normalised title *)

Lemma split_ws_from_app (U : UnicodeData) (w s cur : pystr) :
  Forall (fun c => isspace U c = false) w ->
  split_ws_from U cur (w ++ s) = split_ws_from U (cur ++ w) s.
Proof.
  intros Hw. revert cur. induction Hw as [|c w Hc Hw IH]; intros cur.
  - rewrite app_nil_r. reflexivity.
  - cbn [app split_ws_from]. rewrite Hc. rewrite IH, <- app_assoc. reflexivity.
Qed.

(** [split()] gives back the words that single spaces joined. *)
Lemma split_ws_join (U : UnicodeData) (words : list pystr) :
  Forall (fun word => word <> []
                      /\ Forall (fun c => isspace U c = false) word) words ->
  split_ws U (join [32%N] words) = words.
Proof.
  unfold split_ws. induction 1 as [|p ps [Hne Hp] Hps IH]; [reflexivity|].
  destruct ps as [|q ps'].
  - cbn [join]. rewrite <- (app_nil_r p) at 1.
    rewrite (split_ws_from_app U [] [] Hp). cbn [app split_ws_from].
    destruct p; [congruence | reflexivity].
  - change (join [32%N] (p :: q :: ps'))
      with (p ++ 32%N :: join [32%N] (q :: ps')).
    rewrite (split_ws_from_app U _ [] Hp). cbn [app split_ws_from].
    rewrite (isspace_space U). rewrite IH.
    destruct p; [congruence | reflexivity].
Qed.

Lemma map_id_on (A : Type) (f : A -> A) (l : list A) :
  Forall (fun x => f x = x) l -> List.map f l = l.
Proof.
  induction 1 as [|x l Hx Hl IH]; [reflexivity|].
  cbn [List.map]. rewrite Hx, IH. reflexivity.
Qed.

(** X11. On ASCII titles [normalize_title] is idempotent: normalising
    a normalised title changes nothing. *)
Theorem normalize_title_idempotent_ascii :
  forall (U : UnicodeData) (title : pystr),
    str_isascii title = true ->
    Deduplicator.normalize_title U (Deduplicator.normalize_title U title)
    = Deduplicator.normalize_title U title.
Proof.
  intros U title Hascii.
  destruct title as [|t0 title'] eqn:Et; [reflexivity|].
  rewrite <- Et in *. assert (Hne : title <> []) by (rewrite Et; discriminate).
  clear Et. rewrite (normalize_title_nonempty U Hne).
  pose proof (normalized_words U (lower U (normalize_nfkc U title))) as Hwords.
  pose proof (sub_punctuation_ascii_lower U title Hascii) as Hsub.
  set (words := split_ws U _) in *.
  assert (Hw : Forall (Forall (fun c => is_ascii c = true
                                        /\ ascii_isupper c = false
                                        /\ is_word U c = true
                                        /\ isspace U c = false)) words).
  { eapply Forall_impl; [|exact Hwords].
    intros word (_ & Hc & Hincl). rewrite Forall_forall in *.
    intros c Hin. destruct (Hsub c (Hincl c Hin)) as [Ha Hu].
    destruct (Hc c Hin) as [Hword Hspace]. auto. }
  assert (Hout : Forall (fun c => is_ascii c = true
                                  /\ ascii_isupper c = false
                                  /\ (is_word U c = true \/ isspace U c = true))
                        (join [32%N] words)).
  { apply join_chars.
    - constructor; [|constructor]. repeat split. right. reflexivity.
    - eapply Forall_impl; [|exact Hw]. intros word Hword.
      eapply Forall_impl; [|exact Hword]. cbv beta. tauto. }
  destruct (join [32%N] words) as [|o out'] eqn:Ejoin; [reflexivity|].
  rewrite <- Ejoin in *.
  assert (Hne' : join [32%N] words <> []) by (rewrite Ejoin; discriminate).
  clear Ejoin. rewrite (normalize_title_nonempty U Hne').
  assert (Hasc : str_isascii (join [32%N] words) = true).
  { unfold str_isascii. apply forallb_forall. rewrite Forall_forall in Hout.
    intros c Hc. apply (Hout c Hc). }
  unfold normalize_nfkc, lower. rewrite Hasc, Hasc.
  rewrite (@map_id_on _ ascii_lower).
  2:{ eapply Forall_impl; [|exact Hout]. intros c (_ & Hu & _).
      unfold ascii_lower. rewrite Hu. reflexivity. }
  unfold Deduplicator.sub_punctuation.
  rewrite (@map_id_on _ (fun c => if is_word U c || isspace U c then c else 32%N)).
  2:{ eapply Forall_impl; [|exact Hout]. intros c (_ & _ & [Hc|Hc]);
        rewrite Hc; [reflexivity | rewrite orb_true_r; reflexivity]. }
  rewrite split_ws_join; [reflexivity|].
  eapply Forall_impl; [|exact Hwords].
  intros word (Hn & Hc & _). split; [exact Hn|].
  eapply Forall_impl; [|exact Hc]. cbv beta. tauto.
Qed.

Lemma normalize_title_idempotent_ascii_witness :
  Deduplicator.normalize_title ascii_only
    (Deduplicator.normalize_title ascii_only sample_title)
  = Deduplicator.normalize_title ascii_only sample_title.
Proof.
  apply (@normalize_title_idempotent_ascii ascii_only sample_title).
  reflexivity.
Defined.

(** ** Schema: what validation guarantees *)

Lemma check_literal_inr (name : pystr) (allowed : list pystr) (d : dict json)
    (s : pystr) :
  AIAnalysisOutput.required name d (AIAnalysisOutput.check_literal name allowed)
  = inr s ->
  str_in s allowed = true.
Proof.
  unfold AIAnalysisOutput.required, AIAnalysisOutput.check_literal.
  destruct (dict_get name d) as [[| | | |s'| |]|]; try discriminate.
  destruct (negb (encodable s')); [discriminate|].
  destruct (str_in s' allowed) eqn:E; [|discriminate].
  intros H. injection H as <-. exact E.
Qed.

Lemma check_str_inr (name : pystr) (n : nat) (v : json) (s : pystr) :
  AIAnalysisOutput.check_str name n v = inr s ->
  (List.length s <=? n)%nat = true.
Proof.
  unfold AIAnalysisOutput.check_str. destruct v; try discriminate.
  destruct (negb (encodable s0)); [discriminate|].
  destruct (List.length s0 <=? n)%nat eqn:E; [|discriminate].
  intros H. injection H as <-. exact E.
Qed.

Lemma required_check_str_inr (name : pystr) (n : nat) (d : dict json)
    (f : json -> json) (s : pystr) :
  AIAnalysisOutput.required name d
    (fun v => AIAnalysisOutput.check_str name n (f v)) = inr s ->
  (List.length s <=? n)%nat = true.
Proof.
  unfold AIAnalysisOutput.required. destruct (dict_get name d); [|discriminate].
  apply check_str_inr.
Qed.

Lemma Return_inj (A : Type) (x y : A) : Return x = Return y -> x = y.
Proof. congruence. Qed.

Lemma inr_eq (A B : Type) (x y : B) : @inr A B x = inr y -> x = y.
Proof. congruence. Qed.

Lemma validate_key_facts_items (repr : json -> pystr) (v v' : json)
    (ks : list pystr) :
  AIAnalysisOutput.validate_key_facts repr v = Return v' ->
  AIAnalysisOutput.check_str_list (py "key_facts") 3 v' = inr ks ->
  (List.length ks <=? 3)%nat = true
  /\ forallb (fun fact => (List.length fact <=? 200)%nat) ks = true.
Proof.
  assert (Hcut : forall (A : Type) (f : A -> pystr) (l : list A),
            (List.length (List.map (fun x => firstn 200 (f x)) (firstn 3 l))
             <=? 3)%nat = true
            /\ forallb (fun fact => (List.length fact <=? 200)%nat)
                       (List.map (fun x => firstn 200 (f x)) (firstn 3 l))
               = true).
  { intros A f l. split.
    - apply Nat.leb_le. rewrite length_map. apply firstn_le_length.
    - apply forallb_forall. intros fact Hin.
      apply in_map_iff in Hin. destruct Hin as [x [<- _]].
      apply Nat.leb_le. apply firstn_le_length. }
  destruct v as [| | | |s|l|]; unfold AIAnalysisOutput.validate_key_facts;
    try discriminate; intros Hv; apply Return_inj in Hv; subst v'.
  - intros H. apply inr_eq in H. subst ks. split; reflexivity.
  - rewrite <- (map_map (fun c : codepoint => firstn 200 [c]) JStr).
    rewrite check_str_list_strings
      by (apply Nat.leb_le, (Hcut codepoint (fun c => [c]))).
    intros H. apply inr_eq in H. subst ks.
    apply (Hcut codepoint (fun c => [c])).
  - rewrite <- (map_map (fun f => firstn 200 (AIAnalysisOutput.py_str repr f))
                        JStr).
    rewrite check_str_list_strings by (apply Nat.leb_le, Hcut).
    intros H. apply inr_eq in H. subst ks. apply Hcut.
Qed.

Lemma model_validate_well_formed (repr : json -> pystr) (data : json)
    (a : AIAnalysisOutput.t) :
  AIAnalysisOutput.model_validate repr data = AIAnalysisOutput.Valid a ->
  AIAnalysisOutput.well_formed a = true.
Proof.
  destruct data as [| | | | | |d]; try discriminate.
  unfold AIAnalysisOutput.model_validate.
  pose proof (@check_literal_inr (py "event_type")
                AIAnalysisOutput.EVENT_TYPES d) as E1.
  pose proof (@check_literal_inr (py "impact_direction")
                AIAnalysisOutput.IMPACT_DIRECTIONS d) as E2.
  pose proof (@check_literal_inr (py "impact_horizon")
                AIAnalysisOutput.IMPACT_HORIZONS d) as E3.
  pose proof (@check_literal_inr (py "thesis_relation")
                AIAnalysisOutput.THESIS_RELATIONS d) as E4.
  pose proof (@check_literal_inr (py "confidence")
                AIAnalysisOutput.CONFIDENCES d) as E5.
  pose proof (@required_check_str_inr (py "confidence_reason") 100 d
                (AIAnalysisOutput.validate_confidence_reason repr)) as E6.
  pose proof (@required_check_str_inr (py "summary") 100 d
                (AIAnalysisOutput.validate_summary repr)) as E7.
  set (r1 := AIAnalysisOutput.required (py "event_type") d _) in *.
  set (r2 := AIAnalysisOutput.required (py "impact_direction") d _) in *.
  set (r3 := AIAnalysisOutput.required (py "impact_horizon") d _) in *.
  set (r4 := AIAnalysisOutput.required (py "thesis_relation") d _) in *.
  set (r5 := AIAnalysisOutput.required (py "confidence") d _) in *.
  set (r6 := AIAnalysisOutput.required (py "confidence_reason") d _) in *.
  set (r7 := AIAnalysisOutput.required (py "summary") d _) in *.
  clearbody r1 r2 r3 r4 r5 r6 r7.
  assert (E9 : forall w,
             match dict_get (py "watch_next") d with
             | Some v => AIAnalysisOutput.check_str (py "watch_next") 50
                           (AIAnalysisOutput.validate_watch_next repr v)
             | None => inr []
             end = inr w -> (List.length w <=? 50)%nat = true).
  { destruct (dict_get (py "watch_next") d) as [v|].
    - intros w. apply check_str_inr.
    - intros w H. injection H as <-. reflexivity. }
  set (r9 := match dict_get (py "watch_next") d with
             | Some v => _
             | None => _
             end) in *.
  clearbody r9.
  assert (E8 : forall r8 ks,
             match dict_get (py "key_facts") d with
             | Some v =>
                 match AIAnalysisOutput.validate_key_facts repr v with
                 | Return v' =>
                     Return (AIAnalysisOutput.check_str_list (py "key_facts") 3 v')
                 | Raise e => Raise e
                 end
             | None => Return (inr [])
             end = Return r8 ->
             r8 = inr ks ->
             (List.length ks <=? 3)%nat = true
             /\ forallb (fun fact => (List.length fact <=? 200)%nat) ks = true).
  { destruct (dict_get (py "key_facts") d) as [v|].
    - destruct (AIAnalysisOutput.validate_key_facts repr v) as [v'|e] eqn:Ev;
        [|discriminate].
      intros r8 ks H Hks. injection H as <-.
      exact (validate_key_facts_items repr v Ev Hks).
    - intros r8 ks H Hks. injection H as <-. injection Hks as <-.
      split; reflexivity. }
  set (r8o := match dict_get (py "key_facts") d with
              | Some v => _
              | None => _
              end) in *.
  clearbody r8o. destruct r8o as [r8|e]; [|discriminate].
  specialize (E8 r8).
  destruct r1 as [?|x1]; [destruct r2, r3, r4, r5, r6, r7, r8, r9; discriminate|].
  destruct r2 as [?|x2]; [destruct r3, r4, r5, r6, r7, r8, r9; discriminate|].
  destruct r3 as [?|x3]; [destruct r4, r5, r6, r7, r8, r9; discriminate|].
  destruct r4 as [?|x4]; [destruct r5, r6, r7, r8, r9; discriminate|].
  destruct r5 as [?|x5]; [destruct r6, r7, r8, r9; discriminate|].
  destruct r6 as [?|x6]; [destruct r7, r8, r9; discriminate|].
  destruct r7 as [?|x7]; [destruct r8, r9; discriminate|].
  destruct r8 as [?|x8]; [destruct r9; discriminate|].
  destruct r9 as [?|x9]; [discriminate|].
  intros H. injection H as <-.
  unfold AIAnalysisOutput.well_formed.
  cbn [AIAnalysisOutput.event_type AIAnalysisOutput.impact_direction
       AIAnalysisOutput.impact_horizon AIAnalysisOutput.thesis_relation
       AIAnalysisOutput.confidence AIAnalysisOutput.confidence_reason
       AIAnalysisOutput.summary AIAnalysisOutput.key_facts
       AIAnalysisOutput.watch_next].
  destruct (E8 x8 eq_refl eq_refl) as [K1 K2].
  rewrite (E1 x1 eq_refl), (E2 x2 eq_refl), (E3 x3 eq_refl), (E4 x4 eq_refl),
    (E5 x5 eq_refl), (E6 x6 eq_refl), (E7 x7 eq_refl), K1, K2,
    (E9 x9 eq_refl).
  reflexivity.
Qed.

(** X12. Every instance that [AIAnalysisOutput] validation accepts
    holds values of the five enumerations and respects the length
    bounds: [confidence_reason] and [summary] at most 100 characters,
    [watch_next] at most 50, at most 3 key facts of at most 200
    characters each. *)
Theorem validated_output_is_well_formed :
  forall (repr : json -> pystr) (data : json) (a : AIAnalysisOutput.t),
    AIAnalysisOutput.model_validate repr data = AIAnalysisOutput.Valid a ->
    AIAnalysisOutput.well_formed a = true.
Proof. exact model_validate_well_formed. Qed.

Lemma validated_output_is_well_formed_witness :
  exists a : AIAnalysisOutput.t,
    AIAnalysisOutput.model_validate repr_unused (JDict sample_overlong)
    = AIAnalysisOutput.Valid a
    /\ AIAnalysisOutput.well_formed a = true.
Proof.
  eexists. split; [vm_compute; reflexivity|].
  apply (@validated_output_is_well_formed repr_unused (JDict sample_overlong)).
  vm_compute. reflexivity.
Defined.

(** ** Provider: what [analyze] returns and raises *)




Lemma fallback_result_well_formed (repr : json -> pystr)
    (news : NewsItemCreate.t) (a : AIAnalysisOutput.t) :
  BaseAIProvider._fallback_result repr news = Return a ->
  AIAnalysisOutput.well_formed a = true.
Proof.
  unfold BaseAIProvider._fallback_result.
  destruct (AIAnalysisOutput.model_validate repr
              (JDict (BaseAIProvider.fallback_fields news)))
    as [a'|errors|e] eqn:E; try discriminate.
  intros H. apply Return_inj in H. subst a'.
  exact (model_validate_well_formed repr _ E).
Qed.

Section AnalyzeProperties.
Variable U : UnicodeData.
Variable json_loads : pystr -> option json.
Variable repr : json -> pystr.
Variable str_of_exn : exn -> pystr.
Variable Provider : Type.
Variable format_prompt : NewsItemCreate.t -> pystr -> outcome pystr.
Variable _call_api : Provider -> pystr -> outcome (pystr * Z * float) * Provider.

Lemma parse_and_validate_well_formed (raw_output : pystr)
    (a : AIAnalysisOutput.t) :
  BaseAIProvider._parse_and_validate U json_loads repr raw_output = Return a ->
  AIAnalysisOutput.well_formed a = true.
Proof.
  unfold BaseAIProvider._parse_and_validate.
  destruct (json_loads _) as [data|]; [|discriminate].
  destruct (BaseAIProvider.check_error_response data); [|discriminate].
  destruct (AIAnalysisOutput.model_validate repr data) as [a'|errors|e] eqn:E;
    try discriminate.
  intros H. apply Return_inj in H. subst a'.
  exact (model_validate_well_formed repr data E).
Qed.

Lemma analyze_returns_well_formed (p p' : Provider) (news : NewsItemCreate.t)
    (thesis : pystr) (a : AIAnalysisOutput.t) (tokens : Z) (cost : float) :
  BaseAIProvider.analyze U json_loads repr str_of_exn format_prompt _call_api
    p news thesis = (Return (a, tokens, cost), p') ->
  AIAnalysisOutput.well_formed a = true.
Proof.
  unfold BaseAIProvider.analyze.
  destruct (format_prompt news thesis) as [prompt|e0]; [|discriminate].
  destruct (_call_api p prompt) as [[[[raw1 tokens1] cost1]|e1] p1].
  - destruct (BaseAIProvider._parse_and_validate U json_loads repr raw1)
      as [a1|e1] eqn:P1.
    + intros H. assert (a = a1) as -> by congruence.
      exact (parse_and_validate_well_formed raw1 P1).
    + destruct (is_ValidationError e1); [|discriminate].
      destruct (_call_api p1 _) as [[[[raw2 tokens2] cost2]|e2] p2].
      * destruct (BaseAIProvider._parse_and_validate U json_loads repr raw2)
          as [a2|e2] eqn:P2.
        -- intros H. assert (a = a2) as -> by congruence.
           exact (parse_and_validate_well_formed raw2 P2).
        -- destruct (is_ValidationError e2); [|discriminate].
           destruct (BaseAIProvider._fallback_result repr news)
             as [fb|ef] eqn:F; [|discriminate].
           intros H. assert (a = fb) as -> by congruence.
           exact (fallback_result_well_formed repr news F).
      * destruct (is_ValidationError e2); [|discriminate].
        destruct (BaseAIProvider._fallback_result repr news); discriminate.
  - destruct (is_ValidationError e1); [|discriminate].
    destruct (_call_api p1 _) as [[[[raw2 tokens2] cost2]|e2] p2].
    + destruct (BaseAIProvider._parse_and_validate U json_loads repr raw2)
        as [a2|e2]; [discriminate|].
      destruct (is_ValidationError e2); [|discriminate].
      destruct (BaseAIProvider._fallback_result repr news); discriminate.
    + destruct (is_ValidationError e2); [|discriminate].
      destruct (BaseAIProvider._fallback_result repr news); discriminate.
Qed.



(** Every entry [batch_analyze] appends holds the news item it was
    produced for, and no tokens and no cost when it has no analysis. *)
Lemma batch_analyze_loop_entries :
  forall (news_list : list NewsItemCreate.t) (p p' : Provider)
         (thesis_map : dict pystr)
         (results results' :
            list (NewsItemCreate.t * option AIAnalysisOutput.t * Z * float)),
    BaseAIProvider.batch_analyze_loop U json_loads repr str_of_exn
      format_prompt _call_api p news_list thesis_map results
    = (Return results', p') ->
    exists added,
      results' = results ++ added
      /\ List.map (fun r => fst (fst (fst r))) added = news_list
      /\ Forall (fun r =>
                   match snd (fst (fst r)) with
                   | Some a => AIAnalysisOutput.well_formed a = true
                   | None => snd (fst r) = 0%Z /\ snd r = PrimFloat.zero
                   end) added.
Proof.
  induction news_list as [|news rest IH];
    intros p p' thesis_map results results'.
  - cbn [BaseAIProvider.batch_analyze_loop]. intros H.
    exists []. rewrite app_nil_r.
    split; [congruence | split; [reflexivity | constructor]].
  - cbn [BaseAIProvider.batch_analyze_loop].
    set (thesis := match NewsItemCreate.tickers news with
                   | Some tickers => _
                   | None => _
                   end).
    destruct (BaseAIProvider.analyze U json_loads repr str_of_exn
                format_prompt _call_api p news thesis)
      as [[[[a tokens] cost]|e] p1] eqn:Ea.
    + intros H. destruct (IH _ _ _ _ _ H) as (added & -> & Hmap & Hall).
      exists ((news, Some a, tokens, cost) :: added).
      split; [rewrite <- app_assoc; reflexivity|].
      split; [cbn [List.map fst]; rewrite Hmap; reflexivity|].
      constructor; [|exact Hall]. cbn [fst snd].
      exact (analyze_returns_well_formed _ _ _ Ea).
    + destruct e; try discriminate.
      intros H. destruct (IH _ _ _ _ _ H) as (added & -> & Hmap & Hall).
      exists ((news, None, 0%Z, PrimFloat.zero) :: added).
      split; [rewrite <- app_assoc; reflexivity|].
      split; [cbn [List.map fst]; rewrite Hmap; reflexivity|].
      constructor; [|exact Hall]. cbn [fst snd]. split; reflexivity.
Qed.

End AnalyzeProperties.

(** ** LLM provider: the fallback after a failed repair *)




(** ** Provider: the results of [analyze] and [batch_analyze] *)

(** X13. Whatever the model answers, an analysis that [analyze]
    returns satisfies the schema: it is either a validated reply or the
    fallback record, and both hold enum values and respect the length
    bounds. *)
Theorem analyze_result_is_well_formed :
  forall (U : UnicodeData) (json_loads : pystr -> option json)
         (repr : json -> pystr) (str_of_exn : exn -> pystr)
         (Provider : Type)
         (format_prompt : NewsItemCreate.t -> pystr -> outcome pystr)
         (_call_api : Provider -> pystr
                      -> outcome (pystr * Z * float) * Provider)
         (p p' : Provider) (news : NewsItemCreate.t) (thesis : pystr)
         (a : AIAnalysisOutput.t) (tokens : Z) (cost : float),
    BaseAIProvider.analyze U json_loads repr str_of_exn format_prompt
      _call_api p news thesis = (Return (a, tokens, cost), p') ->
    AIAnalysisOutput.well_formed a = true.
Proof.
  intros U json_loads repr str_of_exn Provider format_prompt _call_api
    p p' news thesis a tokens cost H.
  eapply analyze_returns_well_formed. exact H.
Qed.

Lemma analyze_result_is_well_formed_witness :
  exists a : AIAnalysisOutput.t,
    BaseAIProvider.analyze ascii_only sample_json_loads repr_unused
      sample_str_of_exn sample_format_prompt scripted_call_api
      sample_empty_objects (sample_news (py "Fed holds rates")) []
    = (Return (a, 30%Z, 0.75%float), [])
    /\ AIAnalysisOutput.summary a = py "Fed holds rates"
    /\ AIAnalysisOutput.well_formed a = true.
Proof.
  eexists. split; [vm_compute; reflexivity|]. split; [reflexivity|].
  apply (@analyze_result_is_well_formed ascii_only sample_json_loads
           repr_unused sample_str_of_exn _ sample_format_prompt
           scripted_call_api sample_empty_objects []
           (sample_news (py "Fed holds rates")) [] _ 30%Z 0.75%float).
  vm_compute. reflexivity.
Defined.



(** X15. The two model calls report their failures differently.  An
    exception of the first call is wrapped in [AIAnalysisError]; an
    exception of the repair call (made after the first reply failed
    validation) leaves [analyze] as it is, not as [AIAnalysisError]. *)
Theorem analyze_repair_call_failure_escapes :
  forall (U : UnicodeData) (json_loads : pystr -> option json)
         (repr : json -> pystr) (str_of_exn : exn -> pystr)
         (Provider : Type)
         (format_prompt : NewsItemCreate.t -> pystr -> outcome pystr)
         (_call_api : Provider -> pystr
                      -> outcome (pystr * Z * float) * Provider)
         (p p1 p2 : Provider) (news : NewsItemCreate.t)
         (thesis prompt raw_output : pystr) (tokens : Z) (cost : float)
         (errors : list (pystr * pystr)) (e2 : exn),
    format_prompt news thesis = Return prompt ->
    _call_api p prompt = (Return (raw_output, tokens, cost), p1) ->
    BaseAIProvider._parse_and_validate U json_loads repr raw_output
    = Raise (ValidationError errors) ->
    _call_api p1 (BaseAIProvider._make_strict_prompt prompt
                    (str_of_exn (ValidationError errors)))
    = (Raise e2, p2) ->
    is_ValidationError e2 = false ->
    BaseAIProvider.analyze U json_loads repr str_of_exn format_prompt
      _call_api p news thesis = (Raise e2, p2)
    /\ (forall (q q1 : Provider) (e1 : exn),
          _call_api q prompt = (Raise e1, q1) ->
          is_ValidationError e1 = false -> is_Exception e1 = true ->
          BaseAIProvider.analyze U json_loads repr str_of_exn format_prompt
            _call_api q news thesis
          = (Raise (AIAnalysisError (py "Analysis failed: " ++ str_of_exn e1)),
             q1)).
Proof.
  intros U json_loads repr str_of_exn Provider format_prompt _call_api
    p p1 p2 news thesis prompt raw tokens cost errors e2
    Hprompt Hcall1 Hparse1 Hcall2 Hv2.
  split.
  - unfold BaseAIProvider.analyze.
    rewrite Hprompt, Hcall1, Hparse1. cbn [is_ValidationError].
    rewrite Hcall2, Hv2. reflexivity.
  - intros q q1 e1 Hq Hv1 He1. unfold BaseAIProvider.analyze.
    rewrite Hprompt, Hq, Hv1. unfold BaseAIProvider.analysis_failed.
    rewrite He1. reflexivity.
Qed.

Lemma analyze_repair_call_failure_escapes_witness :
  BaseAIProvider.analyze ascii_only sample_json_loads repr_unused
    sample_str_of_exn sample_format_prompt scripted_call_api
    sample_one_empty_object (sample_news (py "Fed holds rates")) []
  = (Raise (OtherException (py "no reply")), [])
  /\ BaseAIProvider.analyze ascii_only sample_json_loads repr_unused
       sample_str_of_exn sample_format_prompt scripted_call_api
       [] (sample_news (py "Fed holds rates")) []
     = (Raise (AIAnalysisError
                 (py "Analysis failed: "
                  ++ sample_str_of_exn (OtherException (py "no reply")))),
        []).
Proof.
  destruct (@analyze_repair_call_failure_escapes ascii_only sample_json_loads
              repr_unused sample_str_of_exn _ sample_format_prompt
              scripted_call_api
              sample_one_empty_object [] []
              (sample_news (py "Fed holds rates")) []
              (py "Title: Fed holds rates") (py "{}") 10%Z
              0.25%float sample_empty_object_errors
              (OtherException (py "no reply"))
              eq_refl eq_refl eq_refl eq_refl eq_refl) as [H1 H2].
  split; [exact H1|].
  exact (H2 [] [] (OtherException (py "no reply")) eq_refl eq_refl eq_refl).
Defined.

(** X16. When [batch_analyze] returns, its result has one entry for
    each news item, in the order of the list and holding that item; an
    entry without analysis (the item's analysis raised
    [AIAnalysisError]) counts no tokens and no cost, and an entry with an
    analysis holds one that satisfies the schema. *)
Theorem batch_analyze_one_entry_per_item :
  forall (U : UnicodeData) (json_loads : pystr -> option json)
         (repr : json -> pystr) (str_of_exn : exn -> pystr)
         (Provider : Type)
         (format_prompt : NewsItemCreate.t -> pystr -> outcome pystr)
         (_call_api : Provider -> pystr
                      -> outcome (pystr * Z * float) * Provider)
         (p p' : Provider) (news_list : list NewsItemCreate.t)
         (thesis_map : dict pystr)
         (results :
            list (NewsItemCreate.t * option AIAnalysisOutput.t * Z * float)),
    BaseAIProvider.batch_analyze U json_loads repr str_of_exn format_prompt
      _call_api p news_list thesis_map = (Return results, p') ->
    List.map (fun r => fst (fst (fst r))) results = news_list
    /\ Forall (fun r =>
                 match snd (fst (fst r)) with
                 | Some a => AIAnalysisOutput.well_formed a = true
                 | None => snd (fst r) = 0%Z /\ snd r = PrimFloat.zero
                 end) results.
Proof.
  intros U json_loads repr str_of_exn Provider format_prompt _call_api
    p p' news_list thesis_map results H.
  unfold BaseAIProvider.batch_analyze in H.
  eapply batch_analyze_loop_entries in H.
  destruct H as (added & -> & Hmap & Hall).
  split; assumption.
Qed.

Lemma batch_analyze_one_entry_per_item_witness :
  exists (a : AIAnalysisOutput.t)
         (results :
            list (NewsItemCreate.t * option AIAnalysisOutput.t * Z * float)),
    results = [(sample_news (py "Fed holds rates"), Some a, 30%Z, 0.75%float);
               (sample_news [], None, 0%Z, PrimFloat.zero)]
    /\ BaseAIProvider.batch_analyze ascii_only sample_json_loads repr_unused
         sample_str_of_exn sample_format_prompt scripted_call_api
         sample_empty_objects
         [sample_news (py "Fed holds rates"); sample_news []] []
       = (Return results, [])
    /\ List.map (fun r => fst (fst (fst r))) results
       = [sample_news (py "Fed holds rates"); sample_news []]
    /\ Forall (fun r =>
                 match snd (fst (fst r)) with
                 | Some a => AIAnalysisOutput.well_formed a = true
                 | None => snd (fst r) = 0%Z /\ snd r = PrimFloat.zero
                 end) results.
Proof.
  eexists. eexists. split; [reflexivity|].
  split; [vm_compute; reflexivity|].
  apply (@batch_analyze_one_entry_per_item ascii_only sample_json_loads
           repr_unused sample_str_of_exn _ sample_format_prompt
           scripted_call_api sample_empty_objects []
           [sample_news (py "Fed holds rates"); sample_news []] []).
  vm_compute. reflexivity.
Defined.

(** ** Provider: cleaning the model's reply *)

Lemma find_app (c : codepoint) (pre rest : pystr) :
  ~ In c pre ->
  BaseAIProvider.find c (pre ++ c :: rest) = Some (List.length pre).
Proof.
  induction pre as [|x pre IH]; intros Hout; cbn [app BaseAIProvider.find].
  - rewrite N.eqb_refl. reflexivity.
  - destruct (N.eqb_spec x c) as [->|Hne].
    + exfalso. apply Hout. left. reflexivity.
    + rewrite IH; [reflexivity|]. intros Hin. apply Hout. right. exact Hin.
Qed.

Lemma find_none (c : codepoint) (s : pystr) :
  ~ In c s -> BaseAIProvider.find c s = None.
Proof.
  induction s as [|x s IH]; intros Hout; cbn [BaseAIProvider.find];
    [reflexivity|].
  destruct (N.eqb_spec x c) as [->|Hne].
  - exfalso. apply Hout. left. reflexivity.
  - rewrite IH; [reflexivity|]. intros Hin. apply Hout. right. exact Hin.
Qed.

Lemma rfind_app (c : codepoint) (front post : pystr) :
  ~ In c post ->
  BaseAIProvider.rfind c (front ++ c :: post) = Some (List.length front).
Proof.
  intros Hout. unfold BaseAIProvider.rfind.
  rewrite rev_app_distr. cbn [rev]. rewrite <- app_assoc. cbn [app].
  rewrite find_app by (rewrite <- in_rev; exact Hout).
  rewrite length_rev, length_app. cbn [List.length]. f_equal. lia.
Qed.

(** X17. [_parse_and_validate] cuts the reply to the text from its
    first [{] to its last [}]: what precedes the first opening brace and
    what follows the last closing brace is dropped.  A reply without a
    closing brace is left as it is. *)
Theorem json_window_first_to_last_brace :
  forall pre body post : pystr,
    ~ In 123%N pre -> ~ In 125%N post ->
    BaseAIProvider.json_window (pre ++ 123%N :: body ++ 125%N :: post)
    = 123%N :: body ++ [125%N]
    /\ BaseAIProvider.json_window post = post.
Proof.
  intros pre body post Hpre Hpost. split.
  - unfold BaseAIProvider.json_window.
    rewrite find_app by exact Hpre.
    replace (pre ++ 123%N :: body ++ 125%N :: post)
      with ((pre ++ 123%N :: body) ++ 125%N :: post)
      by (rewrite <- app_assoc; reflexivity).
    rewrite rfind_app by exact Hpost.
    rewrite length_app. cbn [List.length].
    replace (List.length pre <? S (List.length pre + S (List.length body)))%nat
      with true by (symmetry; apply Nat.ltb_lt; lia).
    rewrite <- app_assoc. cbn [app].
    rewrite skipn_app, Nat.sub_diag, skipn_all. cbn [app skipn].
    replace (S (List.length pre + S (List.length body)) - List.length pre)%nat
      with (S (List.length body + 1)) by lia.
    cbn [firstn]. rewrite firstn_app_2. reflexivity.
  - unfold BaseAIProvider.json_window.
    destruct (BaseAIProvider.find 123%N post) as [start|]; [|reflexivity].
    unfold BaseAIProvider.rfind.
    rewrite find_none by (rewrite <- in_rev; exact Hpost).
    destruct (start <? 0)%nat eqn:E; [apply Nat.ltb_lt in E; lia | reflexivity].
Qed.

Lemma json_window_first_to_last_brace_witness :
  BaseAIProvider.json_window
    (py "Here you go: " ++ 123%N :: py "'a': 1" ++ 125%N :: py " Bye")
  = 123%N :: py "'a': 1" ++ [125%N]
  /\ BaseAIProvider.json_window (py " Bye") = py " Bye".
Proof.
  apply (@json_window_first_to_last_brace (py "Here you go: ") (py "'a': 1")
           (py " Bye")).
  - vm_compute. intuition discriminate.
  - vm_compute. intuition discriminate.
Defined.

Lemma split_on_nonempty (c : codepoint) (s : pystr) : split_on c s <> [].
Proof.
  induction s as [|x s IH]; cbn [split_on]; [discriminate|].
  destruct (x =? c)%N; [discriminate|].
  destruct (split_on c s); discriminate.
Qed.

Lemma split_on_concat (c : codepoint) (a b : pystr) :
  split_on c (a ++ c :: b) = split_on c a ++ split_on c b.
Proof.
  induction a as [|x a IH]; cbn [app split_on].
  - rewrite N.eqb_refl. reflexivity.
  - destruct (x =? c)%N; [rewrite IH; reflexivity|].
    rewrite IH. pose proof (split_on_nonempty c a) as Hne.
    destruct (split_on c a) as [|p ps]; [congruence | reflexivity].
Qed.

Lemma join_split_on (c : codepoint) (s : pystr) :
  join [c] (split_on c s) = s.
Proof.
  induction s as [|x s IH]; [reflexivity|]. cbn [split_on].
  pose proof (split_on_nonempty c s) as Hne.
  destruct (N.eqb_spec x c) as [->|Hx].
  - destruct (split_on c s) as [|p ps] eqn:E; [congruence|].
    change (join [c] ([] :: p :: ps)) with ([] ++ [c] ++ join [c] (p :: ps)).
    rewrite IH. reflexivity.
  - destruct (split_on c s) as [|p ps] eqn:E; [congruence|].
    destruct ps as [|q ps'].
    + cbn [join] in *. rewrite IH. reflexivity.
    + change (join [c] ((x :: p) :: q :: ps'))
        with (x :: (p ++ [c] ++ join [c] (q :: ps'))).
      change (join [c] (p :: q :: ps'))
        with (p ++ [c] ++ join [c] (q :: ps')) in IH.
      rewrite IH. reflexivity.
Qed.

(** X18. A reply wrapped in a Markdown code fence
    (three backquotes and an optional language tag on the first line,
    three backquotes on the last) is reduced to the text
    between the two fence lines, whatever that text is. *)
Theorem strip_code_fence_unwraps :
  forall (U : UnicodeData) (tag body : pystr),
    ~ In 10%N tag ->
    BaseAIProvider.strip_code_fence U
      (py "```" ++ tag ++ 10%N :: body ++ 10%N :: py "```")
    = body.
Proof.
  intros U tag body Htag. unfold BaseAIProvider.strip_code_fence.
  change (py "```") with [96%N; 96%N; 96%N].
  cbn [app startswith N.eqb Pos.eqb andb].
  change (96%N :: 96%N :: 96%N :: tag ++ 10%N :: body ++ 10%N :: [96%N; 96%N; 96%N])
    with (([96%N; 96%N; 96%N] ++ tag) ++ 10%N :: body ++ 10%N :: [96%N; 96%N; 96%N]).
  rewrite split_on_concat.
  rewrite (@split_on_plain 10%N ([96%N; 96%N; 96%N] ++ tag)).
  2:{ apply Forall_app. split.
      - repeat constructor; discriminate.
      - apply Forall_forall. intros x Hx ->. apply Htag. exact Hx. }
  cbn [app startswith N.eqb Pos.eqb andb].
  rewrite split_on_concat.
  rewrite (@split_on_plain 10%N [96%N; 96%N; 96%N])
    by (repeat constructor; discriminate).
  assert (Hmatch : forall (A : Type) (l : list A) (y : list A),
            l <> [] -> match l with [] => l | _ :: _ => y end = y).
  { intros A l y Hl. destruct l; [congruence | reflexivity]. }
  rewrite Hmatch by (destruct (split_on 10%N body); discriminate).
  rewrite last_last.
  replace (str_eqb (strip U [96%N; 96%N; 96%N]) [96%N; 96%N; 96%N])
    with true by reflexivity.
  rewrite removelast_last. apply join_split_on.
Qed.

Lemma strip_code_fence_unwraps_witness :
  BaseAIProvider.strip_code_fence ascii_only
    (py "```" ++ py "json" ++ 10%N :: py "{}" ++ 10%N :: py "```")
  = py "{}".
Proof.
  apply (@strip_code_fence_unwraps ascii_only (py "json") (py "{}")).
  vm_compute. intuition discriminate.
Defined.

(** ** Finnhub collector: merging the per-ticker results *)

Lemma add_unseen_inv :
  forall (result all_news : list RawNewsData) (seen_urls : list pystr),
    (forall u : pystr, In u seen_urls <-> In u (List.map url all_news)) ->
    NoDup (List.map url all_news) ->
    let r := FinnhubNewsCollector.add_unseen result all_news seen_urls in
    (forall u : pystr, In u (snd r) <-> In u (List.map url (fst r)))
    /\ NoDup (List.map url (fst r))
    /\ (exists added : list RawNewsData,
          fst r = all_news ++ added /\ Subseq added result)
    /\ (forall item : RawNewsData,
          In item result -> In (url item) (List.map url (fst r))).
Proof.
  induction result as [|item rest IH]; intros all_news seen_urls Hseen Hnd.
  - cbn. split; [exact Hseen|]. split; [exact Hnd|]. split.
    + exists []. rewrite app_nil_r. split; [reflexivity | apply Subseq_nil].
    + intros item [].
  - cbv zeta. cbn [FinnhubNewsCollector.add_unseen].
    destruct (str_in (url item) seen_urls) eqn:Ein.
    + destruct (IH all_news seen_urls Hseen Hnd) as (H1 & H2 & H3 & H4).
      split; [exact H1|]. split; [exact H2|]. split.
      * destruct H3 as [added [Heq Hsub]]. exists added.
        split; [exact Heq | apply Subseq_skip; exact Hsub].
      * intros x [<-|Hx]; [|apply H4; exact Hx].
        destruct H3 as [added [Heq _]]. rewrite Heq, map_app.
        apply in_or_app. left. apply Hseen. apply str_in_In. exact Ein.
    + assert (Hout : ~ In (url item) (List.map url all_news)).
      { intros Hin. apply Hseen in Hin. apply str_in_In in Hin. congruence. }
      destruct (IH (all_news ++ [item]) (url item :: seen_urls))
        as (H1 & H2 & H3 & H4).
      * intros u. rewrite map_app. cbn [List.map In]. rewrite in_app_iff.
        cbn [In]. rewrite (Hseen u). tauto.
      * rewrite map_app. cbn [List.map]. apply NoDup_app.
        -- exact Hnd.
        -- constructor; [intros [] | constructor].
        -- intros x Hx [<-|[]]. exact (Hout Hx).
      * split; [exact H1|]. split; [exact H2|]. split.
        -- destruct H3 as [added [Heq Hsub]]. exists (item :: added).
           split; [rewrite Heq, <- app_assoc; reflexivity|].
           apply Subseq_take. exact Hsub.
        -- intros x [<-|Hx]; [|apply H4; exact Hx].
           destruct H3 as [added [Heq _]]. rewrite Heq, !map_app.
           apply in_or_app. left. apply in_or_app. right. left. reflexivity.
Qed.

Lemma merge_results_inv :
  forall (results : list (outcome (list RawNewsData)))
         (all_news : list RawNewsData) (seen_urls : list pystr)
         (merged : list RawNewsData),
    (forall u : pystr, In u seen_urls <-> In u (List.map url all_news)) ->
    NoDup (List.map url all_news) ->
    FinnhubNewsCollector.merge_results results all_news seen_urls
    = Return merged ->
    NoDup (List.map url merged)
    /\ (exists added : list RawNewsData,
          merged = all_news ++ added
          /\ Subseq added
               (flat_map (fun r => match r with
                                   | Return result => result
                                   | Raise _ => []
                                   end) results))
    /\ (forall (result : list RawNewsData) (item : RawNewsData),
          In (Return result) results -> In item result ->
          In (url item) (List.map url merged)).
Proof.
  induction results as [|[result|e] rest IH];
    intros all_news seen_urls merged Hseen Hnd;
    cbn [FinnhubNewsCollector.merge_results flat_map].
  - intros H. apply Return_inj in H. subst merged.
    split; [exact Hnd|]. split.
    + exists []. rewrite app_nil_r. split; [reflexivity | apply Subseq_nil].
    + intros result item [].
  - pose proof (add_unseen_inv result all_news seen_urls Hseen Hnd) as Hadd.
    cbv zeta in Hadd.
    destruct (FinnhubNewsCollector.add_unseen result all_news seen_urls)
      as [all_news' seen_urls'].
    cbn [fst snd] in Hadd. destruct Hadd as (H1 & H2 & [added [Heq Hsub]] & H4).
    intros Hm. destruct (IH all_news' seen_urls' merged H1 H2 Hm)
      as (G1 & [added' [Geq Gsub]] & G3).
    split; [exact G1|]. split.
    + exists (added ++ added'). split.
      * rewrite Geq, Heq, <- app_assoc. reflexivity.
      * apply Subseq_app; assumption.
    + intros result' item [Hr|Hr] Hitem.
      * apply Return_inj in Hr. subst result'.
        rewrite Geq, map_app. apply in_or_app. left. apply H4. exact Hitem.
      * exact (G3 result' item Hr Hitem).
  - destruct (is_Exception e); [|discriminate].
    intros Hm. destruct (IH all_news seen_urls merged Hseen Hnd Hm)
      as (G1 & G2 & G3).
    split; [exact G1|]. split; [exact G2|].
    intros result' item [Hr|Hr] Hitem; [discriminate|].
    exact (G3 result' item Hr Hitem).
Qed.

(** The first item of each URL is the one that stays: [read] holds the
    items the loops went through before. *)
Lemma add_unseen_first :
  forall (result all_news : list RawNewsData) (seen_urls : list pystr)
         (read : list RawNewsData),
    (forall u : pystr, In u seen_urls <-> In u (List.map url all_news)) ->
    (forall x : RawNewsData,
        In x read -> In (url x) (List.map url all_news)) ->
    (forall item : RawNewsData,
        In item all_news ->
        exists pre post : list RawNewsData,
          read = pre ++ item :: post
          /\ ~ In (url item) (List.map url pre)) ->
    let r := FinnhubNewsCollector.add_unseen result all_news seen_urls in
    (forall u : pystr, In u (snd r) <-> In u (List.map url (fst r)))
    /\ (forall x : RawNewsData,
          In x (read ++ result) -> In (url x) (List.map url (fst r)))
    /\ (forall item : RawNewsData,
          In item (fst r) ->
          exists pre post : list RawNewsData,
            read ++ result = pre ++ item :: post
            /\ ~ In (url item) (List.map url pre)).
Proof.
  induction result as [|x0 rest IH]; intros all_news seen_urls read Ha Hd Hc.
  - cbn. rewrite app_nil_r. split; [exact Ha|]. split; [exact Hd | exact Hc].
  - cbv zeta. cbn [FinnhubNewsCollector.add_unseen].
    replace (read ++ x0 :: rest) with ((read ++ [x0]) ++ rest)
      by (rewrite <- app_assoc; reflexivity).
    assert (Hkeep : forall it : RawNewsData,
              In it all_news ->
              exists pre post : list RawNewsData,
                read ++ [x0] = pre ++ it :: post
                /\ ~ In (url it) (List.map url pre)).
    { intros it Hit. destruct (Hc it Hit) as (pre & post & Hread & Hn).
      exists pre, (post ++ [x0]). split; [|exact Hn].
      rewrite Hread, <- app_assoc. reflexivity. }
    destruct (str_in (url x0) seen_urls) eqn:Ein.
    + apply (IH all_news seen_urls (read ++ [x0])).
      * exact Ha.
      * intros x Hx. apply in_app_or in Hx.
        destruct Hx as [Hx|[<-|[]]]; [apply Hd; exact Hx|].
        apply Ha. apply str_in_In. exact Ein.
      * exact Hkeep.
    + apply (IH (all_news ++ [x0]) (url x0 :: seen_urls) (read ++ [x0])).
      * intros u. rewrite map_app, in_app_iff. cbn [List.map In].
        rewrite (Ha u). tauto.
      * intros x Hx. rewrite map_app, in_app_iff. apply in_app_or in Hx.
        destruct Hx as [Hx|[<-|[]]];
          [left; apply Hd; exact Hx | right; left; reflexivity].
      * intros it Hit. apply in_app_or in Hit.
        destruct Hit as [Hit|[<-|[]]]; [apply Hkeep; exact Hit|].
        exists read, []. split; [reflexivity|].
        intros Hin. apply in_map_iff in Hin.
        destruct Hin as (x & Hux & Hx).
        assert (Hseen : In (url x0) seen_urls).
        { apply Ha. rewrite <- Hux. apply Hd. exact Hx. }
        apply str_in_In in Hseen. congruence.
Qed.

Lemma merge_results_first :
  forall (results : list (outcome (list RawNewsData)))
         (all_news : list RawNewsData) (seen_urls : list pystr)
         (read merged : list RawNewsData),
    (forall u : pystr, In u seen_urls <-> In u (List.map url all_news)) ->
    (forall x : RawNewsData,
        In x read -> In (url x) (List.map url all_news)) ->
    (forall item : RawNewsData,
        In item all_news ->
        exists pre post : list RawNewsData,
          read = pre ++ item :: post
          /\ ~ In (url item) (List.map url pre)) ->
    FinnhubNewsCollector.merge_results results all_news seen_urls
    = Return merged ->
    forall item : RawNewsData,
      In item merged ->
      exists pre post : list RawNewsData,
        read ++ flat_map (fun r => match r with
                                   | Return result => result
                                   | Raise _ => []
                                   end) results
        = pre ++ item :: post
        /\ ~ In (url item) (List.map url pre).
Proof.
  induction results as [|[result|e] rest IH];
    intros all_news seen_urls read merged Ha Hd Hc;
    cbn [FinnhubNewsCollector.merge_results flat_map].
  - intros H. apply Return_inj in H. subst merged.
    rewrite app_nil_r. exact Hc.
  - pose proof (@add_unseen_first result all_news seen_urls read Ha Hd Hc)
      as Hadd.
    cbv zeta in Hadd.
    destruct (FinnhubNewsCollector.add_unseen result all_news seen_urls)
      as [all_news' seen_urls'].
    cbn [fst snd] in Hadd. destruct Hadd as (Ha' & Hd' & Hc').
    intros Hm. rewrite app_assoc.
    exact (@IH all_news' seen_urls' (read ++ result) merged Ha' Hd' Hc' Hm).
  - destruct (is_Exception e); [|discriminate].
    cbn [app]. exact (@IH all_news seen_urls read merged Ha Hd Hc).
Qed.

(** X19. The news [collect] returns hold every URL once: the items
    are those the per-ticker tasks returned, in task order; of the items
    with one URL the first is the one kept; every URL a task returned
    is present; and a task that failed with an exception contributes
    nothing and stops nothing. *)
Theorem finnhub_collect_merges_by_url :
  forall (api_key : pystr)
         (_collect_ticker : pystr -> outcome (list RawNewsData))
         (tickers : list pystr) (merged : list RawNewsData),
    str_truthy api_key = true ->
    FinnhubNewsCollector.collect true (Some api_key) _collect_ticker tickers
    = Return merged ->
    NoDup (List.map url merged)
    /\ Subseq merged
         (flat_map (fun ticker => match _collect_ticker ticker with
                                  | Return result => result
                                  | Raise _ => []
                                  end) tickers)
    /\ (forall item : RawNewsData,
          In item merged ->
          exists pre post : list RawNewsData,
            flat_map (fun ticker => match _collect_ticker ticker with
                                    | Return result => result
                                    | Raise _ => []
                                    end) tickers
            = pre ++ item :: post
            /\ ~ In (url item) (List.map url pre))
    /\ (forall (ticker : pystr) (result : list RawNewsData)
               (item : RawNewsData),
          In ticker tickers -> _collect_ticker ticker = Return result ->
          In item result -> In (url item) (List.map url merged)).
Proof.
  intros api_key _collect_ticker tickers merged Hkey.
  unfold FinnhubNewsCollector.collect. rewrite Hkey. cbn [negb].
  intros Hm.
  assert (Hflat : flat_map (fun r => match r with
                                     | Return result => result
                                     | Raise _ => []
                                     end) (List.map _collect_ticker tickers)
                  = flat_map (fun ticker => match _collect_ticker ticker with
                                            | Return result => result
                                            | Raise _ => []
                                            end) tickers).
  { rewrite !flat_map_concat_map, map_map. reflexivity. }
  destruct (@merge_results_inv (List.map _collect_ticker tickers) [] [] merged)
    as (H1 & [added [Heq Hsub]] & H3).
  - intros u. cbn. tauto.
  - constructor.
  - exact Hm.
  - split; [exact H1|]. split.
    + cbn [app] in Heq. subst added. rewrite Hflat in Hsub. exact Hsub.
    + split.
      * intros item Hitem.
        destruct (@merge_results_first (List.map _collect_ticker tickers)
                    [] [] [] merged) with (item := item)
          as (pre & post & Hpre & Hn).
        -- intros u. cbn. tauto.
        -- intros x [].
        -- intros x [].
        -- exact Hm.
        -- exact Hitem.
        -- exists pre, post. cbn [app] in Hpre. rewrite Hflat in Hpre.
           split; [exact Hpre | exact Hn].
      * intros ticker result item Hin Hres Hitem. apply (H3 result item).
        -- rewrite <- Hres. apply in_map. exact Hin.
        -- exact Hitem.
Qed.

Lemma finnhub_collect_merges_by_url_witness :
  FinnhubNewsCollector.collect true (Some (py "key"))
    (fun ticker => if str_eqb ticker (py "AMD")
                   then Raise (ConnectError (py "timeout"))
                   else Return [sample_wire_a; sample_wire_a; sample_wire_b])
    [py "NVDA"; py "AMD"; py "TSM"]
  = Return [sample_wire_a; sample_wire_b]
  /\ NoDup (List.map url [sample_wire_a; sample_wire_b]).
Proof.
  split; [vm_compute; reflexivity|].
  apply (@finnhub_collect_merges_by_url (py "key")
           (fun ticker => if str_eqb ticker (py "AMD")
                          then Raise (ConnectError (py "timeout"))
                          else Return [sample_wire_a; sample_wire_a;
                                       sample_wire_b])
           [py "NVDA"; py "AMD"; py "TSM"]).
  - reflexivity.
  - vm_compute. reflexivity.
Defined.

(** X20. The ticker list of a parsed Finnhub item always holds the
    upper-cased ticker the request was made for, and no empty ticker
    taken from [related].  When [related] is a string, the list is the
    non-empty stripped names of [related] in their order, with the
    requested ticker put in front of them when they do not name it. *)
Theorem finnhub_parse_tickers_hold_primary :
  forall (U : UnicodeData) (upper : pystr -> pystr) (raw : dict json)
         (primary_ticker : pystr) (tickers : list pystr),
    FinnhubNewsCollector.parse_tickers U upper raw primary_ticker
    = Some tickers ->
    In (upper primary_ticker) tickers
    /\ Forall (fun t => t = upper primary_ticker \/ t <> []) tickers
    /\ (forall s : pystr,
          match dict_get (py "related") raw with
          | Some v => v
          | None => JStr []
          end = JStr s ->
          (In (upper primary_ticker)
              (filter str_truthy (List.map (strip U) (split_on 44%N s))) ->
           tickers
           = filter str_truthy (List.map (strip U) (split_on 44%N s)))
          /\ (~ In (upper primary_ticker)
                (filter str_truthy (List.map (strip U) (split_on 44%N s))) ->
              tickers
              = upper primary_ticker
                :: filter str_truthy (List.map (strip U) (split_on 44%N s)))).
Proof.
  intros U upper raw primary tickers.
  unfold FinnhubNewsCollector.parse_tickers.
  set (related := match dict_get (py "related") raw with
                  | Some v => v
                  | None => JStr []
                  end).
  assert (Hfinish : forall l : list pystr,
            Forall (fun t => t = upper primary \/ t <> []) l ->
            (if str_in (upper primary) l then Some l
             else Some (upper primary :: l)) = Some tickers ->
            In (upper primary) tickers
            /\ Forall (fun t => t = upper primary \/ t <> []) tickers).
  { intros l Hl. destruct (str_in (upper primary) l) eqn:E;
      intros H; apply Some_inj in H; subst tickers.
    - split; [apply str_in_In; exact E | exact Hl].
    - split; [left; reflexivity|]. constructor; [left; reflexivity | exact Hl]. }
  intros H. split; [|split].
  - destruct (AIAnalysisOutput.truthy related).
    + destruct related; try discriminate. revert H. apply Hfinish.
      apply Forall_forall. intros t Ht. apply filter_In in Ht.
      destruct Ht as [_ Ht]. right. destruct t; [discriminate Ht | discriminate].
    + revert H. apply Hfinish. constructor; [left; reflexivity | constructor].
  - destruct (AIAnalysisOutput.truthy related).
    + destruct related; try discriminate. revert H. apply Hfinish.
      apply Forall_forall. intros t Ht. apply filter_In in Ht.
      destruct Ht as [_ Ht]. right. destruct t; [discriminate Ht | discriminate].
    + revert H. apply Hfinish. constructor; [left; reflexivity | constructor].
  - intros s Hs. rewrite Hs in H.
    change (AIAnalysisOutput.truthy (JStr s)) with (str_truthy s) in H.
    destruct s as [|c s].
    + change (str_truthy []) with false in H. cbv iota in H.
      assert (Hin : str_in (upper primary) [upper primary] = true).
      { apply str_in_In. left. reflexivity. }
      rewrite Hin in H. apply Some_inj in H. subst tickers.
      change (filter str_truthy (List.map (strip U) (split_on 44%N [])))
        with (@nil pystr).
      split; [intros [] | reflexivity].
    + change (str_truthy (c :: s)) with true in H. cbv iota in H.
      destruct (str_in (upper primary)
                  (filter str_truthy
                     (List.map (strip U) (split_on 44%N (c :: s))))) eqn:E;
        apply Some_inj in H; subst tickers.
      * split; [reflexivity|]. intros Hn. exfalso. apply Hn.
        apply str_in_In. exact E.
      * split; [|reflexivity]. intros Hin. apply str_in_In in Hin.
        congruence.
Qed.

Lemma finnhub_parse_tickers_hold_primary_witness :
  FinnhubNewsCollector.parse_tickers ascii_only (fun s => s)
    [(py "related", JStr (py "AMD, GOOGL,"))] (py "NVDA")
  = Some [py "NVDA"; py "AMD"; py "GOOGL"]
  /\ In (py "NVDA") [py "NVDA"; py "AMD"; py "GOOGL"].
Proof.
  split; [reflexivity|].
  apply (@finnhub_parse_tickers_hold_primary ascii_only (fun s => s)
           [(py "related", JStr (py "AMD, GOOGL,"))] (py "NVDA")
           [py "NVDA"; py "AMD"; py "GOOGL"]).
  reflexivity.
Defined.

(** ** Pipeline: the cap per ticker *)

Lemma count_after_fold (t : pystr) (tks : list pystr) (counts : dict Z) :
  Pipeline.count_of t
    (fold_left
       (fun counts t' => dict_set t' (Pipeline.count_of t' counts + 1)%Z counts)
       tks counts)
  = (Pipeline.count_of t counts
     + Pipeline.Zlen (filter (str_eqb t) tks))%Z.
Proof.
  revert counts. induction tks as [|t' tks IH]; intros counts.
  - cbn. unfold Pipeline.Zlen. cbn. lia.
  - cbn [fold_left filter]. rewrite IH. unfold Pipeline.count_of at 1.
    destruct (str_eqb_spec t t') as [->|Hne].
    + rewrite dict_get_set_same. unfold Pipeline.Zlen. cbn [List.length].
      lia.
    + rewrite dict_get_set_other by exact Hne.
      fold (Pipeline.count_of t counts). lia.
Qed.

Lemma mentions_app (t : pystr) (l l' : list Pipeline.normalized_item) :
  Pipeline.mentions t (l ++ l')
  = (Pipeline.mentions t l + Pipeline.mentions t l')%Z.
Proof.
  unfold Pipeline.mentions, Pipeline.Zlen.
  rewrite flat_map_app, filter_app, length_app. apply Nat2Z.inj_add.
Qed.

Lemma mentions_nonneg (t : pystr) (l : list Pipeline.normalized_item) :
  (0 <= Pipeline.mentions t l)%Z.
Proof. unfold Pipeline.mentions, Pipeline.Zlen. lia. Qed.

Lemma mentions_one (t : pystr) (item : Pipeline.normalized_item) :
  Pipeline.mentions t [item]
  = Pipeline.Zlen (filter (str_eqb t) (Pipeline.item_tickers (snd item))).
Proof.
  unfold Pipeline.mentions. cbn [flat_map]. rewrite app_nil_r. reflexivity.
Qed.

Lemma limit_loop_result (limit : Z) :
  forall (rest limited : list Pipeline.normalized_item) (counts : dict Z),
    (forall t : pystr,
        Pipeline.count_of t counts = Pipeline.mentions t limited) ->
    exists added : list Pipeline.normalized_item,
      Pipeline.limit_loop limit rest limited counts = limited ++ added
      /\ Subseq added rest
      /\ (forall item : Pipeline.normalized_item,
            In item rest -> Pipeline.item_tickers (snd item) = [] ->
            In item added)
      /\ (forall t : pystr,
            Pipeline.mentions t added = Pipeline.mentions t rest
            \/ (limit <= Pipeline.mentions t (limited ++ added))%Z)
      /\ ((forall item : Pipeline.normalized_item,
              In item rest ->
              (List.length (Pipeline.item_tickers (snd item)) <= 1)%nat) ->
          (forall t : pystr, (Pipeline.mentions t limited <= limit)%Z) ->
          (0 < limit)%Z ->
          forall t : pystr,
            (Pipeline.mentions t (limited ++ added) <= limit)%Z).
Proof.
  induction rest as [|item rest IH]; intros limited counts Hinv.
  - exists []. cbn [Pipeline.limit_loop]. rewrite app_nil_r.
    split; [reflexivity|]. split; [apply Subseq_nil|].
    split; [intros item []|]. split; [left; reflexivity|].
    intros _ Hcap _ t. apply Hcap.
  - cbn [Pipeline.limit_loop].
    set (tks := Pipeline.item_tickers (snd item)).
    set (should_include :=
           match tks with
           | [] => true
           | _ :: _ =>
               existsb (fun t => (Pipeline.count_of t counts <? limit)%Z) tks
           end).
    destruct should_include eqn:Einc.
    + destruct (IH (limited ++ [item])
                  (fold_left
                     (fun counts t =>
                        dict_set t (Pipeline.count_of t counts + 1)%Z counts)
                     tks counts))
        as (added & Heq & Hsub & Hfree & Hfair & Hcap).
      { intros t. rewrite count_after_fold, mentions_app, mentions_one, Hinv.
        reflexivity. }
      exists (item :: added).
      split; [rewrite Heq, <- app_assoc; reflexivity|].
      split; [apply Subseq_take; exact Hsub|].
      split.
      { intros x [<-|Hx] Hno; [left; reflexivity|].
        right. apply Hfree; assumption. }
      split.
      { intros t. destruct (Hfair t) as [H|H].
        - left. change (item :: added) with ([item] ++ added).
          change (item :: rest) with ([item] ++ rest).
          rewrite !mentions_app, H. reflexivity.
        - right. rewrite <- app_assoc in H. exact H. }
      intros Hsingle Hlim Hpos t.
      change (limited ++ item :: added) with (limited ++ [item] ++ added).
      rewrite app_assoc. apply Hcap; [| |exact Hpos].
      * intros x Hx. apply Hsingle. right. exact Hx.
      * intros t'. rewrite mentions_app, mentions_one. fold tks.
        specialize (Hsingle item (or_introl eq_refl)). fold tks in Hsingle.
        subst should_include.
        destruct tks as [|t0 [|t1 tks']]; cbn [List.length] in Hsingle;
          try lia.
        -- cbn [filter]. unfold Pipeline.Zlen. cbn [List.length].
           specialize (Hlim t'). lia.
        -- cbn [existsb] in Einc. rewrite orb_false_r in Einc.
           apply Z.ltb_lt in Einc. rewrite Hinv in Einc.
           cbn [filter]. destruct (str_eqb_spec t' t0) as [->|Hne];
             unfold Pipeline.Zlen; cbn [List.length].
           ++ lia.
           ++ specialize (Hlim t'). lia.
    + destruct (IH limited counts Hinv)
        as (added & Heq & Hsub & Hfree & Hfair & Hcap).
      exists added. split; [exact Heq|].
      split; [apply Subseq_skip; exact Hsub|].
      assert (Htks : tks <> []
                     /\ forall t, In t tks ->
                                  (limit <= Pipeline.mentions t limited)%Z).
      { subst should_include. destruct tks as [|t0 tks'] eqn:Etk;
          [discriminate Einc|]. split; [discriminate|].
        intros t Ht. rewrite <- Hinv.
        destruct (Z.ltb_spec (Pipeline.count_of t counts) limit) as [Hlt|Hge];
          [|exact Hge].
        exfalso. rewrite <- not_true_iff_false in Einc. apply Einc.
        apply existsb_exists. exists t. split; [exact Ht|].
        apply Z.ltb_lt. exact Hlt. }
      destruct Htks as [Hne Hfull].
      split.
      { intros x [<-|Hx] Hno; [|apply Hfree; assumption].
        exfalso. apply Hne. exact Hno. }
      split.
      { intros t.
        destruct (in_dec (list_eq_dec N.eq_dec) t tks) as [Hin|Hout].
        - right. rewrite mentions_app.
          pose proof (Hfull t Hin). pose proof (mentions_nonneg t added). lia.
        - destruct (Hfair t) as [H|H]; [left | right; exact H].
          change (item :: rest) with ([item] ++ rest).
          rewrite mentions_app, mentions_one, H. fold tks.
          assert (Hz : filter (str_eqb t) tks = []).
          { clear -Hout. induction tks as [|x l IHl]; [reflexivity|].
            cbn [filter]. destruct (str_eqb_spec t x) as [->|Hne].
            - exfalso. apply Hout. left. reflexivity.
            - apply IHl. intros Hin. apply Hout. right. exact Hin. }
          rewrite Hz. unfold Pipeline.Zlen. cbn. lia. }
      intros Hsingle Hlim Hpos t. apply Hcap; [|exact Hlim|exact Hpos].
      intros x Hx. apply Hsingle. right. exact Hx.
Qed.

(** X22. The cap per ticker keeps news in order and starves no
    ticker: the kept items are a subsequence of the given ones, an item
    that lists no ticker is always kept, and for every ticker either
    all of its mentions are kept or at least [limit] of them are. *)
Theorem apply_limit_starves_no_ticker :
  forall (limit_per_ticker : option Z)
         (items : list Pipeline.normalized_item),
    let kept := Pipeline.apply_limit limit_per_ticker items in
    Subseq kept items
    /\ (forall item : Pipeline.normalized_item,
          In item items -> Pipeline.item_tickers (snd item) = [] ->
          In item kept)
    /\ (forall ticker : pystr,
          Pipeline.mentions ticker kept = Pipeline.mentions ticker items
          \/ exists limit : Z,
               limit_per_ticker = Some limit
               /\ (limit <= Pipeline.mentions ticker kept)%Z).
Proof.
  intros limit_per_ticker items kept. subst kept.
  unfold Pipeline.apply_limit.
  assert (Hall : Subseq items items
                 /\ (forall item : Pipeline.normalized_item,
                       In item items ->
                       Pipeline.item_tickers (snd item) = [] -> In item items)
                 /\ (forall ticker : pystr,
                       Pipeline.mentions ticker items
                       = Pipeline.mentions ticker items
                       \/ exists limit : Z,
                            limit_per_ticker = Some limit
                            /\ (limit <= Pipeline.mentions ticker items)%Z)).
  { split; [apply Subseq_refl|]. split; [auto | intros t; left; reflexivity]. }
  destruct limit_per_ticker as [limit|]; [|exact Hall].
  destruct (limit =? 0)%Z; [exact Hall|]. clear Hall.
  destruct (@limit_loop_result limit items [] [])
    as (added & Heq & Hsub & Hfree & Hfair & _).
  { intros t. reflexivity. }
  rewrite Heq. cbn [app]. split; [exact Hsub|]. split; [exact Hfree|].
  intros t. destruct (Hfair t) as [H|H]; [left; exact H|].
  right. exists limit. split; [reflexivity | exact H].
Qed.

(** X23. When every item lists at most one ticker, a positive cap is
    kept exactly: no ticker is mentioned by more than [limit] kept
    items. *)
Theorem apply_limit_caps_single_ticker_items :
  forall (limit : Z) (items : list Pipeline.normalized_item)
         (ticker : pystr),
    (0 < limit)%Z ->
    (forall item : Pipeline.normalized_item,
        In item items ->
        (List.length (Pipeline.item_tickers (snd item)) <= 1)%nat) ->
    (Pipeline.mentions ticker (Pipeline.apply_limit (Some limit) items)
     <= limit)%Z.
Proof.
  intros limit items ticker Hpos Hsingle. unfold Pipeline.apply_limit.
  replace (limit =? 0)%Z with false by (symmetry; apply Z.eqb_neq; lia).
  destruct (@limit_loop_result limit items [] [])
    as (added & Heq & _ & _ & _ & Hcap).
  { intros t. reflexivity. }
  rewrite Heq. apply Hcap; [exact Hsingle | | exact Hpos].
  intros t. unfold Pipeline.mentions, Pipeline.Zlen. cbn. lia.
Qed.

Lemma apply_limit_caps_single_ticker_items_witness :
  (Pipeline.mentions (py "NVDA")
     (Pipeline.apply_limit (Some 1%Z) [sample_normalized; sample_normalized])
   <= 1)%Z.
Proof.
  apply (@apply_limit_caps_single_ticker_items 1%Z
           [sample_normalized; sample_normalized] (py "NVDA")).
  - lia.
  - intros item [<-|[<-|[]]]; cbn; lia.
Defined.

(** ** Pipeline: the counters of a digest *)

Lemma bind_Return (A B : Type) (m : Pipeline.M A) (k : A -> Pipeline.M B)
    (s s' : Pipeline.Stats) (b : B) :
  Pipeline.bind m k s = (Return b, s') ->
  exists (a : A) (s1 : Pipeline.Stats),
    m s = (Return a, s1) /\ k a s1 = (Return b, s').
Proof.
  unfold Pipeline.bind. destruct (m s) as [[a|e] s1]; [|discriminate].
  intros H. exists a, s1. split; [reflexivity | exact H].
Qed.

Section PipelineStages.
Variable w : Pipeline.World.

Lemma collect_news_stats (tickers : list pystr) (s : Pipeline.Stats) :
  snd (Pipeline._collect_news w tickers s) = s.
Proof.
  unfold Pipeline._collect_news, Pipeline.collect_from, Pipeline.bind,
    Pipeline.try_except, Pipeline.call, Pipeline.ret.
  destruct (Pipeline.finnhub_enabled w), (Pipeline.sec_enabled w);
    repeat match goal with
           | |- context [match ?r with Return _ => _ | Raise _ => _ end] =>
               destruct r
           | |- context [if is_Exception ?e then _ else _] =>
               destruct (is_Exception e)
           end; reflexivity.
Qed.

Lemma save_loop_result :
  forall (normalized : list Pipeline.normalized_item)
         (digest_items result : list DigestItem) (s s' : Pipeline.Stats),
    Pipeline.save_loop w normalized digest_items s = (Return result, s') ->
    s' = s
    /\ exists added : list DigestItem,
         result = digest_items ++ added
         /\ List.length added = List.length normalized
         /\ Forall (fun item => is_analyzed item = false) added.
Proof.
  induction normalized as [|[raw_create news_create] rest IH];
    intros digest_items result s s'; cbn [Pipeline.save_loop].
  - unfold Pipeline.ret. intros H. split; [congruence|].
    exists []. rewrite app_nil_r. split; [congruence|].
    split; [reflexivity | constructor].
  - unfold Pipeline.bind at 1. unfold Pipeline.call at 1.
    destruct (Pipeline.create_raw_item w raw_create) as [id|e]; [|discriminate].
    unfold Pipeline.bind at 1. unfold Pipeline.call at 1.
    destruct (Pipeline.create_news_item w _) as [nid|e]; [|discriminate].
    intros H. destruct (IH _ _ _ _ H) as (-> & added & -> & Hlen & Hall).
    split; [reflexivity|]. eexists (_ :: added).
    split; [rewrite <- app_assoc; reflexivity|].
    split; [cbn [List.length]; rewrite Hlen; reflexivity|].
    constructor; [reflexivity | exact Hall].
Qed.

Lemma analyze_loop_result (thesis_map : dict pystr) :
  forall (normalized : list Pipeline.normalized_item)
         (digest_items result : list DigestItem) (s s' : Pipeline.Stats),
    Pipeline.analyze_loop w thesis_map normalized digest_items s
    = (Return result, s') ->
    exists added : list DigestItem,
      result = digest_items ++ added
      /\ (List.length added <= List.length normalized)%nat
      /\ Pipeline.analyzed_success s'
         = (Pipeline.analyzed_success s
            + Pipeline.Zlen (filter is_analyzed added))%Z
      /\ Pipeline.analyzed_failed s'
         = (Pipeline.analyzed_failed s
            + Pipeline.Zlen (filter (fun item => negb (is_analyzed item))
                                    added))%Z
      /\ Pipeline.after_dedup s' = Pipeline.after_dedup s
      /\ Pipeline.raw_collected s' = Pipeline.raw_collected s.
Proof.
  induction normalized as [|[raw_create news_create] rest IH];
    intros digest_items result s s'; cbn [Pipeline.analyze_loop].
  - unfold Pipeline.ret. intros H. exists []. rewrite app_nil_r.
    assert (s' = s) as -> by congruence.
    split; [congruence|]. split; [cbn; lia|].
    unfold Pipeline.Zlen. cbn. repeat split; lia.
  - unfold Pipeline.bind at 1. unfold Pipeline.call at 1.
    destruct (Pipeline.get_news_item_by_url w _) as [existing|e];
      [|discriminate].
    destruct existing.
    { intros H.
      destruct (IH _ _ _ _ H) as (added & Heq & Hlen & Hs & Hf & Hd & Hr).
      exists added. split; [exact Heq|]. split; [cbn [List.length]; lia|].
      repeat split; assumption. }
    unfold Pipeline.bind at 1. unfold Pipeline.call at 1.
    destruct (Pipeline.create_raw_item w raw_create) as [id|e]; [|discriminate].
    unfold Pipeline.bind at 1. unfold Pipeline.call at 1.
    destruct (Pipeline.create_news_item w _) as [nid|e]; [|discriminate].
    unfold Pipeline.bind at 1.
    match goal with
    | |- context [Pipeline.try_except ?body ?handler s] =>
        assert (Hstep :
          match Pipeline.try_except body handler s with
          | (Return (Some _), s1) => s1 = Pipeline.bump_analyzed_success s
          | (Return None, s1) => s1 = Pipeline.bump_analyzed_failed s
          | (Raise _, _) => True
          end);
        [|destruct (Pipeline.try_except body handler s) as [[an|e] s1]]
    end.
    { unfold Pipeline.try_except, Pipeline.bind, Pipeline.call,
        Pipeline.set_stats, Pipeline.ret.
      destruct (Pipeline.provider_analyze w _ _) as [[[a tokens] cost]|e].
      - destruct (Pipeline.create_analysis_result w nid a) as [[]|e].
        + reflexivity.
        + destruct (is_Exception e); [reflexivity | exact I].
      - destruct (is_Exception e); [reflexivity | exact I]. }
    2:{ discriminate. }
    intros H.
    destruct (IH _ _ _ _ H) as (added & Heq & Hlen & Hs & Hf & Hd & Hr).
    eexists (_ :: added).
    split; [rewrite Heq, <- app_assoc; reflexivity|].
    split; [cbn [List.length]; lia|].
    cbn [filter].
    match goal with
    | |- context [is_analyzed ?i :: _] => idtac
    | |- context [if is_analyzed ?i then _ else _] =>
        replace (is_analyzed i)
          with (match an with Some _ => true | None => false end)
          by reflexivity
    end.
    destruct an as [a|]; subst s1; cbn [negb];
      unfold Pipeline.Zlen in *; cbn [List.length];
      cbn [Pipeline.bump_analyzed_success Pipeline.bump_analyzed_failed
           Pipeline.analyzed_success Pipeline.analyzed_failed
           Pipeline.after_dedup Pipeline.raw_collected] in Hs, Hf, Hd, Hr;
      repeat split; lia.
Qed.

Lemma analyze_and_save_result (normalized : list Pipeline.normalized_item)
    (thesis_map : dict pystr) (result : list DigestItem)
    (s s' : Pipeline.Stats) :
  Pipeline._analyze_and_save w normalized thesis_map s = (Return result, s') ->
  (List.length result <= List.length normalized)%nat
  /\ Pipeline.analyzed_success s'
     = (Pipeline.analyzed_success s
        + Pipeline.Zlen (filter is_analyzed result))%Z
  /\ (Pipeline.get_ai_provider w = Return tt ->
      Pipeline.analyzed_failed s'
      = (Pipeline.analyzed_failed s
         + Pipeline.Zlen (filter (fun item => negb (is_analyzed item))
                                 result))%Z)
  /\ (Pipeline.get_ai_provider w <> Return tt ->
      s' = s /\ List.length result = List.length normalized
      /\ Forall (fun item => is_analyzed item = false) result)
  /\ Pipeline.after_dedup s' = Pipeline.after_dedup s
  /\ Pipeline.raw_collected s' = Pipeline.raw_collected s.
Proof.
  unfold Pipeline._analyze_and_save.
  destruct (Pipeline.get_ai_provider w) as [[]|e].
  - intros H. apply bind_Return in H. destruct H as (items & s1 & Hloop & H).
    apply bind_Return in H. destruct H as ([] & s2 & Hcommit & H).
    unfold Pipeline.call in Hcommit. unfold Pipeline.ret in H.
    assert (s2 = s1) as -> by (destruct (Pipeline.commit w); congruence).
    assert (result = items /\ s' = s1) as [-> ->] by (split; congruence).
    destruct (analyze_loop_result _ _ _ _ Hloop)
      as (added & -> & Hlen & Hs & Hf & Hd & Hr).
    cbn [app]. split; [exact Hlen|]. split; [exact Hs|].
    split; [intros _; exact Hf|].
    split; [intros Hne; congruence|]. split; assumption.
  - destruct (is_Exception e); [|discriminate].
    intros H. apply bind_Return in H. destruct H as (items & s1 & Hloop & H).
    apply bind_Return in H. destruct H as ([] & s2 & Hcommit & H).
    unfold Pipeline.call in Hcommit. unfold Pipeline.ret in H.
    assert (s2 = s1) as -> by (destruct (Pipeline.commit w); congruence).
    assert (result = items /\ s' = s1) as [-> ->] by (split; congruence).
    destruct (save_loop_result _ _ _ Hloop) as (-> & added & -> & Hlen & Hall).
    cbn [app].
    assert (Hnone : filter is_analyzed added = []).
    { clear -Hall. induction Hall as [|x l Hx Hl IHl]; [reflexivity|].
      cbn [filter]. rewrite Hx. exact IHl. }
    split; [lia|]. split; [rewrite Hnone; unfold Pipeline.Zlen; cbn; lia|].
    split; [discriminate|]. split; [intros _; auto|].
    split; reflexivity.
Qed.

End PipelineStages.

Section PipelineSummaries.
Variable w : Pipeline.World.

Lemma count_direction_bounds (items : list DigestItem) :
  (0 <= Pipeline.count_direction (py "bullish") items)%Z
  /\ (0 <= Pipeline.count_direction (py "bearish") items)%Z
  /\ (Pipeline.count_direction (py "bullish") items
      + Pipeline.count_direction (py "bearish") items
      <= Pipeline.Zlen items)%Z.
Proof.
  unfold Pipeline.count_direction, Pipeline.Zlen.
  split; [lia|]. split; [lia|].
  induction items as [|item items IH]; [cbn; lia|].
  cbn [filter List.length].
  destruct (analysis item) as [a|]; [|lia].
  destruct (str_eqb_spec (AIAnalysisOutput.impact_direction a) (py "bullish"))
    as [E|E].
  - rewrite E.
    replace (str_eqb (py "bullish") (py "bearish")) with false by reflexivity.
    cbn [List.length]. lia.
  - destruct (str_eqb (AIAnalysisOutput.impact_direction a) (py "bearish"));
      cbn [List.length]; lia.
Qed.

Lemma counting_summary_consistent (thesis_impact : pystr)
    (company_names : dict pystr) (ticker : pystr) (items : list DigestItem) :
  TickerSummary.ticker
    (Pipeline.counting_summary thesis_impact company_names ticker items)
  = ticker
  /\ TickerSummary.counts_consistent
       (Pipeline.counting_summary thesis_impact company_names ticker items).
Proof.
  split; [reflexivity|].
  unfold TickerSummary.counts_consistent, Pipeline.counting_summary.
  cbn [TickerSummary.bullish_count TickerSummary.bearish_count
       TickerSummary.neutral_count TickerSummary.news_count].
  pose proof (count_direction_bounds items). lia.
Qed.

Lemma ticker_summary_step (company_names thesis_map : dict pystr)
    (ticker : pystr) (items : list DigestItem) (s s1 : Pipeline.Stats)
    (summary : TickerSummary.t) :
  Pipeline.try_except
    (Pipeline.ai_summary w company_names thesis_map ticker items)
    (fun _ => Pipeline.ret
                (Pipeline.counting_summary (py "Summary generation failed")
                   company_names ticker items)) s
  = (Return summary, s1) ->
  s1 = s
  /\ TickerSummary.ticker summary = ticker
  /\ TickerSummary.counts_consistent summary.
Proof.
  unfold Pipeline.try_except, Pipeline.ai_summary, Pipeline.bind,
    Pipeline.call, Pipeline.ret.
  pose proof (counting_summary_consistent (py "Summary generation failed")
                company_names ticker items) as [Hc1 Hc2].
  assert (Hfallback : forall e : exn,
    (if is_Exception e
     then (Return (Pipeline.counting_summary (py "Summary generation failed")
                     company_names ticker items), s)
     else (Raise e, s)) = (Return summary, s1) ->
    s1 = s /\ TickerSummary.ticker summary = ticker
    /\ TickerSummary.counts_consistent summary).
  { intros e. destruct (is_Exception e); [|discriminate].
    intros H. assert (s1 = s) as -> by congruence.
    assert (summary = Pipeline.counting_summary (py "Summary generation failed")
                        company_names ticker items) as -> by congruence.
    auto. }
  destruct (Pipeline.provider_generate_ticker_summary w _ _ _ _)
    as [[[summary_data tokens] cost]|e]; [|apply Hfallback].
  destruct (Pipeline.slice3 _) as [key_events|e]; [|apply Hfallback].
  intros H. assert (s1 = s) as -> by congruence.
  split; [reflexivity|].
  match type of H with
  | (Return ?x, _) = _ => assert (summary = x) as -> by congruence
  end.
  split; [reflexivity|].
  unfold TickerSummary.counts_consistent.
  cbn [TickerSummary.bullish_count TickerSummary.bearish_count
       TickerSummary.neutral_count TickerSummary.news_count].
  pose proof (count_direction_bounds items). lia.
Qed.

Lemma summaries_loop_result (company_names thesis_map : dict pystr) :
  forall (groups : dict (list DigestItem))
         (summaries result : dict TickerSummary.t) (s s' : Pipeline.Stats),
    Forall (fun kv => TickerSummary.ticker (snd kv) = fst kv
                      /\ TickerSummary.counts_consistent (snd kv)) summaries ->
    Pipeline.summaries_loop w company_names thesis_map groups summaries s
    = (Return result, s') ->
    s' = s
    /\ Forall (fun kv => TickerSummary.ticker (snd kv) = fst kv
                         /\ TickerSummary.counts_consistent (snd kv)) result.
Proof.
  induction groups as [|[ticker items] rest IH];
    intros summaries result s s' Hall; cbn [Pipeline.summaries_loop].
  - unfold Pipeline.ret. intros H.
    assert (s' = s) as -> by congruence.
    assert (result = summaries) as -> by congruence. auto.
  - intros H. apply bind_Return in H.
    destruct H as (summary & s1 & Hstep & H).
    apply ticker_summary_step in Hstep. destruct Hstep as (-> & Ht & Hc).
    apply (IH _ _ _ _) in H; [exact H|].
    apply dict_set_Forall; [exact Hall|]. cbn [fst snd]. auto.
Qed.

Lemma generate_ticker_summaries_result (digest_items : list DigestItem)
    (watchlist : list Pipeline.WatchlistItem) (thesis_map : dict pystr)
    (result : dict TickerSummary.t) (s s' : Pipeline.Stats) :
  Pipeline._generate_ticker_summaries w digest_items watchlist thesis_map s
  = (Return result, s') ->
  s' = s
  /\ Forall (fun kv => TickerSummary.ticker (snd kv) = fst kv
                       /\ TickerSummary.counts_consistent (snd kv)) result.
Proof.
  unfold Pipeline._generate_ticker_summaries.
  destruct (Pipeline.group_by_ticker digest_items) as [|g groups] eqn:Eg.
  { unfold Pipeline.ret. intros H.
    assert (s' = s) as -> by congruence.
    assert (result = []) as -> by congruence. auto. }
  cbv zeta.
  match goal with
  | |- context [fold_left ?f watchlist []] =>
      generalize (fold_left f watchlist [])
  end.
  intros company_names.
  destruct (Pipeline.get_ai_provider w) as [[]|e].
  - apply summaries_loop_result. constructor.
  - destruct (is_Exception e); [|discriminate].
    intros H. assert (s' = s) as -> by congruence. split; [reflexivity|].
    match type of H with
    | (Return ?x, _) = _ => assert (result = x) as -> by congruence
    end.
    clear H Eg. generalize (g :: groups). intros l.
    assert (Hgen : forall acc : dict TickerSummary.t,
      Forall (fun kv => TickerSummary.ticker (snd kv) = fst kv
                        /\ TickerSummary.counts_consistent (snd kv)) acc ->
      Forall (fun kv => TickerSummary.ticker (snd kv) = fst kv
                        /\ TickerSummary.counts_consistent (snd kv))
        (fold_left
           (fun summaries g0 =>
              dict_set (fst g0)
                (Pipeline.counting_summary (py "Requires manual assessment")
                   company_names (fst g0) (snd g0)) summaries) l acc)).
    { induction l as [|g0 l IHl]; intros acc Hacc; [exact Hacc|].
      cbn [fold_left]. apply IHl. apply dict_set_Forall; [exact Hacc|].
      cbn [fst snd]. apply counting_summary_consistent. }
    apply Hgen. constructor.
Qed.

End PipelineSummaries.

(** X24. Every ticker summary [_generate_ticker_summaries] returns is
    filed under its own ticker, and its sentiment counters are
    consistent: none is negative and bullish, bearish and neutral add up
    to the number of news items of the ticker.  The statistics of the
    run are not touched. *)
Theorem ticker_summaries_are_consistent :
  forall (w : Pipeline.World) (digest_items : list DigestItem)
         (watchlist : list Pipeline.WatchlistItem) (thesis_map : dict pystr)
         (summaries : dict TickerSummary.t) (s s' : Pipeline.Stats),
    Pipeline._generate_ticker_summaries w digest_items watchlist thesis_map s
    = (Return summaries, s') ->
    s' = s
    /\ Forall (fun kv => TickerSummary.ticker (snd kv) = fst kv
                         /\ TickerSummary.counts_consistent (snd kv))
              summaries.
Proof.
  intros w digest_items watchlist thesis_map summaries s s' H.
  eapply generate_ticker_summaries_result. exact H.
Qed.

Lemma ticker_summaries_are_consistent_witness :
  exists summaries : dict TickerSummary.t,
    Pipeline._generate_ticker_summaries sample_world
      [{| news := sample_news (py "Fed holds rates"); analysis := None |}]
      [] [] Pipeline.initial_stats
    = (Return summaries, Pipeline.initial_stats)
    /\ Forall (fun kv => TickerSummary.ticker (snd kv) = fst kv
                         /\ TickerSummary.counts_consistent (snd kv))
              summaries.
Proof.
  eexists. split; [vm_compute; reflexivity|].
  apply (@ticker_summaries_are_consistent sample_world
           [{| news := sample_news (py "Fed holds rates"); analysis := None |}]
           [] [] _ Pipeline.initial_stats Pipeline.initial_stats).
  vm_compute. reflexivity.
Defined.

(** ** Normalizer: what [process] hands to the pipeline *)

Lemma NoDup_map_Some (A B : Type) (f : A -> B) (l : list A) :
  NoDup (List.map f l) -> NoDup (List.map (fun x => Some (f x)) l).
Proof.
  induction l as [|x l IH]; cbn [List.map]; intros H; [constructor|].
  inversion H as [|y ys Hnot Hrest]; subst.
  constructor; [|apply IH; exact Hrest].
  intros Hin. apply Hnot. apply in_map_iff in Hin.
  destruct Hin as (z & Hz & Hzin). apply Some_inj in Hz.
  rewrite <- Hz. apply in_map. exact Hzin.
Qed.

Lemma Subseq_filter (A : Type) (f : A -> bool) (l : list A) :
  Subseq (filter f l) l.
Proof.
  induction l as [|x l IH]; cbn [filter]; [apply Subseq_nil|].
  destruct (f x); [apply Subseq_take | apply Subseq_skip]; exact IH.
Qed.

Lemma filter_forallb (A : Type) (f : A -> bool) (l : list A) :
  forallb f l = true -> filter f l = l.
Proof.
  induction l as [|x l IH]; cbn [forallb filter]; intros H; [reflexivity|].
  apply andb_prop in H. destruct H as [Hx Hl].
  rewrite Hx, (IH Hl). reflexivity.
Qed.

Lemma Subseq_forallb (A : Type) (f : A -> bool) (l1 l2 : list A) :
  Subseq l1 l2 -> forallb f l2 = true -> forallb f l1 = true.
Proof.
  intros Hsub H. apply forallb_forall. intros x Hx.
  rewrite forallb_forall in H. apply H.
  exact (@Subseq_In _ _ _ x Hsub Hx).
Qed.

Lemma process_result (U : UnicodeData) (sha256_hexdigest : pystr -> pystr)
    (Simhash : pystr -> N) (SIMHASH_AVAILABLE : bool)
    (similarity_threshold : Q) (utcnow : datetime)
    (raw_items : list RawNewsData)
    (normalized : list (RawItemCreate.t * NewsItemCreate.t))
    (total_before removed : Z) :
  Normalizer.process U sha256_hexdigest Simhash SIMHASH_AVAILABLE
    similarity_threshold utcnow raw_items
  = (normalized, total_before, removed) ->
  total_before = Z.of_nat (List.length raw_items)
  /\ (0 <= removed)%Z
  /\ (Z.of_nat (List.length normalized) + removed <= total_before)%Z
  /\ (forallb Normalizer.records_accepted raw_items = true ->
      (Z.of_nat (List.length normalized) + removed = total_before)%Z)
  /\ Subseq (List.map (fun p => RawItemCreate.url (fst p)) normalized)
            (List.map url raw_items)
  /\ NoDup (List.map (fun p => NewsItemCreate.canonical_url (snd p))
                     normalized)
  /\ NoDup (List.map (fun p => NewsItemCreate.content_hash (snd p))
                     normalized).
Proof.
  unfold Normalizer.process. destruct raw_items as [|a l].
  { intros H. assert (normalized = []) as -> by congruence.
    assert (total_before = 0%Z) as -> by congruence.
    assert (removed = 0%Z) as -> by congruence.
    cbn. repeat split; try lia; constructor. }
  pose proof (deduplicate_subseq U sha256_hexdigest Simhash SIMHASH_AVAILABLE
                similarity_threshold (a :: l)) as Hsub.
  pose proof (deduplicate_count U sha256_hexdigest Simhash SIMHASH_AVAILABLE
                similarity_threshold (a :: l)) as Hcount.
  pose proof (deduplicate_kept_nodup U sha256_hexdigest Simhash
                SIMHASH_AVAILABLE similarity_threshold (a :: l))
    as [Hurl Hhash].
  cbv zeta in Hcount. pose proof (Subseq_length Hsub) as Hlen.
  cbv zeta. intros H.
  match type of H with
  | (?n, ?t, ?r) = _ =>
      assert (normalized = n) as -> by congruence;
      assert (total_before = t) as -> by congruence;
      assert (removed = r) as -> by congruence
  end.
  unfold Normalizer.normalize. rewrite length_map, !map_map.
  cbn [Normalizer._normalize_item fst snd RawItemCreate.url
       NewsItemCreate.canonical_url NewsItemCreate.content_hash].
  set (kept := Deduplicator.kept_items _) in *.
  pose proof (Subseq_length (Subseq_filter Normalizer.records_accepted kept))
    as Hflen.
  split; [reflexivity|]. split; [lia|]. split; [lia|].
  split.
  { intros Hall.
    rewrite (filter_forallb _ _ (Subseq_forallb _ Hsub Hall)). lia. }
  split.
  { eapply Subseq_trans; [|apply Subseq_map; exact Hsub].
    apply Subseq_map, Subseq_filter. }
  split.
  - eapply Subseq_NoDup; [|exact Hurl].
    apply Subseq_map, Subseq_filter.
  - apply NoDup_map_Some. eapply Subseq_NoDup; [|exact Hhash].
    apply Subseq_map, Subseq_filter.
Qed.



(** An item whose payload is a list is deduplicated, skipped by
    [normalize] and counted neither as normalised nor as removed. *)
Lemma process_skips_rejected_records :
  Normalizer.process ascii_only sample_digest sample_simhash false
    (85 # 100) sample_time [sample_list_payload]
  = ([], 1%Z, 0%Z).
Proof. vm_compute. reflexivity. Qed.

(** ** Digest: grouping by ticker *)

Lemma group_tickers_get (t : pystr) (item : DigestItem) :
  forall (tks : list pystr) (d : dict (list DigestItem)),
    match dict_get t (Pipeline.group_tickers tks item d) with
    | Some l => l
    | None => []
    end
    = match dict_get t d with Some l => l | None => [] end
      ++ List.map (fun _ => item) (filter (str_eqb t) tks).
Proof.
  induction tks as [|t' tks IH]; intros d; cbn [Pipeline.group_tickers].
  - cbn. rewrite app_nil_r. reflexivity.
  - rewrite IH. cbn [filter].
    destruct (str_eqb_spec t t') as [->|Hne].
    + rewrite dict_get_set_same. cbn [List.map].
      rewrite <- app_assoc. reflexivity.
    + rewrite dict_get_set_other by exact Hne. reflexivity.
Qed.

Lemma group_tickers_present (t : pystr) (item : DigestItem) :
  forall (tks : list pystr) (d : dict (list DigestItem)),
    (forall l, dict_get t d = Some l -> l <> []) ->
    forall l, dict_get t (Pipeline.group_tickers tks item d) = Some l ->
              l <> [].
Proof.
  induction tks as [|t' tks IH]; intros d Hd; cbn [Pipeline.group_tickers];
    [exact Hd|].
  apply IH. intros l.
  destruct (str_eqb_spec t t') as [->|Hne].
  - rewrite dict_get_set_same. intros H. apply Some_inj in H. subst l.
    intros Habs. apply app_eq_nil in Habs. destruct Habs as [_ Habs].
    discriminate Habs.
  - rewrite dict_get_set_other by exact Hne. apply Hd.
Qed.

Lemma group_by_ticker_get (t : pystr) (digest_items : list DigestItem) :
  dict_get t (Pipeline.group_by_ticker digest_items)
  = match flat_map (Pipeline.entries_for t) digest_items with
    | [] => None
    | l => Some l
    end.
Proof.
  unfold Pipeline.group_by_ticker.
  assert (Hgen : forall (ds : list DigestItem) (d : dict (list DigestItem)),
    (forall l, dict_get t d = Some l -> l <> []) ->
    (forall l,
        dict_get t
          (fold_left
             (fun by_ticker item =>
                Pipeline.group_tickers
                  (Pipeline.item_tickers (news item)) item by_ticker)
             ds d) = Some l -> l <> [])
    /\ match dict_get t
               (fold_left
                  (fun by_ticker item =>
                     Pipeline.group_tickers
                       (Pipeline.item_tickers (news item)) item by_ticker)
                  ds d) with
       | Some l => l
       | None => []
       end
       = match dict_get t d with Some l => l | None => [] end
         ++ flat_map (Pipeline.entries_for t) ds).
  { induction ds as [|item ds IH]; intros d Hd; cbn [fold_left flat_map].
    - split; [exact Hd | rewrite app_nil_r; reflexivity].
    - destruct (IH (Pipeline.group_tickers
                      (Pipeline.item_tickers (news item)) item d))
        as [Hne Heq].
      { apply group_tickers_present. exact Hd. }
      split; [exact Hne|].
      rewrite Heq, group_tickers_get, <- app_assoc. reflexivity. }
  destruct (Hgen digest_items []) as [Hne Heq]; [discriminate|].
  cbn [dict_get app] in Heq. rewrite <- Heq.
  destruct (dict_get t _) as [l|] eqn:E; [|reflexivity].
  specialize (Hne l eq_refl). destruct l; [congruence | reflexivity].
Qed.

(** X26. [by_ticker] files under each ticker the items that list it, in
    digest order, an item once for each time it lists the ticker; a
    ticker that no item lists has no entry, and an item without tickers
    appears in no group. *)
Theorem by_ticker_groups_items_in_order :
  forall (digest : Digest) (ticker : pystr),
    dict_get ticker (by_ticker digest)
    = match flat_map (Pipeline.entries_for ticker) (items digest) with
      | [] => None
      | group => Some group
      end.
Proof.
  intros digest ticker. unfold by_ticker. apply group_by_ticker_get.
Qed.

(** ** Pipeline: one summary for each ticker of the digest *)

Lemma dict_set_NoDup_keys (V : Type) (k : pystr) (v : V) (d : dict V) :
  NoDup (dict_keys d) -> NoDup (dict_keys (dict_set k v d)).
Proof.
  induction d as [|[k' v'] d IH]; cbn [dict_set dict_keys List.map fst].
  - intros _. constructor; [intros [] | constructor].
  - intros H. inversion H as [|x xs Hnot Hrest]; subst.
    destruct (str_eqb_spec k k') as [->|Hne];
      cbn [dict_keys List.map fst]; [exact H|].
    constructor; [|apply IH; exact Hrest].
    intros Hin. apply dict_set_keys_in in Hin. destruct Hin as [E|Hin].
    + apply Hne. symmetry. exact E.
    + apply Hnot. exact Hin.
Qed.

Lemma group_by_ticker_NoDup (digest_items : list DigestItem) :
  NoDup (dict_keys (Pipeline.group_by_ticker digest_items)).
Proof.
  unfold Pipeline.group_by_ticker.
  assert (Hgen : forall (ds : list DigestItem) (d : dict (list DigestItem)),
    NoDup (dict_keys d) ->
    NoDup (dict_keys
             (fold_left
                (fun by_ticker item =>
                   Pipeline.group_tickers
                     (Pipeline.item_tickers (news item)) item by_ticker)
                ds d))).
  { induction ds as [|item ds IH]; intros d Hd; cbn [fold_left]; [exact Hd|].
    apply IH. generalize (Pipeline.item_tickers (news item)). intros tks.
    revert d Hd. induction tks as [|t tks IHt]; intros d Hd;
      cbn [Pipeline.group_tickers]; [exact Hd|].
    apply IHt. apply dict_set_NoDup_keys. exact Hd. }
  apply Hgen. constructor.
Qed.

Section SummariesCover.
Variable w : Pipeline.World.

Lemma ticker_summary_step_count (company_names thesis_map : dict pystr)
    (ticker : pystr) (ds : list DigestItem) (s s1 : Pipeline.Stats)
    (summary : TickerSummary.t) :
  Pipeline.try_except
    (Pipeline.ai_summary w company_names thesis_map ticker ds)
    (fun _ => Pipeline.ret
                (Pipeline.counting_summary (py "Summary generation failed")
                   company_names ticker ds)) s
  = (Return summary, s1) ->
  TickerSummary.news_count summary = Pipeline.Zlen ds.
Proof.
  unfold Pipeline.try_except, Pipeline.ai_summary, Pipeline.bind,
    Pipeline.call, Pipeline.ret.
  assert (Hfallback : forall e : exn,
    (if is_Exception e
     then (Return (Pipeline.counting_summary (py "Summary generation failed")
                     company_names ticker ds), s)
     else (Raise e, s)) = (Return summary, s1) ->
    TickerSummary.news_count summary = Pipeline.Zlen ds).
  { intros e. destruct (is_Exception e); [|discriminate].
    intros H.
    assert (summary = Pipeline.counting_summary (py "Summary generation failed")
                        company_names ticker ds) as -> by congruence.
    reflexivity. }
  destruct (Pipeline.provider_generate_ticker_summary w _ _ _ _)
    as [[[summary_data tokens] cost]|e]; [|apply Hfallback].
  destruct (Pipeline.slice3 _) as [key_events|e]; [|apply Hfallback].
  intros H.
  match type of H with
  | (Return ?x, _) = _ => assert (summary = x) as -> by congruence
  end.
  reflexivity.
Qed.

Lemma summaries_loop_cover (company_names thesis_map : dict pystr) :
  forall (groups : dict (list DigestItem))
         (summaries result : dict TickerSummary.t) (s s' : Pipeline.Stats),
    NoDup (dict_keys summaries ++ dict_keys groups) ->
    Pipeline.summaries_loop w company_names thesis_map groups summaries s
    = (Return result, s') ->
    dict_keys result = dict_keys summaries ++ dict_keys groups
    /\ forall t : pystr,
         match dict_get t groups with
         | Some group =>
             exists summary : TickerSummary.t,
               dict_get t result = Some summary
               /\ TickerSummary.news_count summary = Pipeline.Zlen group
         | None => dict_get t result = dict_get t summaries
         end.
Proof.
  induction groups as [|[ticker ds] rest IH];
    intros summaries result s s' Hnd; cbn [Pipeline.summaries_loop].
  - unfold Pipeline.ret. intros H.
    assert (result = summaries) as -> by congruence.
    cbn [dict_keys List.map]. rewrite app_nil_r.
    split; [reflexivity | intros t; reflexivity].
  - intros H. apply bind_Return in H.
    destruct H as (summary & s1 & Hstep & H).
    apply ticker_summary_step_count in Hstep.
    cbn [dict_keys List.map fst] in Hnd. fold (dict_keys rest) in Hnd.
    fold (dict_keys summaries) in Hnd.
    assert (Hnew : dict_get ticker summaries = None).
    { apply dict_get_None_keys. intros Hin.
      apply NoDup_remove_2 in Hnd. apply Hnd. apply in_or_app. left.
      exact Hin. }
    assert (Hrest : dict_get ticker rest = None).
    { apply dict_get_None_keys. intros Hin.
      apply NoDup_remove_2 in Hnd. apply Hnd. apply in_or_app. right.
      exact Hin. }
    rewrite (@dict_set_new _ _ _ _ Hnew) in H.
    apply IH in H.
    + destruct H as [Hkeys Hget]. split.
      * rewrite Hkeys. unfold dict_keys. rewrite map_app, <- app_assoc.
        reflexivity.
      * intros t. specialize (Hget t). cbn [dict_get].
        destruct (str_eqb_spec t ticker) as [->|Hne].
        -- rewrite Hrest in Hget. exists summary.
           split; [|exact Hstep]. rewrite Hget.
           rewrite <- (@dict_set_new _ _ _ _ Hnew). apply dict_get_set_same.
        -- destruct (dict_get t rest) as [group|]; [exact Hget|].
           rewrite Hget, <- (@dict_set_new _ _ _ _ Hnew).
           apply dict_get_set_other. exact Hne.
    + unfold dict_keys. rewrite map_app, <- app_assoc. exact Hnd.
Qed.

Lemma counting_fold_cover (thesis_impact : pystr)
    (company_names : dict pystr) :
  forall (groups : dict (list DigestItem)) (summaries : dict TickerSummary.t),
    NoDup (dict_keys summaries ++ dict_keys groups) ->
    dict_keys
      (fold_left
         (fun summaries g =>
            dict_set (fst g)
              (Pipeline.counting_summary thesis_impact company_names
                 (fst g) (snd g)) summaries) groups summaries)
    = dict_keys summaries ++ dict_keys groups
    /\ forall t : pystr,
         match dict_get t groups with
         | Some group =>
             exists summary : TickerSummary.t,
               dict_get t
                 (fold_left
                    (fun summaries g =>
                       dict_set (fst g)
                         (Pipeline.counting_summary thesis_impact
                            company_names (fst g) (snd g)) summaries)
                    groups summaries) = Some summary
               /\ TickerSummary.news_count summary = Pipeline.Zlen group
         | None =>
             dict_get t
               (fold_left
                  (fun summaries g =>
                     dict_set (fst g)
                       (Pipeline.counting_summary thesis_impact
                          company_names (fst g) (snd g)) summaries)
                  groups summaries) = dict_get t summaries
         end.
Proof.
  induction groups as [|[ticker ds] rest IH]; intros summaries Hnd;
    cbn [fold_left fst snd].
  - cbn [dict_keys List.map]. rewrite app_nil_r.
    split; [reflexivity | intros t; reflexivity].
  - cbn [dict_keys List.map fst] in Hnd. fold (dict_keys rest) in Hnd.
    fold (dict_keys summaries) in Hnd.
    assert (Hnew : dict_get ticker summaries = None).
    { apply dict_get_None_keys. intros Hin.
      apply NoDup_remove_2 in Hnd. apply Hnd. apply in_or_app. left.
      exact Hin. }
    assert (Hrest : dict_get ticker rest = None).
    { apply dict_get_None_keys. intros Hin.
      apply NoDup_remove_2 in Hnd. apply Hnd. apply in_or_app. right.
      exact Hin. }
    rewrite (@dict_set_new _ _ _ _ Hnew).
    destruct (IH (summaries
                  ++ [(ticker,
                       Pipeline.counting_summary thesis_impact company_names
                         ticker ds)])) as [Hkeys Hget].
    { unfold dict_keys. rewrite map_app, <- app_assoc. exact Hnd. }
    split.
    + rewrite Hkeys. unfold dict_keys. rewrite map_app, <- app_assoc.
      reflexivity.
    + intros t. specialize (Hget t). cbn [dict_get].
      destruct (str_eqb_spec t ticker) as [->|Hne].
      * rewrite Hrest in Hget.
        exists (Pipeline.counting_summary thesis_impact company_names
                  ticker ds).
        split; [|reflexivity].
        rewrite Hget, <- (@dict_set_new _ _ _ _ Hnew). apply dict_get_set_same.
      * destruct (dict_get t rest) as [group|]; [exact Hget|].
        rewrite Hget, <- (@dict_set_new _ _ _ _ Hnew).
        apply dict_get_set_other. exact Hne.
Qed.

Lemma generate_ticker_summaries_cover (digest_items : list DigestItem)
    (watchlist : list Pipeline.WatchlistItem) (thesis_map : dict pystr)
    (result : dict TickerSummary.t) (s s' : Pipeline.Stats) :
  Pipeline._generate_ticker_summaries w digest_items watchlist thesis_map s
  = (Return result, s') ->
  dict_keys result = dict_keys (Pipeline.group_by_ticker digest_items)
  /\ forall t : pystr,
       match dict_get t (Pipeline.group_by_ticker digest_items) with
       | Some group =>
           exists summary : TickerSummary.t,
             dict_get t result = Some summary
             /\ TickerSummary.news_count summary = Pipeline.Zlen group
       | None => dict_get t result = None
       end.
Proof.
  unfold Pipeline._generate_ticker_summaries.
  pose proof (group_by_ticker_NoDup digest_items) as Hnd.
  destruct (Pipeline.group_by_ticker digest_items) as [|g groups] eqn:Eg.
  { unfold Pipeline.ret. intros H.
    assert (result = []) as -> by congruence.
    split; [reflexivity | intros t; reflexivity]. }
  cbv zeta.
  match goal with
  | |- context [fold_left ?f watchlist []] =>
      generalize (fold_left f watchlist [])
  end.
  intros company_names.
  destruct (Pipeline.get_ai_provider w) as [[]|e].
  - intros H. apply summaries_loop_cover in H; [|exact Hnd]. exact H.
  - destruct (is_Exception e); [|discriminate].
    intros H.
    match type of H with
    | (Return ?x, _) = _ => assert (result = x) as -> by congruence
    end.
    apply (@counting_fold_cover (py "Requires manual assessment")
             company_names (g :: groups) []). exact Hnd.
Qed.

End SummariesCover.

(** X27. [_generate_ticker_summaries] returns one summary for each
    ticker that the digest items list, in the order in which the tickers
    first appear, and none for any other ticker; this holds without a
    provider and when the summary of a ticker fails.  The [news_count] of
    a summary is the size of the ticker's group. *)
Theorem ticker_summaries_cover_every_ticker :
  forall (w : Pipeline.World) (digest_items : list DigestItem)
         (watchlist : list Pipeline.WatchlistItem) (thesis_map : dict pystr)
         (summaries : dict TickerSummary.t) (s s' : Pipeline.Stats),
    Pipeline._generate_ticker_summaries w digest_items watchlist thesis_map s
    = (Return summaries, s') ->
    dict_keys summaries = dict_keys (Pipeline.group_by_ticker digest_items)
    /\ forall ticker : pystr,
         match dict_get ticker (Pipeline.group_by_ticker digest_items) with
         | Some group =>
             exists summary : TickerSummary.t,
               dict_get ticker summaries = Some summary
               /\ TickerSummary.news_count summary = Pipeline.Zlen group
         | None => dict_get ticker summaries = None
         end.
Proof.
  intros w digest_items watchlist thesis_map summaries s s' H.
  eapply generate_ticker_summaries_cover. exact H.
Qed.

Lemma ticker_summaries_cover_every_ticker_witness :
  exists summaries : dict TickerSummary.t,
    Pipeline._generate_ticker_summaries sample_world
      [{| news := sample_news (py "Fed holds rates"); analysis := None |}]
      [] [] Pipeline.initial_stats
    = (Return summaries, Pipeline.initial_stats)
    /\ dict_keys summaries = [py "NVDA"].
Proof.
  eexists. split; [vm_compute; reflexivity|].
  apply (@ticker_summaries_cover_every_ticker sample_world
           [{| news := sample_news (py "Fed holds rates"); analysis := None |}]
           [] [] _ Pipeline.initial_stats Pipeline.initial_stats).
  vm_compute. reflexivity.
Defined.

(** ** Pipeline: the counters of the digest that [run] returns *)

Lemma apply_limit_length (limit_per_ticker : option Z)
    (l : list Pipeline.normalized_item) :
  (List.length (Pipeline.apply_limit limit_per_ticker l) <= List.length l)%nat.
Proof.
  unfold Pipeline.apply_limit.
  destruct limit_per_ticker as [limit|]; [|lia].
  destruct (limit =? 0)%Z; [lia|].
  destruct (@limit_loop_result limit l [] [])
    as (added & Heq & Hsub & _).
  { intros t. reflexivity. }
  rewrite Heq. cbn [app]. apply Subseq_length. exact Hsub.
Qed.

Lemma filter_length_split (A : Type) (f : A -> bool) (l : list A) :
  (List.length (filter f l) + List.length (filter (fun x => negb (f x)) l)
   = List.length l)%nat.
Proof.
  induction l as [|x l IH]; [reflexivity|].
  cbn [filter]. destruct (f x); cbn [negb List.length]; lia.
Qed.

Section RunCounters.
Variable U : UnicodeData.
Variable sha256_hexdigest : pystr -> pystr.
Variable Simhash : pystr -> N.
Variable SIMHASH_AVAILABLE : bool.
Variable str_of_exn : exn -> pystr.
Variable w : Pipeline.World.
Variable specified_tickers : option (list pystr).
Variable limit_per_ticker : option Z.

Lemma run_steps_digest (run_id : pystr) (digest : Digest)
    (s' : Pipeline.Stats) :
  Pipeline.run_steps U sha256_hexdigest Simhash SIMHASH_AVAILABLE w
    specified_tickers limit_per_ticker run_id Pipeline.initial_stats
  = (Return digest, s') ->
  total_analyzed digest = Pipeline.Zlen (filter is_analyzed (items digest))
  /\ total_failed digest
     = match Pipeline.get_ai_provider w with
       | Return _ =>
           Pipeline.Zlen (filter (fun item => negb (is_analyzed item))
                                 (items digest))
       | Raise _ => 0%Z
       end
  /\ (Pipeline.Zlen (items digest) <= total_after_dedup digest)%Z
  /\ (total_after_dedup digest <= total_collected digest)%Z.
Proof.
  unfold Pipeline.run_steps. intros H.
  apply bind_Return in H. destruct H as (watchlist & s1 & Hw & H).
  unfold Pipeline.call in Hw.
  assert (s1 = Pipeline.initial_stats) as -> by congruence. clear Hw.
  apply bind_Return in H. destruct H as (raw_items & s2 & Hc & H).
  pose proof (collect_news_stats w
                match specified_tickers with
                | Some (t :: ts) => t :: ts
                | _ => List.map Pipeline.wl_ticker watchlist
                end Pipeline.initial_stats) as Hcs.
  rewrite Hc in Hcs. cbn [snd] in Hcs. subst s2. clear Hc.
  apply bind_Return in H. destruct H as ([] & s3 & Hs3 & H).
  unfold Pipeline.set_stats in Hs3.
  destruct (Normalizer.process U sha256_hexdigest Simhash SIMHASH_AVAILABLE
              (85 # 100) (Pipeline.utcnow w) raw_items)
    as [[normalized total_before] removed] eqn:Ep.
  apply process_result in Ep.
  destruct Ep as (Htotal & Hrem & Hsum & _).
  apply bind_Return in H. destruct H as ([] & s4 & Hs4 & H).
  unfold Pipeline.set_stats in Hs4.
  apply bind_Return in H. destruct H as ([] & s5 & Hs5 & H).
  unfold Pipeline.set_stats in Hs5.
  apply bind_Return in H. destruct H as (digest_items & s6 & Ha & H).
  apply bind_Return in H. destruct H as (summaries & s7 & Hg & H).
  apply generate_ticker_summaries_result in Hg. destruct Hg as [-> _].
  apply bind_Return in H. destruct H as (stats & s8 & Hget & H).
  unfold Pipeline.get_stats in Hget.
  assert (stats = s6) as -> by congruence.
  assert (s8 = s6) as -> by congruence. clear Hget.
  apply bind_Return in H. destruct H as ([] & s9 & _ & H).
  apply bind_Return in H. destruct H as ([] & s10 & _ & H).
  unfold Pipeline.ret in H.
  match type of H with
  | (Return ?d, _) = _ => assert (digest = d) as -> by congruence
  end.
  clear H.
  cbn [items total_analyzed total_failed total_after_dedup total_collected].
  assert (s3 = Pipeline.with_raw_collected (Pipeline.Zlen raw_items)
                 Pipeline.initial_stats) as -> by congruence.
  assert (s4 = Pipeline.with_after_normalize (Pipeline.Zlen normalized)
                 (Pipeline.with_raw_collected (Pipeline.Zlen raw_items)
                    Pipeline.initial_stats)) as -> by congruence.
  assert (s5 = Pipeline.with_after_dedup (Pipeline.Zlen normalized)
                 (Pipeline.with_after_normalize (Pipeline.Zlen normalized)
                    (Pipeline.with_raw_collected (Pipeline.Zlen raw_items)
                       Pipeline.initial_stats))) as -> by congruence.
  clear Hs3 Hs4 Hs5.
  pose proof (apply_limit_length limit_per_ticker normalized) as Hlim.
  apply analyze_and_save_result in Ha.
  destruct Ha as (Hlen & Hok & Hfail & Hnone & Hd & Hr).
  cbn [Pipeline.with_after_dedup Pipeline.with_after_normalize
       Pipeline.with_raw_collected Pipeline.initial_stats
       Pipeline.analyzed_success Pipeline.analyzed_failed
       Pipeline.after_dedup Pipeline.raw_collected] in Hok, Hfail, Hd, Hr.
  rewrite Hd, Hr. unfold Pipeline.Zlen, Pipeline.normalized_item in *.
  split; [lia|].
  split; [|split; lia].
  destruct (Pipeline.get_ai_provider w) as [[]|e].
  - rewrite (Hfail eq_refl). lia.
  - destruct Hnone as (-> & _); [discriminate | reflexivity].
Qed.

(** [run] returns a digest only when its steps produced it. *)
Lemma run_returned_digest (run_id : pystr) (digest : Digest) :
  Pipeline.returned
    (Pipeline.run U sha256_hexdigest Simhash SIMHASH_AVAILABLE str_of_exn w
       specified_tickers limit_per_ticker run_id) = Return digest ->
  exists s' : Pipeline.Stats,
    Pipeline.run_steps U sha256_hexdigest Simhash SIMHASH_AVAILABLE w
      specified_tickers limit_per_ticker run_id Pipeline.initial_stats
    = (Return digest, s').
Proof.
  unfold Pipeline.run.
  destruct (Pipeline.run_steps U sha256_hexdigest Simhash SIMHASH_AVAILABLE w
              specified_tickers limit_per_ticker run_id
              Pipeline.initial_stats) as [[d|e] s1].
  - destruct (Pipeline._update_pipeline_run w _ _ s1);
      cbn [Pipeline.returned]; intros H; [|discriminate].
    exists s1. congruence.
  - destruct (is_Exception e);
      [destruct (Pipeline._update_pipeline_run w _ _ s1)|];
      cbn [Pipeline.returned]; discriminate.
Qed.

End RunCounters.

(** X28. The counters of a digest that [run] returns describe its
    items: [total_analyzed] is the number of items with an analysis;
    with a provider [total_failed] is the number of items without one,
    so the two add up to the number of items, and without a provider it
    is 0.  The digest never holds more items than [total_after_dedup],
    which never exceeds [total_collected]. *)
Theorem run_digest_counters_describe_items :
  forall (U : UnicodeData) (sha256_hexdigest : pystr -> pystr)
         (Simhash : pystr -> N) (SIMHASH_AVAILABLE : bool)
         (str_of_exn : exn -> pystr) (w : Pipeline.World)
         (specified_tickers : option (list pystr))
         (limit_per_ticker : option Z) (run_id : pystr) (digest : Digest),
    Pipeline.returned
      (Pipeline.run U sha256_hexdigest Simhash SIMHASH_AVAILABLE str_of_exn
         w specified_tickers limit_per_ticker run_id) = Return digest ->
    total_analyzed digest = Pipeline.Zlen (filter is_analyzed (items digest))
    /\ total_failed digest
       = match Pipeline.get_ai_provider w with
         | Return _ =>
             Pipeline.Zlen (filter (fun item => negb (is_analyzed item))
                                   (items digest))
         | Raise _ => 0%Z
         end
    /\ (Pipeline.Zlen (items digest) <= total_after_dedup digest)%Z
    /\ (total_after_dedup digest <= total_collected digest)%Z.
Proof.
  intros U sha Simhash avail str_of_exn w specified_tickers limit_per_ticker
    run_id digest H.
  apply run_returned_digest in H. destruct H as [s' H].
  eapply run_steps_digest. exact H.
Qed.

Lemma run_digest_counters_describe_items_witness :
  exists digest : Digest,
    Pipeline.returned
      (Pipeline.run ascii_only sample_digest sample_simhash false
         sample_str_of_exn sample_world None None (py "run-1"))
    = Return digest
    /\ total_analyzed digest = 0%Z
    /\ total_failed digest = 1%Z.
Proof.
  eexists. split; [vm_compute; reflexivity|].
  match goal with
  | |- total_analyzed ?d = _ /\ _ =>
      destruct (@run_digest_counters_describe_items ascii_only sample_digest
                  sample_simhash false sample_str_of_exn sample_world None
                  None (py "run-1") d) as (Ha & Hf & _)
  end.
  - vm_compute. reflexivity.
  - split; [rewrite Ha | rewrite Hf]; vm_compute; reflexivity.
Defined.
